(** * Inventory and sales API: the request handlers over a modelled session

    A shallow embedding of the FastAPI handlers of [app_api/routers] and of
    the models they use.

    - Python [int] is [Z]; [float] and the store's [DECIMAL] columns are
      rationals [Q]; a value written to a [DECIMAL(m, 2)] column is kept
      at two decimal places ([decimal_2]); [datetime] is a [Z] count of
      microseconds; [Optional[T]] is [option T].
    - Python [str] is [string].  [lower] and [capitalize] map the ASCII
      letters and leave every other byte as it is; [str.upper] is a
      parameter of the handlers that call it, and [ascii_upper] is what it
      does on ASCII text.
    - A table is the list of its rows in insertion order.  A SQLAlchemy
      session is a state: the committed tables, the tables as the open
      transaction sees them, the AUTO_INCREMENT counters and the objects
      added but not yet flushed.  [get_db] opens a session on the store
      and closes it when the handler has returned or raised; what was not
      committed is lost with it.
    - A handler is a computation in a state-and-exception monad over the
      session; [raise HTTPException(...)] is [raise].  Where a statement
      is about the body of a request, the body is validated into the
      request model before the handler runs ([with_body]).
    - The triggers and views of the schema are not part of the sources:
      the two views are read as tables of the store, and no trigger runs. *)

From Stdlib Require Import ZArith QArith Qround List String Ascii Bool Lia.
From Stdlib Require Import DecimalString Permutation Qabs Lqa.
Import ListNotations.

Local Open Scope Z_scope.
Local Open Scope string_scope.

(** ** Python built-ins used by the handlers *)

Definition is_ascii_lower (c : ascii) : bool :=
  let n := N_of_ascii c in ((97 <=? n) && (n <=? 122))%N.

Definition is_ascii_upper (c : ascii) : bool :=
  let n := N_of_ascii c in ((65 <=? n) && (n <=? 90))%N.

Definition chr_upper (c : ascii) : ascii :=
  if is_ascii_lower c then ascii_of_N (N_of_ascii c - 32) else c.

Definition chr_lower (c : ascii) : ascii :=
  if is_ascii_upper c then ascii_of_N (N_of_ascii c + 32) else c.

Fixpoint str_map (f : ascii -> ascii) (s : string) : string :=
  match s with
  | EmptyString => EmptyString
  | String c r => String (f c) (str_map f r)
  end.

(** [s.upper()] and [s.lower()] on ASCII text. *)
Definition ascii_upper (s : string) : string := str_map chr_upper s.
Definition lower (s : string) : string := str_map chr_lower s.

(** [s.capitalize()]: first character upper-cased, the rest lower-cased. *)
Definition capitalize (s : string) : string :=
  match s with
  | EmptyString => EmptyString
  | String c r => String (chr_upper c) (lower r)
  end.

(** [str(n)] for an int, as f-strings render it. *)
Definition str (n : Z) : string := NilZero.string_of_int (Z.to_int n).

(** [sep.join(l)] *)
Fixpoint join (sep : string) (l : list string) : string :=
  match l with
  | [] => ""
  | [x] => x
  | x :: r => x ++ sep ++ join sep r
  end.

(** [x in l] for a list or set of strings. *)
Definition str_in (x : string) (l : list string) : bool :=
  existsb (String.eqb x) l.

(** [if x:] on an [Optional[str]]: the value when it is neither [None] nor
    the empty string. *)
Definition truthy_str (o : option string) : option string :=
  match o with
  | Some s => if String.eqb s "" then None else Some s
  | None => None
  end.

(** [if x:] on an [Optional[int]]: the value when it is neither [None] nor
    zero. *)
Definition truthy_int (o : option Z) : option Z :=
  match o with
  | Some n => if (n =? 0)%Z then None else Some n
  | None => None
  end.

Definition Qgtb (x y : Q) : bool := negb (Qle_bool x y).

(** [round(x, 2)] in exact arithmetic: nearest multiple of 1/100, a tie
    going to the even one. *)
Definition round2 (x : Q) : Q :=
  let y := (x * 100)%Q in
  let f := Qfloor y in
  let d := (y - inject_Z f)%Q in
  let n :=
    if Qgtb d (1 # 2) then f + 1
    else if Qgtb (1 # 2) d then f
    else if Z.even f then f else f + 1 in
  Qred (inject_Z n / 100)%Q.

(** What a [DECIMAL(m, 2)] column keeps of a value written to it: the
    nearest multiple of 1/100, a tie going away from zero. *)
Definition decimal_2 (x : Q) : Q :=
  let n := Qfloor (Qabs x * 100 + (1 # 2))%Q in
  Qred ((Z.sgn (Qnum x) * n) # 100).
Arguments decimal_2 : simpl never.

(** ** Exceptions and results *)

Inductive exn : Type :=
| HTTPException (status_code : Z) (detail : string)
| ZeroDivisionError
| ValidationError
| RequestValidationError
| IntegrityError
| InvalidRequestError.

Inductive Result (A : Type) : Type :=
| Ok (a : A)
| Raise (e : exn).
Arguments Ok {A} a.
Arguments Raise {A} e.

(** [a / b] on floats. *)
Definition truediv (a b : Q) : Result Q :=
  if Qeq_bool b 0 then Raise ZeroDivisionError else Ok (a / b)%Q.

(** ** models/sqlalchemy_models.py *)

Module CategoryDB.
Record t := mk { category_id : Z; name : string }.
End CategoryDB.

Module ProductDB.
Record t := mk {
  product_id : Z;
  name : string;
  category_id : option Z;
  sku : option string;
  price : Q;
  reorder_level : Z
}.
(** The row an INSERT of [r] leaves under the key [i]: the key is the
    store's, a [DECIMAL] column keeps two decimal places. *)
Definition inserted (i : Z) (r : t) : t :=
  mk i (name r) (category_id r) (sku r) (decimal_2 (price r)) (reorder_level r).
End ProductDB.

Module SaleDB.
Record t := mk {
  sale_id : Z;
  sale_datetime : Z;
  total_amount : Q;
  payment_method : string;
  notes : option string
}.
Definition inserted (i : Z) (r : t) : t :=
  mk i (sale_datetime r) (decimal_2 (total_amount r)) (payment_method r) (notes r).
End SaleDB.

Module SaleItemDB.
Record t := mk {
  sale_item_id : Z;
  sale_id : Z;
  product_id : Z;
  quantity : Z;
  unit_price : Q;
  discount : Q
}.
Definition inserted (i : Z) (r : t) : t :=
  mk i (sale_id r) (product_id r) (quantity r) (decimal_2 (unit_price r))
     (decimal_2 (discount r)).
End SaleItemDB.

Module StockInDB.
Record t := mk {
  stock_in_id : Z;
  ref_no : option string;
  stock_in_date : Z;
  total_cost : Q;
  notes : option string
}.
Definition inserted (i : Z) (r : t) : t :=
  mk i (ref_no r) (stock_in_date r) (decimal_2 (total_cost r)) (notes r).
End StockInDB.

Module StockInItemDB.
Record t := mk {
  stock_in_item_id : Z;
  stock_in_id : Z;
  product_id : Z;
  quantity : Z;
  unit_cost : Q
}.
Definition inserted (i : Z) (r : t) : t :=
  mk i (stock_in_id r) (product_id r) (quantity r) (decimal_2 (unit_cost r)).
End StockInItemDB.

Module InventoryMovementDB.
Record t := mk {
  movement_id : Z;
  product_id : Z;
  movement_type : string;
  quantity : Z;
  unit_cost : option Q;
  sale_price : option Q;
  sale_item_id : option Z;
  stock_in_item_id : option Z;
  movement_date : Z
}.
Definition with_movement_type (ty : string) (r : t) : t :=
  mk (movement_id r) (product_id r) ty (quantity r) (unit_cost r)
     (sale_price r) (sale_item_id r) (stock_in_item_id r) (movement_date r).
End InventoryMovementDB.

Module ProductStockView.
Record t := mk {
  product_id : Z;
  name : string;
  price : Q;
  reorder_level : Z;
  stock_on_hand : Z;
  needs_restock : Z
}.
End ProductStockView.

Module ProfitabilityReportView.
Record t := mk {
  sale_item_id : Z;
  sale_id : Z;
  sale_datetime : Z;
  product_id : Z;
  product_name : string;
  quantity : Z;
  unit_price : Q;
  discount : Q;
  total_revenue : Q;
  average_cost_at_sale : Q;
  total_cogs : Q;
  gross_profit : Q
}.
End ProfitabilityReportView.

(** ** models/request_models.py *)

Module ProductCreate.
Record t := mk {
  name : string;
  category_id : option Z;
  sku : option string;
  price : Q;
  reorder_level : Z
}.
(** Building the model from a request body: [None] for [category_id] and
    [sku] is their default; [reorder_level] left out of the body is
    [None] here and takes the declared default.  No field carries a
    constraint. *)
Definition build (name : string) (category_id : option Z)
    (sku : option string) (price : Q) (reorder_level : option Z) : t :=
  mk name category_id sku price
     (match reorder_level with Some r => r | None => 10 end).
End ProductCreate.

Module ProductUpdate.
Record t := mk {
  name : option string;
  category_id : option Z;
  sku : option string;
  price : option Q;
  reorder_level : option Z
}.
Definition len (s : string) : Z := Z.of_nat (String.length s).
(** The [Field(...)] constraints: name 1..150 characters, sku at most 64,
    price [gt=0]. *)
Definition validate (u : t) : Result t :=
  let name_ok :=
    match name u with
    | Some s => ((1 <=? len s) && (len s <=? 150))%Z
    | None => true
    end in
  let sku_ok :=
    match sku u with Some s => (len s <=? 64)%Z | None => true end in
  let price_ok :=
    match price u with Some p => Qgtb p 0 | None => true end in
  if name_ok && sku_ok && price_ok then Ok u else Raise ValidationError.
End ProductUpdate.

Module SaleItemCreate.
Record t := mk {
  product_id : Z;
  quantity : Z;
  unit_price : option Q;
  discount : Q
}.
Definition with_unit_price (p : option Q) (i : t) : t :=
  mk (product_id i) (quantity i) p (discount i).
End SaleItemCreate.

Module SaleCreate.
Record t := mk {
  sale_datetime : option Z;
  payment_method : string;
  notes : option string;
  items : list SaleItemCreate.t
}.
Definition with_payment_method (pm : string) (s : t) : t :=
  mk (sale_datetime s) pm (notes s) (items s).
End SaleCreate.

Module StockInItemCreate.
Record t := mk { product_id : Z; quantity : Z; unit_cost : Q }.
End StockInItemCreate.

Module StockInCreate.
Record t := mk {
  stock_in_date : option Z;
  ref_no : option string;
  notes : option string;
  items : list StockInItemCreate.t
}.
End StockInCreate.

Module InventoryMovementUpdate.
(** [movement_type: str = None]: the attribute is [None] only when the
    body leaves the field out. *)
Record t := mk { movement_type : option string }.
(** What the JSON body of a request holds for the field: nothing, a
    null, a string, or a value of another kind. *)
Inductive body : Type :=
| Absent
| Null
| Str (s : string)
| NotStr.
(** Building the model from the body: the default is not validated, a
    value is, against [str], which only a string passes. *)
Definition validate (b : body) : Result t :=
  match b with
  | Absent => Ok (mk None)
  | Str s => Ok (mk (Some s))
  | Null | NotStr => Raise RequestValidationError
  end.
End InventoryMovementUpdate.

(** [PaginationParams]: [page >= 1], [1 <= limit <= 100].  Every search
    model below inherits the two fields and their bounds. *)
Definition PaginationParams_ok (page limit : Z) : Prop :=
  (1 <= page /\ 1 <= limit <= 100)%Z.

Module CategorySearchParams.
Record t := mk { page : Z; limit : Z; search : option string }.
End CategorySearchParams.

Module ProductSearchParams.
Record t := mk {
  page : Z; limit : Z;
  search : option string;
  category_id : option Z;
  min_price : option Q;
  max_price : option Q
}.
End ProductSearchParams.

Module SaleSearchParams.
Record t := mk {
  page : Z; limit : Z;
  search : option string;
  payment_method : option string;
  start_date : option string;
  end_date : option string
}.
End SaleSearchParams.

Module StockInSearchParams.
Record t := mk {
  page : Z; limit : Z;
  search : option string;
  start_date : option string;
  end_date : option string
}.
End StockInSearchParams.

Module InventoryMovementSearchParams.
Record t := mk {
  page : Z; limit : Z;
  product_id : option Z;
  movement_type : option string;
  start_date : option string;
  end_date : option string
}.
End InventoryMovementSearchParams.

Module ProductStockSearchParams.
Record t := mk {
  page : Z; limit : Z;
  search : option string;
  productFilter : option string
}.
End ProductStockSearchParams.

Module ProfitabilityReportSearchParams.
Record t := mk {
  page : Z; limit : Z;
  search : option string;
  product_id : option Z;
  start_date : option string;
  end_date : option string
}.
End ProfitabilityReportSearchParams.

(** ** models/response_models.py *)

Module PaginatedResponse.
Record t (T : Type) := mk {
  items : list T;
  total : Z;
  page : Z;
  limit : Z;
  total_pages : Z;
  has_next : bool;
  has_prev : bool
}.
Arguments mk {T}.
Arguments items {T}.
Arguments total {T}.
Arguments page {T}.
Arguments limit {T}.
Arguments total_pages {T}.
Arguments has_next {T}.
Arguments has_prev {T}.
End PaginatedResponse.

Module MostProfitableProduct.
Record t := mk { name : string; total_profit : Q }.
(** [total_profit: float = Field(ge=0)] *)
Definition build (name : string) (total_profit : Q) : Result t :=
  if Qle_bool 0 total_profit then Ok (mk name total_profit)
  else Raise ValidationError.
End MostProfitableProduct.

Module ProfitabilitySummary.
Record t := mk {
  total_sales : Z;
  total_revenue : Q;
  total_cogs : Q;
  total_gross_profit : Q;
  average_profit_margin : Q;
  top_profitable_products : option (list MostProfitableProduct.t)
}.
(** Every number [ge=0], the margin also [le=100]. *)
Definition build (total_sales : Z)
    (total_revenue total_cogs total_gross_profit average_profit_margin : Q)
    (top_profitable_products : option (list MostProfitableProduct.t))
    : Result t :=
  if (0 <=? total_sales)%Z
     && Qle_bool 0 total_revenue
     && Qle_bool 0 total_cogs
     && Qle_bool 0 total_gross_profit
     && Qle_bool 0 average_profit_margin
     && Qle_bool average_profit_margin 100
  then Ok (mk total_sales total_revenue total_cogs total_gross_profit
              average_profit_margin top_profitable_products)
  else Raise ValidationError.
End ProfitabilitySummary.

(** ** database.py: the store and the session *)

Module Tables.
Record t := mk {
  category : list CategoryDB.t;
  product : list ProductDB.t;
  sale : list SaleDB.t;
  sale_item : list SaleItemDB.t;
  stock_in : list StockInDB.t;
  stock_in_item : list StockInItemDB.t;
  inventory_movement : list InventoryMovementDB.t;
  v_product_stock : list ProductStockView.t;
  v_profitability_report : list ProfitabilityReportView.t
}.
End Tables.

(** The AUTO_INCREMENT counter of each table a handler inserts into.  A
    counter is not part of any transaction: a key taken by an INSERT that
    is rolled back is not given again. *)
Module Counters.
Record t := mk {
  product : Z;
  sale : Z;
  sale_item : Z;
  stock_in : Z;
  stock_in_item : Z
}.
End Counters.

Record Database := mkDatabase {
  tables : Tables.t;
  counters : Counters.t
}.

(** What a session holds until its next flush: objects passed to [db.add],
    and loaded objects with an attribute that was assigned. *)
Inductive Obj : Type :=
| NewProduct (r : ProductDB.t)
| NewSale (r : SaleDB.t)
| NewSaleItem (r : SaleItemDB.t)
| NewStockIn (r : StockInDB.t)
| NewStockInItem (r : StockInItemDB.t)
| DirtyMovementType (movement_id : Z) (movement_type : string).

Record Session := mkSession {
  committed : Tables.t;
  txn : Tables.t;
  auto_increment : Counters.t;
  pending : list Obj
}.

(** [SessionLocal()] *)
Definition SessionLocal (d : Database) : Session :=
  mkSession (tables d) (tables d) (counters d) [].

(** [db.close()]: the open transaction is rolled back. *)
Definition close (s : Session) : Database :=
  mkDatabase (committed s) (auto_increment s).

(** One INSERT or UPDATE of a flush; the result carries the primary key
    of the row written. *)
Definition write (o : Obj) (tb : Tables.t) (c : Counters.t)
    : Tables.t * Counters.t * Z :=
  let '(Tables.mk cat prd sal sit stk sti mov vps vpr) := tb in
  let '(Counters.mk c_prod c_sal c_sit c_stk c_sti) := c in
  match o with
  | NewProduct r =>
      (Tables.mk cat (prd ++ [ProductDB.inserted c_prod r])%list sal sit stk sti mov vps vpr,
       Counters.mk (c_prod + 1) c_sal c_sit c_stk c_sti, c_prod)
  | NewSale r =>
      (Tables.mk cat prd (sal ++ [SaleDB.inserted c_sal r])%list sit stk sti mov vps vpr,
       Counters.mk c_prod (c_sal + 1) c_sit c_stk c_sti, c_sal)
  | NewSaleItem r =>
      (Tables.mk cat prd sal (sit ++ [SaleItemDB.inserted c_sit r])%list stk sti mov vps vpr,
       Counters.mk c_prod c_sal (c_sit + 1) c_stk c_sti, c_sit)
  | NewStockIn r =>
      (Tables.mk cat prd sal sit (stk ++ [StockInDB.inserted c_stk r])%list sti mov vps vpr,
       Counters.mk c_prod c_sal c_sit (c_stk + 1) c_sti, c_stk)
  | NewStockInItem r =>
      (Tables.mk cat prd sal sit stk (sti ++ [StockInItemDB.inserted c_sti r])%list mov vps vpr,
       Counters.mk c_prod c_sal c_sit c_stk (c_sti + 1), c_sti)
  | DirtyMovementType id ty =>
      (Tables.mk cat prd sal sit stk sti
         (map (fun m => if (InventoryMovementDB.movement_id m =? id)%Z
                        then InventoryMovementDB.with_movement_type ty m
                        else m) mov)
         vps vpr,
       c, id)
  end.

Fixpoint write_all (os : list Obj) (tb : Tables.t) (c : Counters.t)
    : Tables.t * Counters.t * list Z :=
  match os with
  | [] => (tb, c, [])
  | o :: r =>
      let '(tb1, c1, k) := write o tb c in
      let '(tb2, c2, ks) := write_all r tb1 c1 in
      (tb2, c2, k :: ks)
  end.

(** ** Handlers as computations over the session *)

Definition M (A : Type) : Type := Session -> Result A * Session.

Definition ret {A} (a : A) : M A := fun s => (Ok a, s).

Definition raise {A} (e : exn) : M A := fun s => (Raise e, s).

Definition bind {A B} (m : M A) (k : A -> M B) : M B :=
  fun s =>
    match m s with
    | (Ok a, s') => k a s'
    | (Raise e, s') => (Raise e, s')
    end.

Declare Scope handler_scope.
Delimit Scope handler_scope with handler.
Notation "x <- m ;; k" := (bind m (fun x => k))
  (at level 61, m at next level, right associativity) : handler_scope.
Notation "m ;; k" := (bind m (fun _ => k))
  (at level 61, right associativity) : handler_scope.
Local Open Scope handler_scope.

(** A value computed outside the session (it may have raised). *)
Definition lift {A} (r : Result A) : M A := fun s => (r, s).

(** [for x in l: body] *)
Fixpoint for_each {A} (l : list A) (body : A -> M unit) : M unit :=
  match l with
  | [] => ret tt
  | x :: r => body x ;; for_each r body
  end.

(** [db.add(obj)] *)
Definition db_add (o : Obj) : M unit :=
  fun s => (Ok tt, mkSession (committed s) (txn s) (auto_increment s)
                             (pending s ++ [o])%list).

(** [db.flush()]: what is pending is written inside the transaction, in
    the order it was added; the keys written are what the objects hold
    afterwards. *)
Definition db_flush : M (list Z) :=
  fun s =>
    let '(tb, c, ks) := write_all (pending s) (txn s) (auto_increment s) in
    (Ok ks, mkSession (committed s) tb c []).

(** [db.commit()]: flush, then the transaction becomes the store. *)
Definition db_commit : M (list Z) :=
  fun s =>
    let '(tb, c, ks) := write_all (pending s) (txn s) (auto_increment s) in
    (Ok ks, mkSession tb tb c []).

(** [db.query(T)]: the rows of a table as the transaction sees them. *)
Definition db_query {A} (table : Tables.t -> list A) : M (list A) :=
  fun s => (Ok (table (txn s)), s).

(** [q.first()] *)
Definition first {A} (q : list A) : option A := hd_error q.

(** [q.count()] *)
Definition count {A} (q : list A) : Z := Z.of_nat (List.length q).

(** [q.offset(o).limit(n).all()] *)
Definition offset_limit {A} (o n : Z) (q : list A) : list A :=
  firstn (Z.to_nat n) (skipn (Z.to_nat o) q).

(** [q.order_by(...)]: a stable insertion sort; [leb a b] says that [a]
    may stay before [b]. *)
Fixpoint insert_by {A} (leb : A -> A -> bool) (x : A) (l : list A) : list A :=
  match l with
  | [] => [x]
  | y :: r => if leb x y then x :: l else y :: insert_by leb x r
  end.

Definition order_by {A} (leb : A -> A -> bool) (q : list A) : list A :=
  fold_right (insert_by leb) [] q.

Definition asc {A} (key : A -> Z) (a b : A) : bool := (key a <=? key b)%Z.
Definition desc {A} (key : A -> Z) (a b : A) : bool := (key b <=? key a)%Z.

(** [db.refresh(obj)]: the row is read again by its key. *)
Definition db_refresh {A} (table : Tables.t -> list A) (key : A -> Z) (k : Z)
    : M A :=
  fun s =>
    match find (fun r => (key r =? k)%Z) (table (txn s)) with
    | Some r => (Ok r, s)
    | None => (Raise InvalidRequestError, s)
    end.

(** One request: [get_db] yields a fresh session to the handler and closes
    it on the way out, whether the handler returned or raised. *)
Definition request {A} (handler : M A) (d : Database) : Result A * Database :=
  let (r, s) := handler (SessionLocal d) in (r, close s).

(** A handler that takes a request model.  FastAPI builds the model from
    the body of the request before it calls the handler; a body that does
    not validate is answered 422 and the handler does not run. *)
Definition with_body {B T A} (validate : B -> Result T) (handler : T -> M A)
    (body : B) : M A :=
  match validate body with
  | Ok model => handler model
  | Raise e => raise e
  end.

(** [l[i]] on the keys a flush returned. *)
Definition key_at (ks : list Z) (i : nat) : Z := nth i ks 0%Z.

(** An attribute assigned on a loaded object: written at the next flush. *)
Definition db_setattr (o : Obj) : M unit := db_add o.

(** String equality as the store evaluates [column == value]; a NULL
    column matches nothing. *)
Definition sql_eq_str (column : option string) (value : string) : bool :=
  match column with Some v => String.eqb v value | None => false end.

Definition sql_eq_int (column : option Z) (value : Z) : bool :=
  match column with Some v => (v =? value)%Z | None => false end.

(** [func.sum(column)]: NULL over no rows. *)
Definition sql_sum (l : list Q) : option Q :=
  match l with
  | [] => None
  | _ => Some (fold_left Qplus l 0%Q)
  end.

(** [float(x or 0)] *)
Definition float_or_0 (x : option Q) : Q :=
  match x with
  | Some v => if Qeq_bool v 0 then 0%Q else v
  | None => 0%Q
  end.

(** [GROUP BY key] with [SUM(value)]: one entry per key, in the order the
    keys first occur. *)
Fixpoint group_add {K} (eqb : K -> K -> bool) (k : K) (v : Q)
    (acc : list (K * Q)) : list (K * Q) :=
  match acc with
  | [] => [(k, v)]
  | (k', s) :: r =>
      if eqb k k' then (k', (s + v)%Q) :: r
      else (k', s) :: group_add eqb k v r
  end.

Definition group_sum {A K} (eqb : K -> K -> bool) (key : A -> K)
    (value : A -> Q) (q : list A) : list (K * Q) :=
  fold_left (fun acc r => group_add eqb (key r) (value r) acc) q [].

(** A list comprehension whose body may raise. *)
Fixpoint map_result {A B} (f : A -> Result B) (l : list A) : Result (list B) :=
  match l with
  | [] => Ok []
  | x :: r =>
      match f x with
      | Raise e => Raise e
      | Ok y =>
          match map_result f r with
          | Raise e => Raise e
          | Ok ys => Ok (y :: ys)
          end
      end
  end.

Definition is_empty {A} (l : list A) : bool :=
  match l with [] => true | _ => false end.

(** Microseconds in a day, and the offsets of [datetime.max.time()]
    (23:59:59.999999) and of [replace(hour=23, minute=59, second=59)]. *)
Definition day_us : Z := 86400000000.
Definition midnight (day : Z) : Z := day * day_us.
Definition end_of_day_max (day : Z) : Z := day * day_us + (day_us - 1).
Definition end_of_day_235959 (day : Z) : Z := day * day_us + 86399000000.

(** The envelope every list handler ends with. *)
Definition envelope {T} (items : list T) (total page limit : Z)
    : PaginatedResponse.t T :=
  let total_pages := ((total + limit - 1) / limit)%Z in
  PaginatedResponse.mk items total page limit total_pages
    (page <? total_pages)%Z (page >? 1)%Z.

(** ** routers *)

Section Routers.

(** [column.ilike(pattern)] as the store evaluates it on a non-NULL
    column value. *)
Variable ilike : string -> string -> bool.

(** [datetime.strptime(s, "%Y-%m-%d")]: the day, counted from the epoch,
    or [None] where Python raises [ValueError]. *)
Variable strptime_date : string -> option Z.

(** [func.current_timestamp()], the column default of the date columns. *)
Variable current_timestamp : Z.

(** The order in which Python iterates the set
    [{'OPENING', 'STOCK_IN', 'SALE'}]. *)
Variable allowed_types_iter : list string.

(** [s.upper()]: Python's upper-casing of a [str], whatever its
    characters. *)
Variable upper : string -> string.

Definition ilike_opt (column : option string) (pattern : string) : bool :=
  match column with Some v => ilike v pattern | None => false end.

(** *** routers/products.py *)

Definition create_product (product : ProductCreate.t) : M ProductDB.t :=
  (match ProductCreate.category_id product with
   | Some cid =>
       q <- db_query Tables.category ;;
       match first (filter (fun c => (CategoryDB.category_id c =? cid)%Z) q) with
       | None => raise (HTTPException 400 ("ไม่พบหมวดหมู่ ID: " ++ str cid))
       | Some _ => ret tt
       end
   | None => ret tt
   end) ;;
  (match truthy_str (ProductCreate.sku product) with
   | Some sku =>
       q <- db_query Tables.product ;;
       match first (filter (fun p => sql_eq_str (ProductDB.sku p) sku) q) with
       | Some _ =>
           raise (HTTPException 400
                    ("มีสินค้าที่มี SKU '" ++ sku ++ "' นี้อยู่แล้ว"))
       | None => ret tt
       end
   | None => ret tt
   end) ;;
  db_add (NewProduct
            (ProductDB.mk 0 (ProductCreate.name product)
               (ProductCreate.category_id product) (ProductCreate.sku product)
               (ProductCreate.price product)
               (ProductCreate.reorder_level product))) ;;
  keys <- db_commit ;;
  db_refresh Tables.product ProductDB.product_id (key_at keys 0).

Definition product_filter (search_params : ProductSearchParams.t)
    (query : list ProductDB.t) : list ProductDB.t :=
  let query :=
    match truthy_str (ProductSearchParams.search search_params) with
    | Some search =>
        let search_term := "%" ++ search ++ "%" in
        filter (fun p => ilike (ProductDB.name p) search_term
                         || ilike_opt (ProductDB.sku p) search_term) query
    | None => query
    end in
  let query :=
    match truthy_int (ProductSearchParams.category_id search_params) with
    | Some cid => filter (fun p => sql_eq_int (ProductDB.category_id p) cid) query
    | None => query
    end in
  let query :=
    match ProductSearchParams.min_price search_params with
    | Some m => filter (fun p => Qle_bool m (ProductDB.price p)) query
    | None => query
    end in
  match ProductSearchParams.max_price search_params with
  | Some m => filter (fun p => Qle_bool (ProductDB.price p) m) query
  | None => query
  end.

Definition get_all_products (search_params : ProductSearchParams.t)
    : M (PaginatedResponse.t ProductDB.t) :=
  let page := ProductSearchParams.page search_params in
  let limit := ProductSearchParams.limit search_params in
  query <- db_query Tables.product ;;
  let query := product_filter search_params query in
  let total := count query in
  let products :=
    offset_limit ((page - 1) * limit) limit
      (order_by (asc ProductDB.product_id) query) in
  if is_empty products && (page =? 1)%Z then
    raise (HTTPException 404 "ไม่พบสินค้า")
  else ret (envelope products total page limit).

(** *** routers/categories.py *)

Definition category_filter (search_params : CategorySearchParams.t)
    (query : list CategoryDB.t) : list CategoryDB.t :=
  match truthy_str (CategorySearchParams.search search_params) with
  | Some search =>
      let search_term := "%" ++ search ++ "%" in
      filter (fun c => ilike (CategoryDB.name c) search_term) query
  | None => query
  end.

Definition get_all_categories (search_params : CategorySearchParams.t)
    : M (PaginatedResponse.t CategoryDB.t) :=
  let page := CategorySearchParams.page search_params in
  let limit := CategorySearchParams.limit search_params in
  query <- db_query Tables.category ;;
  let query := category_filter search_params query in
  let total := count query in
  let categories :=
    offset_limit ((page - 1) * limit) limit
      (order_by (asc CategoryDB.category_id) query) in
  if is_empty categories && (page =? 1)%Z then
    raise (HTTPException 404 "ไม่พบหมวดหมู่")
  else ret (envelope categories total page limit).

(** *** routers/sales.py *)

Definition create_sale (sale : SaleCreate.t)
    : M (SaleDB.t * list SaleItemDB.t) :=
  let sale :=
    SaleCreate.with_payment_method
      (capitalize (SaleCreate.payment_method sale)) sale in
  let sale :=
    if String.eqb (SaleCreate.payment_method sale) "Qr"
    then SaleCreate.with_payment_method "QR" sale else sale in
  if negb (str_in (SaleCreate.payment_method sale) ["Cash"; "Card"; "QR"]) then
    raise (HTTPException 400 "วิธีการชำระเงินไม่ถูกต้อง")
  else
    db_add (NewSale
              (SaleDB.mk 0
                 (match SaleCreate.sale_datetime sale with
                  | Some t => t
                  | None => current_timestamp
                  end)
                 0%Q (SaleCreate.payment_method sale) (SaleCreate.notes sale))) ;;
    keys <- db_flush ;;
    let new_sale_id := key_at keys 0 in
    for_each (SaleCreate.items sale) (fun item =>
      q <- db_query Tables.product ;;
      match first (filter (fun p => (ProductDB.product_id p
                                     =? SaleItemCreate.product_id item)%Z) q) with
      | None =>
          raise (HTTPException 404
                   ("Product with ID " ++ str (SaleItemCreate.product_id item)
                    ++ " not found."))
      | Some product =>
          let item_unit_price :=
            match SaleItemCreate.unit_price item with
            | Some p => p
            | None => ProductDB.price product
            end in
          db_add (NewSaleItem
                    (SaleItemDB.mk 0 new_sale_id
                       (SaleItemCreate.product_id item)
                       (SaleItemCreate.quantity item)
                       item_unit_price
                       (SaleItemCreate.discount item)))
      end) ;;
    db_commit ;;
    new_sale <- db_refresh Tables.sale SaleDB.sale_id new_sale_id ;;
    items <- db_query Tables.sale_item ;;
    ret (new_sale,
         filter (fun i => (SaleItemDB.sale_id i =? new_sale_id)%Z) items).

Definition add_sale_item (sale_id : Z) (item : SaleItemCreate.t)
    : M SaleItemDB.t :=
  q <- db_query Tables.sale ;;
  match first (filter (fun s => (SaleDB.sale_id s =? sale_id)%Z) q) with
  | None => raise (HTTPException 404 "ไม่พบรายการขายนี้")
  | Some _ =>
      q <- db_query Tables.product ;;
      match first (filter (fun p => (ProductDB.product_id p
                                     =? SaleItemCreate.product_id item)%Z) q) with
      | None =>
          raise (HTTPException 404
                   ("ไม่พบสินค้า ID " ++ str (SaleItemCreate.product_id item)))
      | Some product =>
          q <- db_query Tables.sale_item ;;
          match first (filter (fun i =>
                         (SaleItemDB.sale_id i =? sale_id)%Z
                         && (SaleItemDB.product_id i
                             =? SaleItemCreate.product_id item)%Z) q) with
          | Some _ =>
              raise (HTTPException 400
                       ("สินค้า ID " ++ str (SaleItemCreate.product_id item)
                        ++ " มีอยู่แล้วในรายการขายนี้"))
          | None =>
              let item :=
                match SaleItemCreate.unit_price item with
                | None =>
                    SaleItemCreate.with_unit_price
                      (Some (ProductDB.price product)) item
                | Some _ => item
                end in
              match SaleItemCreate.unit_price item with
              | None => raise IntegrityError
              | Some unit_price =>
                  db_add (NewSaleItem
                            (SaleItemDB.mk 0 sale_id
                               (SaleItemCreate.product_id item)
                               (SaleItemCreate.quantity item)
                               unit_price
                               (SaleItemCreate.discount item))) ;;
                  keys <- db_commit ;;
                  db_refresh Tables.sale_item SaleItemDB.sale_item_id
                    (key_at keys 0)
              end
          end
      end
  end.

Definition bad_date : exn :=
  HTTPException 400 "รูปแบบวันที่ไม่ถูกต้อง ใช้ YYYY-MM-DD".

(** The two date blocks shared by the sales, stock-in and report
    handlers: [column >= start_date] from midnight, [column <= end_date]
    to the last microsecond of the day; a string that does not parse is a
    400. *)
Definition date_range {A} (column : A -> Z)
    (start_date end_date : option string) (query : list A)
    : Result (list A) :=
  match
    match truthy_str start_date with
    | Some s =>
        match strptime_date s with
        | Some d => Ok (filter (fun r => (midnight d <=? column r)%Z) query)
        | None => Raise bad_date
        end
    | None => Ok query
    end
  with
  | Raise e => Raise e
  | Ok query =>
      match truthy_str end_date with
      | Some s =>
          match strptime_date s with
          | Some d => Ok (filter (fun r => (column r <=? end_of_day_max d)%Z) query)
          | None => Raise bad_date
          end
      | None => Ok query
      end
  end.

Definition sale_filter (search_params : SaleSearchParams.t)
    (query : list SaleDB.t) : Result (list SaleDB.t) :=
  let query :=
    match truthy_str (SaleSearchParams.search search_params) with
    | Some search =>
        let search_term := "%" ++ search ++ "%" in
        filter (fun s => ilike_opt (SaleDB.notes s) search_term) query
    | None => query
    end in
  let query :=
    match truthy_str (SaleSearchParams.payment_method search_params) with
    | Some pm => filter (fun s => String.eqb (SaleDB.payment_method s) pm) query
    | None => query
    end in
  date_range SaleDB.sale_datetime
    (SaleSearchParams.start_date search_params)
    (SaleSearchParams.end_date search_params) query.

Definition get_all_sales (search_params : SaleSearchParams.t)
    : M (PaginatedResponse.t SaleDB.t) :=
  let page := SaleSearchParams.page search_params in
  let limit := SaleSearchParams.limit search_params in
  query <- db_query Tables.sale ;;
  query <- lift (sale_filter search_params query) ;;
  let total := count query in
  let sales :=
    offset_limit ((page - 1) * limit) limit
      (order_by (desc SaleDB.sale_datetime) query) in
  if is_empty sales && (page =? 1)%Z then
    raise (HTTPException 404 "ไม่พบรายการขาย")
  else ret (envelope sales total page limit).

(** *** routers/stocks.py *)

Definition create_stock_in (stock_in : StockInCreate.t)
    : M (StockInDB.t * list StockInItemDB.t) :=
  for_each (StockInCreate.items stock_in) (fun item =>
    q <- db_query Tables.product ;;
    match first (filter (fun p => (ProductDB.product_id p
                                   =? StockInItemCreate.product_id item)%Z) q) with
    | None =>
        raise (HTTPException 404
                 ("ไม่พบสินค้า ID: " ++ str (StockInItemCreate.product_id item)))
    | Some _ => ret tt
    end) ;;
  db_add (NewStockIn
            (StockInDB.mk 0 (StockInCreate.ref_no stock_in)
               (match StockInCreate.stock_in_date stock_in with
                | Some t => t
                | None => current_timestamp
                end)
               0%Q (StockInCreate.notes stock_in))) ;;
  keys <- db_flush ;;
  let new_stock_in_id := key_at keys 0 in
  for_each (StockInCreate.items stock_in) (fun item =>
    db_add (NewStockInItem
              (StockInItemDB.mk 0 new_stock_in_id
                 (StockInItemCreate.product_id item)
                 (StockInItemCreate.quantity item)
                 (StockInItemCreate.unit_cost item)))) ;;
  db_commit ;;
  new_stock_in <- db_refresh Tables.stock_in StockInDB.stock_in_id new_stock_in_id ;;
  items <- db_query Tables.stock_in_item ;;
  ret (new_stock_in,
       filter (fun i => (StockInItemDB.stock_in_id i =? new_stock_in_id)%Z) items).

Definition stock_in_filter (search_params : StockInSearchParams.t)
    (query : list StockInDB.t) : Result (list StockInDB.t) :=
  let query :=
    match truthy_str (StockInSearchParams.search search_params) with
    | Some search =>
        let search_term := "%" ++ search ++ "%" in
        filter (fun s => ilike_opt (StockInDB.ref_no s) search_term
                         || ilike_opt (StockInDB.notes s) search_term) query
    | None => query
    end in
  date_range StockInDB.stock_in_date
    (StockInSearchParams.start_date search_params)
    (StockInSearchParams.end_date search_params) query.

Definition get_all_stock_in (search_params : StockInSearchParams.t)
    : M (PaginatedResponse.t StockInDB.t) :=
  let page := StockInSearchParams.page search_params in
  let limit := StockInSearchParams.limit search_params in
  query <- db_query Tables.stock_in ;;
  query <- lift (stock_in_filter search_params query) ;;
  let total := count query in
  let stock_ins :=
    offset_limit ((page - 1) * limit) limit
      (order_by (desc StockInDB.stock_in_date) query) in
  if is_empty stock_ins && (page =? 1)%Z then
    raise (HTTPException 404 "ไม่พบรายการสินค้าเข้า")
  else ret (envelope stock_ins total page limit).

(** *** routers/inventories.py *)

Definition allowed_types : list string := ["OPENING"; "STOCK_IN"; "SALE"].

Definition bad_movement_type : exn :=
  HTTPException 400
    ("ประเภท movement_type ไม่ถูกต้อง ค่าที่อนุญาตคือ: "
     ++ join ", " allowed_types_iter).

Definition movement_filter (search_params : InventoryMovementSearchParams.t)
    (query : list InventoryMovementDB.t) : Result (list InventoryMovementDB.t) :=
  let query :=
    match truthy_int (InventoryMovementSearchParams.product_id search_params) with
    | Some pid => filter (fun m => (InventoryMovementDB.product_id m =? pid)%Z) query
    | None => query
    end in
  match
    match truthy_str (InventoryMovementSearchParams.movement_type search_params) with
    | Some mt =>
        if negb (str_in (upper mt) allowed_types) then Raise bad_movement_type
        else Ok (filter (fun m => String.eqb (InventoryMovementDB.movement_type m)
                                    (upper mt)) query)
    | None => Ok query
    end
  with
  | Raise e => Raise e
  | Ok query =>
      match
        match truthy_str (InventoryMovementSearchParams.start_date search_params) with
        | Some s =>
            match strptime_date s with
            | Some d =>
                Ok (filter (fun m => (midnight d
                                      <=? InventoryMovementDB.movement_date m)%Z) query)
            | None =>
                Raise (HTTPException 400
                         "รูปแบบวันที่เริ่มต้นไม่ถูกต้อง ใช้รูปแบบ YYYY-MM-DD")
            end
        | None => Ok query
        end
      with
      | Raise e => Raise e
      | Ok query =>
          match truthy_str (InventoryMovementSearchParams.end_date search_params) with
          | Some s =>
              match strptime_date s with
              | Some d =>
                  Ok (filter (fun m => (InventoryMovementDB.movement_date m
                                        <=? end_of_day_235959 d)%Z) query)
              | None =>
                  Raise (HTTPException 400
                           "รูปแบบวันที่สิ้นสุดไม่ถูกต้อง ใช้รูปแบบ YYYY-MM-DD")
              end
          | None => Ok query
          end
      end
  end.

Definition get_all_inventory_movements
    (search_params : InventoryMovementSearchParams.t)
    : M (PaginatedResponse.t InventoryMovementDB.t) :=
  let page := InventoryMovementSearchParams.page search_params in
  let limit := InventoryMovementSearchParams.limit search_params in
  query <- db_query Tables.inventory_movement ;;
  query <- lift (movement_filter search_params query) ;;
  let total := count query in
  let movements :=
    offset_limit ((page - 1) * limit) limit
      (order_by (desc InventoryMovementDB.movement_date) query) in
  if is_empty movements && (page =? 1)%Z then
    raise (HTTPException 404 "ไม่พบข้อมูลการเคลื่อนไหวสินค้าที่ระบุ")
  else ret (envelope movements total page limit).

Definition update_inventory_movement_type (movement_id : Z)
    (movement_update : InventoryMovementUpdate.t) : M InventoryMovementDB.t :=
  q <- db_query Tables.inventory_movement ;;
  match first (filter (fun m => (InventoryMovementDB.movement_id m
                                 =? movement_id)%Z) q) with
  | None =>
      raise (HTTPException 404
               ("ไม่พบข้อมูลการเคลื่อนไหวสินค้าที่มี ID " ++ str movement_id))
  | Some movement_db =>
      (match truthy_str (InventoryMovementUpdate.movement_type movement_update) with
       | Some mt =>
           if negb (str_in (upper mt) allowed_types) then raise bad_movement_type
           else db_setattr (DirtyMovementType movement_id (upper mt))
       | None => ret tt
       end) ;;
      db_commit ;;
      db_refresh Tables.inventory_movement InventoryMovementDB.movement_id
        movement_id
  end.

(** *** routers/report.py *)

Definition product_stock_filter (search_params : ProductStockSearchParams.t)
    (query : list ProductStockView.t) : list ProductStockView.t :=
  let query :=
    match ProductStockSearchParams.productFilter search_params with
    | Some f =>
        if String.eqb f "r" then
          filter (fun r => (ProductStockView.needs_restock r =? 1)%Z) query
        else if String.eqb f "nr" then
          filter (fun r => (ProductStockView.needs_restock r =? 0)%Z) query
        else query
    | None => query
    end in
  match truthy_str (ProductStockSearchParams.search search_params) with
  | Some search =>
      let search_filter := "%" ++ search ++ "%" in
      filter (fun r => ilike (ProductStockView.name r) search_filter) query
  | None => query
  end.

Definition get_product_stock_report (search_params : ProductStockSearchParams.t)
    : M (PaginatedResponse.t ProductStockView.t) :=
  let page := ProductStockSearchParams.page search_params in
  let limit := ProductStockSearchParams.limit search_params in
  query <- db_query Tables.v_product_stock ;;
  let query := product_stock_filter search_params query in
  let total := count query in
  if (total =? 0)%Z then
    raise (HTTPException 404 "ไม่พบข้อมูลสต็อกสินค้า")
  else
    let stock_data :=
      offset_limit ((page - 1) * limit) limit
        (order_by (fun a b => String.leb (ProductStockView.name a)
                                (ProductStockView.name b)) query) in
    ret (envelope stock_data total page limit).

Definition profitability_filter
    (search_params : ProfitabilityReportSearchParams.t)
    (query : list ProfitabilityReportView.t)
    : Result (list ProfitabilityReportView.t) :=
  match
    date_range ProfitabilityReportView.sale_datetime
      (ProfitabilityReportSearchParams.start_date search_params)
      (ProfitabilityReportSearchParams.end_date search_params) query
  with
  | Raise e => Raise e
  | Ok query =>
      let query :=
        match truthy_str (ProfitabilityReportSearchParams.search search_params) with
        | Some search =>
            let search_filter := "%" ++ search ++ "%" in
            filter (fun r => ilike (ProfitabilityReportView.product_name r)
                               search_filter) query
        | None => query
        end in
      Ok match truthy_int (ProfitabilityReportSearchParams.product_id search_params) with
         | Some pid =>
             filter (fun r => (ProfitabilityReportView.product_id r =? pid)%Z) query
         | None => query
         end
  end.

Definition get_profitability_report
    (search_params : ProfitabilityReportSearchParams.t)
    : M (PaginatedResponse.t ProfitabilityReportView.t) :=
  let page := ProfitabilityReportSearchParams.page search_params in
  let limit := ProfitabilityReportSearchParams.limit search_params in
  query <- db_query Tables.v_profitability_report ;;
  query <- lift (profitability_filter search_params query) ;;
  let total := count query in
  if (total =? 0)%Z then
    raise (HTTPException 404 "ไม่พบข้อมูลกำไรขาดทุนตามเงื่อนไขที่ระบุ")
  else
    let report_data :=
      offset_limit ((page - 1) * limit) limit
        (order_by (desc ProfitabilityReportView.sale_datetime) query) in
    ret (envelope report_data total page limit).

Definition product_key_eqb (a b : Z * string) : bool :=
  (fst a =? fst b)%Z && String.eqb (snd a) (snd b).

Definition get_profitability_summary (start_date end_date : option string)
    : M ProfitabilitySummary.t :=
  q <- db_query Tables.v_profitability_report ;;
  q <- lift (date_range ProfitabilityReportView.sale_datetime
               start_date end_date q) ;;
  let total_sales := count q in
  if (total_sales =? 0)%Z then
    lift (ProfitabilitySummary.build 0 0%Q 0%Q 0%Q 0%Q None)
  else
    let total_revenue :=
      float_or_0 (sql_sum (map ProfitabilityReportView.total_revenue q)) in
    let total_cogs :=
      float_or_0 (sql_sum (map ProfitabilityReportView.total_cogs q)) in
    let total_gross_profit :=
      float_or_0 (sql_sum (map ProfitabilityReportView.gross_profit q)) in
    average_profit_margin <-
      (if Qgtb total_revenue 0 then
         r <- lift (truediv total_gross_profit total_revenue) ;;
         ret (r * 100)%Q
       else ret 0%Q) ;;
    let top_products_query :=
      firstn 3
        (order_by (fun a b => Qle_bool (snd b) (snd a))
           (group_sum product_key_eqb
              (fun r => (ProfitabilityReportView.product_id r,
                         ProfitabilityReportView.product_name r))
              ProfitabilityReportView.gross_profit q)) in
    top_profitable_products_list <-
      lift (map_result
              (fun product => MostProfitableProduct.build
                                (snd (fst product)) (snd product))
              top_products_query) ;;
    lift (ProfitabilitySummary.build total_sales total_revenue total_cogs
            total_gross_profit (round2 average_profit_margin)
            (Some top_profitable_products_list)).

End Routers.

(** ** routers: reading one row, adding a stock-in item, the stock summary *)

Module ProductStockSummary.
Record t := mk {
  total_products : Z;
  total_stock_value : Q;
  products_needing_restock : Z;
  restock_percentage : Q
}.
(** Every number [ge=0], the percentage also [le=100]. *)
Definition build (total_products : Z) (total_stock_value : Q)
    (products_needing_restock : Z) (restock_percentage : Q) : Result t :=
  if (0 <=? total_products)%Z
     && Qle_bool 0 total_stock_value
     && (0 <=? products_needing_restock)%Z
     && Qle_bool 0 restock_percentage
     && Qle_bool restock_percentage 100
  then Ok (mk total_products total_stock_value products_needing_restock
              restock_percentage)
  else Raise ValidationError.
End ProductStockSummary.

(** *** routers/categories.py *)

Definition get_category_by_id (category_id : Z) : M CategoryDB.t :=
  q <- db_query Tables.category ;;
  match first (filter (fun c => (CategoryDB.category_id c =? category_id)%Z) q) with
  | None => raise (HTTPException 404 "ไม่พบหมวดหมู่ที่ต้องการ")
  | Some db_category => ret db_category
  end.

(** *** routers/products.py *)

Definition get_product_by_id (product_id : Z) : M ProductDB.t :=
  q <- db_query Tables.product ;;
  match first (filter (fun p => (ProductDB.product_id p =? product_id)%Z) q) with
  | None => raise (HTTPException 404 "ไม่พบสินค้าที่ต้องการ")
  | Some db_product => ret db_product
  end.

(** *** routers/sales.py *)

Definition get_sale_by_id (sale_id : Z) : M (SaleDB.t * list SaleItemDB.t) :=
  q <- db_query Tables.sale ;;
  match first (filter (fun s => (SaleDB.sale_id s =? sale_id)%Z) q) with
  | None => raise (HTTPException 404 "ไม่พบรายการขายที่ต้องการ")
  | Some sale =>
      items <- db_query Tables.sale_item ;;
      ret (sale,
           filter (fun i => (SaleItemDB.sale_id i =? SaleDB.sale_id sale)%Z) items)
  end.

Definition get_sale_items (sale_item_id : Z) : M SaleItemDB.t :=
  q <- db_query Tables.sale_item ;;
  match first (filter (fun i => (SaleItemDB.sale_item_id i =? sale_item_id)%Z) q) with
  | None => raise (HTTPException 404 "ไม่พบรายการสินค้าสำหรับการขายนี้")
  | Some items => ret items
  end.

(** *** routers/stocks.py *)

Definition get_stock_in_by_id (stock_in_id : Z)
    : M (StockInDB.t * list StockInItemDB.t) :=
  q <- db_query Tables.stock_in ;;
  match first (filter (fun s => (StockInDB.stock_in_id s =? stock_in_id)%Z) q) with
  | None => raise (HTTPException 404 "ไม่พบรายการสินค้าเข้าที่ต้องการ")
  | Some stock_in =>
      items <- db_query Tables.stock_in_item ;;
      ret (stock_in,
           filter (fun i => (StockInItemDB.stock_in_id i
                             =? StockInDB.stock_in_id stock_in)%Z) items)
  end.

(** The handler queries the item twice and returns the second answer. *)
Definition get_stock_in_items (stock_in_item_id : Z)
    : M (option StockInItemDB.t) :=
  q <- db_query Tables.stock_in_item ;;
  match first (filter (fun i => (StockInItemDB.stock_in_item_id i
                                 =? stock_in_item_id)%Z) q) with
  | None => raise (HTTPException 404 "ไม่พบรายการสินค้าเข้า")
  | Some _ =>
      q <- db_query Tables.stock_in_item ;;
      ret (first (filter (fun i => (StockInItemDB.stock_in_item_id i
                                    =? stock_in_item_id)%Z) q))
  end.

Definition add_stock_in_item (stock_in_id : Z) (item : StockInItemCreate.t)
    : M StockInItemDB.t :=
  q <- db_query Tables.stock_in ;;
  match first (filter (fun s => (StockInDB.stock_in_id s =? stock_in_id)%Z) q) with
  | None => raise (HTTPException 404 "ไม่พบรายการสินค้าเข้า")
  | Some _ =>
      q <- db_query Tables.product ;;
      match first (filter (fun p => (ProductDB.product_id p
                                     =? StockInItemCreate.product_id item)%Z) q) with
      | None =>
          raise (HTTPException 404
                   ("ไม่พบสินค้า ID: " ++ str (StockInItemCreate.product_id item)))
      | Some _ =>
          q <- db_query Tables.stock_in_item ;;
          match first (filter (fun i =>
                         (StockInItemDB.stock_in_id i =? stock_in_id)%Z
                         && (StockInItemDB.product_id i
                             =? StockInItemCreate.product_id item)%Z) q) with
          | Some _ =>
              raise (HTTPException 400
                       ("สินค้า ID " ++ str (StockInItemCreate.product_id item)
                        ++ " มีอยู่แล้วในรายการสินค้าเข้านี้"))
          | None =>
              db_add (NewStockInItem
                        (StockInItemDB.mk 0 stock_in_id
                           (StockInItemCreate.product_id item)
                           (StockInItemCreate.quantity item)
                           (StockInItemCreate.unit_cost item))) ;;
              keys <- db_commit ;;
              db_refresh Tables.stock_in_item StockInItemDB.stock_in_item_id
                (key_at keys 0)
          end
      end
  end.

(** *** routers/inventories.py *)

Definition get_inventory_movement_by_id (movement_id : Z)
    : M InventoryMovementDB.t :=
  q <- db_query Tables.inventory_movement ;;
  match first (filter (fun m => (InventoryMovementDB.movement_id m
                                 =? movement_id)%Z) q) with
  | None => raise (HTTPException 404 "ไม่พบข้อมูลการเคลื่อนไหวสินค้าที่ระบุ")
  | Some movement => ret movement
  end.

(** *** routers/report.py *)

Definition get_product_stock_summary (needs_restock_only : bool)
    : M ProductStockSummary.t :=
  base_q <- db_query Tables.v_product_stock ;;
  let base_q :=
    if needs_restock_only
    then filter (fun r => (ProductStockView.needs_restock r =? 1)%Z) base_q
    else base_q in
  let total_products := count base_q in
  let total_stock_value :=
    float_or_0
      (sql_sum (map (fun r => (inject_Z (ProductStockView.stock_on_hand r)
                               * ProductStockView.price r)%Q) base_q)) in
  let products_needing_restock :=
    count (filter (fun r => (ProductStockView.needs_restock r =? 1)%Z) base_q) in
  ratio <- lift (truediv (inject_Z products_needing_restock)
                   (inject_Z (Z.max total_products 1))) ;;
  let restock_percentage := round2 (ratio * 100)%Q in
  lift (ProductStockSummary.build total_products total_stock_value
          products_needing_restock restock_percentage).

(** ** main.py: the list endpoints the routers expose *)

Inductive ListCall : Type -> Type :=
| ListCategories (p : CategorySearchParams.t) : ListCall CategoryDB.t
| ListProducts (p : ProductSearchParams.t) : ListCall ProductDB.t
| ListSales (p : SaleSearchParams.t) : ListCall SaleDB.t
| ListStockIn (p : StockInSearchParams.t) : ListCall StockInDB.t
| ListInventoryMovements (p : InventoryMovementSearchParams.t)
    : ListCall InventoryMovementDB.t
| ListProductStock (p : ProductStockSearchParams.t) : ListCall ProductStockView.t
| ListProfitability (p : ProfitabilityReportSearchParams.t)
    : ListCall ProfitabilityReportView.t.

Definition call_page {T} (c : ListCall T) : Z :=
  match c with
  | ListCategories p => CategorySearchParams.page p
  | ListProducts p => ProductSearchParams.page p
  | ListSales p => SaleSearchParams.page p
  | ListStockIn p => StockInSearchParams.page p
  | ListInventoryMovements p => InventoryMovementSearchParams.page p
  | ListProductStock p => ProductStockSearchParams.page p
  | ListProfitability p => ProfitabilityReportSearchParams.page p
  end.

Definition call_limit {T} (c : ListCall T) : Z :=
  match c with
  | ListCategories p => CategorySearchParams.limit p
  | ListProducts p => ProductSearchParams.limit p
  | ListSales p => SaleSearchParams.limit p
  | ListStockIn p => StockInSearchParams.limit p
  | ListInventoryMovements p => InventoryMovementSearchParams.limit p
  | ListProductStock p => ProductStockSearchParams.limit p
  | ListProfitability p => ProfitabilityReportSearchParams.limit p
  end.

Definition list_handler (ilike : string -> string -> bool)
    (strptime_date : string -> option Z) (allowed_types_iter : list string)
    (upper : string -> string)
    {T} (c : ListCall T) : M (PaginatedResponse.t T) :=
  match c with
  | ListCategories p => get_all_categories ilike p
  | ListProducts p => get_all_products ilike p
  | ListSales p => get_all_sales ilike strptime_date p
  | ListStockIn p => get_all_stock_in ilike strptime_date p
  | ListInventoryMovements p =>
      get_all_inventory_movements strptime_date allowed_types_iter upper p
  | ListProductStock p => get_product_stock_report ilike p
  | ListProfitability p => get_profitability_report ilike strptime_date p
  end.

(** ** Vocabulary of the statements *)

(** [ceil(total / limit)] over the rationals. *)
Definition ceil_div (total limit : Z) : Z :=
  Qceiling (inject_Z total / inject_Z limit).

(** The product a handler finds for an id, in a given state of the
    tables. *)
Definition product_by_id (tb : Tables.t) (pid : Z) : option ProductDB.t :=
  first (filter (fun p => (ProductDB.product_id p =? pid)%Z) (Tables.product tb)).

Definition product_missing (tb : Tables.t) (pid : Z) : bool :=
  match product_by_id tb pid with Some _ => false | None => true end.

(** What the specification asks of an envelope returned for [page] and
    [limit]. *)
Definition envelope_ok {T} (page limit : Z) (r : PaginatedResponse.t T) : Prop :=
  PaginatedResponse.page r = page
  /\ PaginatedResponse.limit r = limit
  /\ PaginatedResponse.total_pages r = ceil_div (PaginatedResponse.total r) limit
  /\ PaginatedResponse.has_next r = (page <? PaginatedResponse.total_pages r)%Z
  /\ PaginatedResponse.has_prev r = (page >? 1)%Z
  /\ (Z.of_nat (List.length (PaginatedResponse.items r)) <= limit)%Z.

(** The rows the categories and the products handlers fetch for the page
    asked for. *)
Definition category_page (ilike : string -> string -> bool)
    (p : CategorySearchParams.t) (tb : Tables.t) : list CategoryDB.t :=
  offset_limit ((CategorySearchParams.page p - 1) * CategorySearchParams.limit p)
    (CategorySearchParams.limit p)
    (order_by (asc CategoryDB.category_id)
       (category_filter ilike p (Tables.category tb))).

Definition product_page (ilike : string -> string -> bool)
    (p : ProductSearchParams.t) (tb : Tables.t) : list ProductDB.t :=
  offset_limit ((ProductSearchParams.page p - 1) * ProductSearchParams.limit p)
    (ProductSearchParams.limit p)
    (order_by (asc ProductDB.product_id)
       (product_filter ilike p (Tables.product tb))).

(** The payment method a string stands for when letter case is ignored. *)
Definition canonical_payment_method (s : string) : option string :=
  if String.eqb (lower s) "cash" then Some "Cash"
  else if String.eqb (lower s) "card" then Some "Card"
  else if String.eqb (lower s) "qr" then Some "QR"
  else None.

(** A session with more objects pending. *)
Definition push (s : Session) (os : list Obj) : Session :=
  mkSession (committed s) (txn s) (auto_increment s) (pending s ++ os)%list.

(** The row [create_sale] adds for one item of the request: none when the
    product is not there. *)
Definition sale_item_row (tb : Tables.t) (sale_id : Z) (item : SaleItemCreate.t)
    : list SaleItemDB.t :=
  match product_by_id tb (SaleItemCreate.product_id item) with
  | Some product =>
      [SaleItemDB.mk 0 sale_id (SaleItemCreate.product_id item)
         (SaleItemCreate.quantity item)
         (match SaleItemCreate.unit_price item with
          | Some p => p
          | None => ProductDB.price product
          end)
         (SaleItemCreate.discount item)]
  | None => []
  end.

(** Keys given to rows inserted one after the other. *)
Fixpoint number_sale_items (k : Z) (rows : list SaleItemDB.t) : list SaleItemDB.t :=
  match rows with
  | [] => []
  | r :: rs => SaleItemDB.inserted k r :: number_sale_items (k + 1) rs
  end.

Fixpoint number_stock_in_items (k : Z) (rows : list StockInItemDB.t)
    : list StockInItemDB.t :=
  match rows with
  | [] => []
  | r :: rs => StockInItemDB.inserted k r :: number_stock_in_items (k + 1) rs
  end.

(** A value of two decimal places, and [y] being [x] kept at two decimal
    places: a multiple of 1/100 no further than half of 1/100 from [x]. *)
Definition in_cents (y : Q) : Prop := exists n : Z, (y == n # 100)%Q.

Definition at_two_places (x y : Q) : Prop :=
  in_cents y /\ (Qabs (y - x) <= 1 # 200)%Q.

(** How a stored sale item answers to the item of the request it was made
    from: the unit price is the one supplied, or else the price of the
    product as the tables [tb] have it, kept at two decimal places; a
    price that has two decimal places, as a price read from the store
    has, is kept as it is. *)
Definition item_stored_as (tb : Tables.t) (item : SaleItemCreate.t)
    (row : SaleItemDB.t) : Prop :=
  SaleItemDB.product_id row = SaleItemCreate.product_id item
  /\ SaleItemDB.quantity row = SaleItemCreate.quantity item
  /\ at_two_places (SaleItemCreate.discount item) (SaleItemDB.discount row)
  /\ match SaleItemCreate.unit_price item with
     | Some p =>
         at_two_places p (SaleItemDB.unit_price row)
         /\ (in_cents p -> (SaleItemDB.unit_price row == p)%Q)
     | None =>
         exists product,
           product_by_id tb (SaleItemCreate.product_id item) = Some product
           /\ at_two_places (ProductDB.price product) (SaleItemDB.unit_price row)
           /\ (in_cents (ProductDB.price product) ->
               (SaleItemDB.unit_price row == ProductDB.price product)%Q)
     end.

(** The store after a sale INSERT that was rolled back: the rows are the
    same, the key is spent. *)
Definition sale_key_spent (d : Database) : Database :=
  let '(Counters.mk c1 c2 c3 c4 c5) := counters d in
  mkDatabase (tables d) (Counters.mk c1 (c2 + 1) c3 c4 c5).

(** The store after a sale and its item rows were committed. *)
Definition sale_committed (d : Database) (new_sale : SaleDB.t)
    (rows : list SaleItemDB.t) : Database :=
  let '(Tables.mk cat prd sal sit stk sti mov vps vpr) := tables d in
  let '(Counters.mk c1 c2 c3 c4 c5) := counters d in
  mkDatabase
    (Tables.mk cat prd (sal ++ [SaleDB.inserted c2 new_sale])%list
       (sit ++ number_sale_items c3 rows)%list stk sti mov vps vpr)
    (Counters.mk c1 (c2 + 1) (c3 + Z.of_nat (List.length rows)) c4 c5).

(** The store after a stock-in and its item rows were committed. *)
Definition stock_in_committed (d : Database) (new_stock_in : StockInDB.t)
    (rows : list StockInItemDB.t) : Database :=
  let '(Tables.mk cat prd sal sit stk sti mov vps vpr) := tables d in
  let '(Counters.mk c1 c2 c3 c4 c5) := counters d in
  mkDatabase
    (Tables.mk cat prd sal sit (stk ++ [StockInDB.inserted c4 new_stock_in])%list
       (sti ++ number_stock_in_items c5 rows)%list mov vps vpr)
    (Counters.mk c1 c2 c3 (c4 + 1) (c5 + Z.of_nat (List.length rows))).

(** The movement a handler finds for an id. *)
Definition movement_by_id (tb : Tables.t) (movement_id : Z)
    : option InventoryMovementDB.t :=
  first (filter (fun m => (InventoryMovementDB.movement_id m =? movement_id)%Z)
           (Tables.inventory_movement tb)).

(** Two movement rows that agree on every column but [movement_type]. *)
Definition same_but_type (a b : InventoryMovementDB.t) : Prop :=
  InventoryMovementDB.movement_id b = InventoryMovementDB.movement_id a
  /\ InventoryMovementDB.product_id b = InventoryMovementDB.product_id a
  /\ InventoryMovementDB.quantity b = InventoryMovementDB.quantity a
  /\ InventoryMovementDB.unit_cost b = InventoryMovementDB.unit_cost a
  /\ InventoryMovementDB.sale_price b = InventoryMovementDB.sale_price a
  /\ InventoryMovementDB.sale_item_id b = InventoryMovementDB.sale_item_id a
  /\ InventoryMovementDB.stock_in_item_id b = InventoryMovementDB.stock_in_item_id a
  /\ InventoryMovementDB.movement_date b = InventoryMovementDB.movement_date a.

(** Two stores that differ at most in the movement table. *)
Definition same_but_movements (d d' : Database) : Prop :=
  counters d' = counters d
  /\ Tables.category (tables d') = Tables.category (tables d)
  /\ Tables.product (tables d') = Tables.product (tables d)
  /\ Tables.sale (tables d') = Tables.sale (tables d)
  /\ Tables.sale_item (tables d') = Tables.sale_item (tables d)
  /\ Tables.stock_in (tables d') = Tables.stock_in (tables d)
  /\ Tables.stock_in_item (tables d') = Tables.stock_in_item (tables d)
  /\ Tables.v_product_stock (tables d') = Tables.v_product_stock (tables d)
  /\ Tables.v_profitability_report (tables d')
     = Tables.v_profitability_report (tables d).

(** The movement table after the type of the rows keyed [movement_id] was
    set to [ty]: a row with another key is as it was, a row with that key
    has the new type and its other columns as they were. *)
Definition movements_retyped (movement_id : Z) (ty : string)
    (before after : list InventoryMovementDB.t) : Prop :=
  Forall2 (fun old new =>
             if (InventoryMovementDB.movement_id old =? movement_id)%Z
             then InventoryMovementDB.movement_type new = ty
                  /\ same_but_type old new
             else new = old)
    before after.

(** ** A small shop, for concrete runs *)

Definition shop : Database :=
  mkDatabase
    (Tables.mk
       [CategoryDB.mk 1 "Tea"]
       [ProductDB.mk 1 "Green tea" (Some 1) (Some "GT-1") (5 # 2) 10;
        ProductDB.mk 2 "Mug" None None 4 3]
       [SaleDB.mk 1 1000 5 "Cash" None]
       [SaleItemDB.mk 1 1 1 2 (5 # 2) 0]
       [] []
       [InventoryMovementDB.mk 1 1 "OPENING" 20 (Some 1%Q) None None None 500;
        InventoryMovementDB.mk 2 1 "SALE" 2 None (Some (5 # 2)) (Some 1) None 1000]
       [] [])
    (Counters.mk 3 2 2 1 1).

(** A store's [ILIKE] on plain ASCII patterns of the form [%term%]: the
    term occurs in the value, letter case ignored. *)
Fixpoint starts_with (p s : string) : bool :=
  match p, s with
  | EmptyString, _ => true
  | String a p', String b s' => Ascii.eqb a b && starts_with p' s'
  | String _ _, EmptyString => false
  end.

Fixpoint occurs_in (term s : string) : bool :=
  starts_with term s
  || match s with
     | EmptyString => false
     | String _ s' => occurs_in term s'
     end.

Definition sample_ilike (value pattern : string) : bool :=
  let n := String.length pattern in
  occurs_in (lower (substring 1 (n - 2) pattern)) (lower value).

(** No string is a date: enough for calls that pass no date. *)
Definition sample_strptime (_ : string) : option Z := None.

Definition sample_iter : list string := ["SALE"; "OPENING"; "STOCK_IN"].

(** A sale request naming product 1 twice. *)
Definition sale_with_duplicate : SaleCreate.t :=
  SaleCreate.mk None "cash" None
    [SaleItemCreate.mk 1 1 None 0; SaleItemCreate.mk 1 3 None 0].

(** A product request with a negative price and no reorder level. *)
Definition product_with_negative_price : ProductCreate.t :=
  ProductCreate.build "Voucher" None None (-5 # 1) None.

(** ** Vocabulary of the further properties *)

(** The items a list call answers with; none when it raises. *)
Definition items_of {T} (res : Result (PaginatedResponse.t T)) : list T :=
  match res with
  | Ok r => PaginatedResponse.items r
  | Raise _ => []
  end.

(** The same search, another page. *)
Definition product_search_at (p : ProductSearchParams.t) (page : Z)
    : ProductSearchParams.t :=
  ProductSearchParams.mk page (ProductSearchParams.limit p)
    (ProductSearchParams.search p) (ProductSearchParams.category_id p)
    (ProductSearchParams.min_price p) (ProductSearchParams.max_price p).

(** Pages 1 to [n]. *)
Definition pages_upto (n : nat) : list Z := map Z.of_nat (seq 1 n).

(** A product passes a search when it passes every filter the search
    sets: the term in its name or its sku, the category, the two price
    bounds. *)
Definition product_matches (ilike : string -> string -> bool)
    (p : ProductSearchParams.t) (x : ProductDB.t) : bool :=
  match truthy_str (ProductSearchParams.search p) with
  | Some s => ilike (ProductDB.name x) ("%" ++ s ++ "%")
              || ilike_opt ilike (ProductDB.sku x) ("%" ++ s ++ "%")
  | None => true
  end
  && match truthy_int (ProductSearchParams.category_id p) with
     | Some c => sql_eq_int (ProductDB.category_id x) c
     | None => true
     end
  && match ProductSearchParams.min_price p with
     | Some m => Qle_bool m (ProductDB.price x)
     | None => true
     end
  && match ProductSearchParams.max_price p with
     | Some m => Qle_bool (ProductDB.price x) m
     | None => true
     end.

(** A sale passes a search: the term in its notes, the payment method,
    and its time between the first instant of the start date and the last
    of the end date. *)
Definition sale_matches (ilike : string -> string -> bool)
    (start_day end_day : option Z)
    (p : SaleSearchParams.t) (x : SaleDB.t) : bool :=
  match truthy_str (SaleSearchParams.search p) with
  | Some s => ilike_opt ilike (SaleDB.notes x) ("%" ++ s ++ "%")
  | None => true
  end
  && match truthy_str (SaleSearchParams.payment_method p) with
     | Some pm => String.eqb (SaleDB.payment_method x) pm
     | None => true
     end
  && match start_day with
     | Some day => (midnight day <=? SaleDB.sale_datetime x)%Z
     | None => true
     end
  && match end_day with
     | Some day => (SaleDB.sale_datetime x <=? end_of_day_max day)%Z
     | None => true
     end.

(** The day a date parameter stands for: none when the parameter is not
    set. *)
Definition parsed_day (strptime_date : string -> option Z)
    (date : option string) : option Z :=
  match truthy_str date with
  | Some s => strptime_date s
  | None => None
  end.

(** A date parameter that is set and is not a date. *)
Definition bad_date_param (strptime_date : string -> option Z)
    (date : option string) : bool :=
  match truthy_str date with
  | Some s => match strptime_date s with Some _ => false | None => true end
  | None => false
  end.

(** A parser that knows one date, the first day of the epoch. *)
Definition epoch_strptime (s : string) : option Z :=
  if String.eqb s "1970-01-01" then Some 0%Z else None.

(** The shop with one line of the profitability view: two units sold for
    5 that had cost 8. *)
Definition shop_at_a_loss : Database :=
  mkDatabase
    (Tables.mk
       (Tables.category (tables shop)) (Tables.product (tables shop))
       (Tables.sale (tables shop)) (Tables.sale_item (tables shop))
       (Tables.stock_in (tables shop)) (Tables.stock_in_item (tables shop))
       (Tables.inventory_movement (tables shop))
       (Tables.v_product_stock (tables shop))
       [ProfitabilityReportView.mk 1 1 1000 1 "Green tea" 2 (5 # 2) 0 5 4 8 (-3 # 1)])
    (counters shop).

(** The shop with its stock view filled in: the tea is short, the mugs
    are not. *)
Definition shop_with_stock : Database :=
  mkDatabase
    (Tables.mk
       (Tables.category (tables shop)) (Tables.product (tables shop))
       (Tables.sale (tables shop)) (Tables.sale_item (tables shop))
       (Tables.stock_in (tables shop)) (Tables.stock_in_item (tables shop))
       (Tables.inventory_movement (tables shop))
       [ProductStockView.mk 1 "Green tea" (5 # 2) 10 4 1;
        ProductStockView.mk 2 "Mug" 4 3 12 0]
       (Tables.v_profitability_report (tables shop)))
    (counters shop).

(** The shop with two lines of the profitability view, both at a gain. *)
Definition shop_in_profit : Database :=
  mkDatabase
    (Tables.mk
       (Tables.category (tables shop)) (Tables.product (tables shop))
       (Tables.sale (tables shop)) (Tables.sale_item (tables shop))
       (Tables.stock_in (tables shop)) (Tables.stock_in_item (tables shop))
       (Tables.inventory_movement (tables shop))
       (Tables.v_product_stock (tables shop))
       [ProfitabilityReportView.mk 1 1 1000 1 "Green tea" 2 (5 # 2) 0 5 1 2 3;
        ProfitabilityReportView.mk 2 1 1000 2 "Mug" 1 4 0 4 3 3 1])
    (counters shop).

(** The rows the stock summary is about, what they are worth, and how
    many of them need restocking. *)
Definition summary_scope (needs_restock_only : bool) (tb : Tables.t)
    : list ProductStockView.t :=
  if needs_restock_only
  then filter (fun r => (ProductStockView.needs_restock r =? 1)%Z)
         (Tables.v_product_stock tb)
  else Tables.v_product_stock tb.

Definition scope_value (scope : list ProductStockView.t) : Q :=
  float_or_0
    (sql_sum (map (fun r => (inject_Z (ProductStockView.stock_on_hand r)
                             * ProductStockView.price r)%Q) scope)).

Definition scope_needing (scope : list ProductStockView.t) : Z :=
  count (filter (fun r => (ProductStockView.needs_restock r =? 1)%Z) scope).

(** The sale a handler finds for an id, and the item it finds for a sale
    and a product. *)
Definition sale_by_id (tb : Tables.t) (sale_id : Z) : option SaleDB.t :=
  first (filter (fun s => (SaleDB.sale_id s =? sale_id)%Z) (Tables.sale tb)).

Definition sale_item_of (tb : Tables.t) (sale_id product_id : Z)
    : option SaleItemDB.t :=
  first (filter (fun i => (SaleItemDB.sale_id i =? sale_id)%Z
                          && (SaleItemDB.product_id i =? product_id)%Z)
           (Tables.sale_item tb)).

(** No sale holds the same product in two of its items. *)
Definition no_product_twice (items : list SaleItemDB.t) : Prop :=
  NoDup (map (fun i => (SaleItemDB.sale_id i, SaleItemDB.product_id i)) items).

(** The same for stock-ins. *)
Definition stock_in_by_id (tb : Tables.t) (stock_in_id : Z) : option StockInDB.t :=
  first (filter (fun s => (StockInDB.stock_in_id s =? stock_in_id)%Z)
           (Tables.stock_in tb)).

Definition stock_in_item_of (tb : Tables.t) (stock_in_id product_id : Z)
    : option StockInItemDB.t :=
  first (filter (fun i => (StockInItemDB.stock_in_id i =? stock_in_id)%Z
                          && (StockInItemDB.product_id i =? product_id)%Z)
           (Tables.stock_in_item tb)).

Definition no_product_twice_in_stock (items : list StockInItemDB.t) : Prop :=
  NoDup (map (fun i => (StockInItemDB.stock_in_id i, StockInItemDB.product_id i))
           items).

(** The category a handler finds for an id, and the product it finds for
    a sku. *)
Definition category_by_id (tb : Tables.t) (category_id : Z) : option CategoryDB.t :=
  first (filter (fun c => (CategoryDB.category_id c =? category_id)%Z)
           (Tables.category tb)).

Definition product_with_sku (tb : Tables.t) (sku : string) : option ProductDB.t :=
  first (filter (fun p => sql_eq_str (ProductDB.sku p) sku) (Tables.product tb)).

(** The skus in use: those that are set and not empty. *)
Definition skus (products : list ProductDB.t) : list string :=
  flat_map (fun p => match truthy_str (ProductDB.sku p) with
                     | Some s => [s]
                     | None => []
                     end) products.

(** Every product that names a category names one of the table. *)
Definition categories_exist (tb : Tables.t) : Prop :=
  forall x c, In x (Tables.product tb) -> ProductDB.category_id x = Some c ->
              category_by_id tb c <> None.

(** The row [create_product] inserts for a request, under the key [k]. *)
Definition product_row (k : Z) (product : ProductCreate.t) : ProductDB.t :=
  ProductDB.mk k (ProductCreate.name product) (ProductCreate.category_id product)
    (ProductCreate.sku product) (decimal_2 (ProductCreate.price product))
    (ProductCreate.reorder_level product).

(** * Properties *)

(** ** Pagination arithmetic *)

Lemma floor_div_is_ceiling (total limit : Z) :
  (0 < limit)%Z -> ((total + limit - 1) / limit)%Z = ceil_div total limit.
Proof.
  intros Hl. unfold ceil_div, Qceiling, Qfloor.
  destruct limit as [|p|p]; try lia.
  cbn. rewrite Z.mul_1_r.
  assert (Hm := Z.div_mod (total + Z.pos p - 1) (Z.pos p) ltac:(lia)).
  assert (Hr := Z.mod_pos_bound (total + Z.pos p - 1) (Z.pos p) ltac:(lia)).
  assert (Hm' := Z.div_mod (- total) (Z.pos p) ltac:(lia)).
  assert (Hr' := Z.mod_pos_bound (- total) (Z.pos p) ltac:(lia)).
  nia.
Qed.

Lemma offset_limit_length {A} (o n : Z) (q : list A) :
  (0 <= n)%Z -> (Z.of_nat (List.length (offset_limit o n q)) <= n)%Z.
Proof.
  intros Hn. unfold offset_limit.
  pose proof (firstn_le_length (Z.to_nat n) (skipn (Z.to_nat o) q)). lia.
Qed.

Lemma envelope_is_ok {T} (q : list T) (o total page limit : Z) :
  PaginationParams_ok page limit ->
  envelope_ok page limit (envelope (offset_limit o limit q) total page limit).
Proof.
  intros [Hp [Hl Hu]]. unfold envelope_ok, envelope; cbn.
  repeat split.
  - apply floor_div_is_ceiling; lia.
  - apply offset_limit_length; lia.
Qed.

(** Unfolds one request down to the session operations. *)
Ltac run_request :=
  cbv beta iota zeta delta
    [request bind db_query lift ret raise SessionLocal close];
  cbn [committed txn auto_increment pending tables counters].

(** Case analysis on the tests a handler makes, innermost data first. *)
Ltac branch :=
  match goal with
  | |- context [match ?x with _ => _ end] =>
      let t := type of x in
      lazymatch t with
      | bool => destruct x eqn:?
      | Result _ => destruct x eqn:?
      | option _ => destruct x eqn:?
      end
  end.

Ltac branches := run_request; repeat (branch; cbv beta iota).

(** C2.  Whatever list endpoint is called, with [page >= 1] and [limit]
    between 1 and 100: an envelope that is returned has
    [total_pages = ceil(total / limit)], [has_next = (page < total_pages)],
    [has_prev = (page > 1)] and at most [limit] items (and it echoes the
    page and the limit of the call). *)
Theorem paginated_envelope_ok
    (ilike : string -> string -> bool) (strptime_date : string -> option Z)
    (allowed_types_iter : list string) (upper : string -> string)
    (T : Type) (c : ListCall T) (d d' : Database) (r : PaginatedResponse.t T) :
  PaginationParams_ok (call_page c) (call_limit c) ->
  request (list_handler ilike strptime_date allowed_types_iter upper c) d
  = (Ok r, d') ->
  envelope_ok (call_page c) (call_limit c) r.
Proof.
  intros Hok.
  destruct c; cbn [list_handler call_page call_limit] in *;
    [ unfold get_all_categories | unfold get_all_products
    | unfold get_all_sales | unfold get_all_stock_in
    | unfold get_all_inventory_movements | unfold get_product_stock_report
    | unfold get_profitability_report ];
    branches; intros H; try discriminate H;
    inversion H; subst; now apply envelope_is_ok.
Qed.

(** ** Empty pages *)

Lemma is_empty_true {A} (l : list A) : is_empty l = true <-> l = [].
Proof. destruct l; cbn; split; congruence. Qed.

Lemma get_all_categories_run ilike (p : CategorySearchParams.t) (d : Database) :
  request (get_all_categories ilike p) d =
  (if is_empty (category_page ilike p (tables d))
      && (CategorySearchParams.page p =? 1)%Z
   then Raise (HTTPException 404 "ไม่พบหมวดหมู่")
   else Ok (envelope (category_page ilike p (tables d))
              (count (category_filter ilike p (Tables.category (tables d))))
              (CategorySearchParams.page p) (CategorySearchParams.limit p)),
   d).
Proof.
  unfold get_all_categories, category_page. branches; destruct d; reflexivity.
Qed.

Lemma get_all_products_run ilike (p : ProductSearchParams.t) (d : Database) :
  request (get_all_products ilike p) d =
  (if is_empty (product_page ilike p (tables d))
      && (ProductSearchParams.page p =? 1)%Z
   then Raise (HTTPException 404 "ไม่พบสินค้า")
   else Ok (envelope (product_page ilike p (tables d))
              (count (product_filter ilike p (Tables.product (tables d))))
              (ProductSearchParams.page p) (ProductSearchParams.limit p)),
   d).
Proof.
  unfold get_all_products, product_page. branches; destruct d; reflexivity.
Qed.

(** The shape both handlers share: a test on the page fetched, then the
    envelope around it. *)
Lemma empty_first_page_rule {T} (rows : list T) (page : Z) (detail : string)
    (e : PaginatedResponse.t T) (res : Result (PaginatedResponse.t T)) :
  PaginatedResponse.items e = rows ->
  res = (if is_empty rows && (page =? 1)%Z
         then Raise (HTTPException 404 detail) else Ok e) ->
  ((exists msg, res = Raise (HTTPException 404 msg)) <-> (page = 1%Z /\ rows = []))
  /\ ((1 < page)%Z -> rows = [] ->
      exists r, res = Ok r /\ PaginatedResponse.items r = []).
Proof.
  intros He ->. split; [split|].
  - intros [msg H].
    destruct (is_empty rows) eqn:E1; destruct (page =? 1)%Z eqn:E2;
      cbn in H; try discriminate H.
    split; [now apply Z.eqb_eq | now apply is_empty_true].
  - intros [-> ->]. cbn. now exists detail.
  - intros Hp ->. cbn.
    destruct (page =? 1)%Z eqn:E2; [apply Z.eqb_eq in E2; lia|].
    exists e. split; [reflexivity | exact He].
Qed.

(** C6.  Listing categories or products raises the 404 exactly when the
    page asked for is page 1 and the rows fetched for it are none; a page
    after the first with no rows is answered with an empty item list. *)
Theorem not_found_only_on_empty_first_page
    (ilike : string -> string -> bool) (d : Database) :
  (forall p : CategorySearchParams.t,
      let res := fst (request (get_all_categories ilike p) d) in
      let rows := category_page ilike p (tables d) in
      ((exists msg, res = Raise (HTTPException 404 msg))
       <-> (CategorySearchParams.page p = 1%Z /\ rows = []))
      /\ ((1 < CategorySearchParams.page p)%Z -> rows = [] ->
          exists r, res = Ok r /\ PaginatedResponse.items r = []))
  /\ (forall p : ProductSearchParams.t,
      let res := fst (request (get_all_products ilike p) d) in
      let rows := product_page ilike p (tables d) in
      ((exists msg, res = Raise (HTTPException 404 msg))
       <-> (ProductSearchParams.page p = 1%Z /\ rows = []))
      /\ ((1 < ProductSearchParams.page p)%Z -> rows = [] ->
          exists r, res = Ok r /\ PaginatedResponse.items r = [])).
Proof.
  split; intros p res rows; subst res rows.
  - rewrite get_all_categories_run. cbn [fst].
    eapply empty_first_page_rule; [|reflexivity]. reflexivity.
  - rewrite get_all_products_run. cbn [fst].
    eapply empty_first_page_rule; [|reflexivity]. reflexivity.
Qed.

(** ** Letter case *)

Lemma chr_upper_C (c : ascii) :
  chr_upper c = "C"%char <-> chr_lower c = "c"%char.
Proof.
  destruct c as [[] [] [] [] [] [] [] []]; vm_compute; split; congruence.
Qed.

Lemma chr_upper_Q (c : ascii) :
  chr_upper c = "Q"%char <-> chr_lower c = "q"%char.
Proof.
  destruct c as [[] [] [] [] [] [] [] []]; vm_compute; split; congruence.
Qed.

Lemma chr_lower_not_R (c : ascii) : chr_lower c <> "R"%char.
Proof.
  destruct c as [[] [] [] [] [] [] [] []]; vm_compute; congruence.
Qed.

Lemma capitalize_as_lower (U l : ascii) (t s : string) :
  (forall c, chr_upper c = U <-> chr_lower c = l) ->
  capitalize s = String U t <-> lower s = String l t.
Proof.
  intros Hc. destruct s as [|c r]; cbn.
  - split; discriminate.
  - fold (lower r). split; intros H; injection H as H1 H2;
      apply Hc in H1; congruence.
Qed.

Lemma capitalize_not_QR (s : string) : capitalize s <> "QR".
Proof.
  destruct s as [|c [|c' r]]; cbn; try discriminate.
  intros H. injection H as _ H _. now apply chr_lower_not_R in H.
Qed.

(** What the first lines of [create_sale] make of a payment method. *)
Lemma payment_method_normalised (s : string) :
  let pm := if String.eqb (capitalize s) "Qr" then "QR" else capitalize s in
  match canonical_payment_method s with
  | Some c => pm = c /\ str_in pm ["Cash"; "Card"; "QR"] = true
  | None => str_in pm ["Cash"; "Card"; "QR"] = false
  end.
Proof.
  unfold canonical_payment_method.
  destruct (String.eqb_spec (lower s) "cash") as [H1|H1].
  { apply (capitalize_as_lower _ _ _ _ chr_upper_C) in H1. rewrite H1.
    now cbn. }
  destruct (String.eqb_spec (lower s) "card") as [H2|H2].
  { apply (capitalize_as_lower _ _ _ _ chr_upper_C) in H2. rewrite H2.
    now cbn. }
  destruct (String.eqb_spec (lower s) "qr") as [H3|H3].
  { apply (capitalize_as_lower _ _ _ _ chr_upper_Q) in H3. rewrite H3.
    now cbn. }
  assert (N1 : capitalize s <> "Cash")
    by (intros E; apply H1; now apply (capitalize_as_lower _ _ _ _ chr_upper_C)).
  assert (N2 : capitalize s <> "Card")
    by (intros E; apply H2; now apply (capitalize_as_lower _ _ _ _ chr_upper_C)).
  assert (N3 : capitalize s <> "Qr")
    by (intros E; apply H3; now apply (capitalize_as_lower _ _ _ _ chr_upper_Q)).
  pose proof (capitalize_not_QR s) as N4.
  cbv zeta. destruct (String.eqb_spec (capitalize s) "Qr") as [E|_]; [easy|].
  unfold str_in; cbn [existsb].
  destruct (String.eqb_spec (capitalize s) "Cash"); [easy|].
  destruct (String.eqb_spec (capitalize s) "Card"); [easy|].
  destruct (String.eqb_spec (capitalize s) "QR"); [easy|].
  reflexivity.
Qed.

(** ** Loops and flushes *)

Lemma push_nil (s : Session) : push s [] = s.
Proof. destruct s; unfold push; cbn. now rewrite app_nil_r. Qed.

Lemma push_push (s : Session) (a b : list Obj) :
  push (push s a) b = push s (a ++ b).
Proof. unfold push; cbn. now rewrite app_assoc. Qed.

(** A loop whose body reads the tables of the transaction and either
    raises or leaves objects pending: it stops at the first element for
    which the body raises, and until then only what is pending grows. *)
Lemma for_each_run {A} (items : list A) (body : A -> M unit)
    (bad : Tables.t -> A -> bool) (err : A -> exn)
    (objs : Tables.t -> A -> list Obj) :
  (forall it s,
      body it s = if bad (txn s) it then (Raise (err it), s)
                  else (Ok tt, push s (objs (txn s) it))) ->
  forall s,
    match find (bad (txn s)) items with
    | Some it => exists os, for_each items body s = (Raise (err it), push s os)
    | None =>
        for_each items body s = (Ok tt, push s (flat_map (objs (txn s)) items))
    end.
Proof.
  intros Hbody. induction items as [|x r IH]; intros s.
  - cbn. now rewrite push_nil.
  - cbn [find for_each]. unfold bind. rewrite Hbody.
    destruct (bad (txn s) x) eqn:Hx.
    + exists []. now rewrite push_nil.
    + specialize (IH (push s (objs (txn s) x))). cbn [push txn] in IH.
      fold (push s (objs (txn s) x)) in IH.
      destruct (find (bad (txn s)) r) as [it|].
      * destruct IH as [os IH]. exists (objs (txn s) x ++ os)%list.
        now rewrite IH, push_push.
      * rewrite IH, push_push. reflexivity.
Qed.

Lemma write_all_sale_items (rows : list SaleItemDB.t) :
  forall cat prd sal sit stk sti mov vps vpr c1 c2 c3 c4 c5,
    exists ks,
      write_all (map NewSaleItem rows)
        (Tables.mk cat prd sal sit stk sti mov vps vpr)
        (Counters.mk c1 c2 c3 c4 c5) =
      (Tables.mk cat prd sal (sit ++ number_sale_items c3 rows) stk sti mov vps vpr,
       Counters.mk c1 c2 (c3 + Z.of_nat (List.length rows)) c4 c5, ks).
Proof.
  induction rows as [|r rs IH]; intros.
  - exists []. cbn. now rewrite app_nil_r, Z.add_0_r.
  - cbn [map write_all write].
    destruct (IH cat prd sal (sit ++ [SaleItemDB.inserted c3 r])%list
                stk sti mov vps vpr c1 c2 (c3 + 1)%Z c4 c5) as [ks ->].
    exists (c3 :: ks). cbn [number_sale_items List.length].
    rewrite <- app_assoc. cbn [app].
    do 3 f_equal. lia.
Qed.

Lemma write_all_stock_in_items (rows : list StockInItemDB.t) :
  forall cat prd sal sit stk sti mov vps vpr c1 c2 c3 c4 c5,
    exists ks,
      write_all (map NewStockInItem rows)
        (Tables.mk cat prd sal sit stk sti mov vps vpr)
        (Counters.mk c1 c2 c3 c4 c5) =
      (Tables.mk cat prd sal sit stk (sti ++ number_stock_in_items c5 rows) mov vps vpr,
       Counters.mk c1 c2 c3 c4 (c5 + Z.of_nat (List.length rows)), ks).
Proof.
  induction rows as [|r rs IH]; intros.
  - exists []. cbn. now rewrite app_nil_r, Z.add_0_r.
  - cbn [map write_all write].
    destruct (IH cat prd sal sit stk (sti ++ [StockInItemDB.inserted c5 r])%list
                mov vps vpr c1 c2 c3 c4 (c5 + 1)%Z) as [ks ->].
    exists (c5 :: ks). cbn [number_stock_in_items List.length].
    rewrite <- app_assoc. cbn [app].
    do 3 f_equal. lia.
Qed.

Lemma find_app_last {A} (p : A -> bool) (l : list A) (x : A) :
  p x = true -> exists y, find p (l ++ [x]) = Some y.
Proof.
  intros Hx. induction l as [|a l IH]; cbn.
  - rewrite Hx. now exists x.
  - destruct (p a); [now exists a | exact IH].
Qed.

Lemma find_is_first {A} (p : A -> bool) (l : list A) :
  find p l = first (filter p l).
Proof.
  induction l as [|a l IH]; cbn; [reflexivity|].
  destruct (p a); [reflexivity | exact IH].
Qed.

(** ** Creating a sale *)

(** The loop of [create_sale] over the items, from any state of the
    session. *)
Lemma create_sale_items_run (new_sale_id : Z) (items : list SaleItemCreate.t)
    (s : Session) :
  let body := fun item : SaleItemCreate.t =>
    (q <- db_query Tables.product ;;
     match first (filter (fun p => (ProductDB.product_id p
                                    =? SaleItemCreate.product_id item)%Z) q) with
     | None =>
         raise (HTTPException 404
                  ("Product with ID " ++ str (SaleItemCreate.product_id item)
                   ++ " not found."))
     | Some product =>
         db_add (NewSaleItem
                   (SaleItemDB.mk 0 new_sale_id
                      (SaleItemCreate.product_id item)
                      (SaleItemCreate.quantity item)
                      (match SaleItemCreate.unit_price item with
                       | Some p => p
                       | None => ProductDB.price product
                       end)
                      (SaleItemCreate.discount item)))
     end)%handler in
  match find (fun it => product_missing (txn s) (SaleItemCreate.product_id it))
          items with
  | Some it =>
      exists os,
        for_each items body s =
        (Raise (HTTPException 404
                  ("Product with ID " ++ str (SaleItemCreate.product_id it)
                   ++ " not found.")),
         push s os)
  | None =>
      for_each items body s =
      (Ok tt,
       push s (map NewSaleItem
                 (flat_map (sale_item_row (txn s) new_sale_id) items)))
  end.
Proof.
  intros body.
  assert (Hbody : forall it s,
             body it s =
             if product_missing (txn s) (SaleItemCreate.product_id it)
             then (Raise (HTTPException 404
                            ("Product with ID " ++ str (SaleItemCreate.product_id it)
                             ++ " not found.")), s)
             else (Ok tt, push s (map NewSaleItem
                                    (sale_item_row (txn s) new_sale_id it)))).
  { intros it s0. unfold body, bind, db_query, product_missing, sale_item_row,
      product_by_id.
    destruct (first _); reflexivity. }
  pose proof (for_each_run items body
                (fun tb it => product_missing tb (SaleItemCreate.product_id it))
                _ (fun tb it => map NewSaleItem (sale_item_row tb new_sale_id it))
                Hbody s) as Hloop.
  cbv beta in Hloop.
  destruct (find _ items) as [it|]; [exact Hloop|].
  rewrite Hloop. f_equal. f_equal. clear.
  induction items as [|x r IH]; cbn; [reflexivity|].
  now rewrite map_app, IH.
Qed.

(** Runs [create_sale] up to its loop: the payment method is settled and
    the sale row is flushed. *)
Ltac enter_create_sale sale d Hpm :=
  pose proof (payment_method_normalised (SaleCreate.payment_method sale)) as Hpm;
  cbv zeta in Hpm; unfold create_sale;
  destruct sale as [dt pm0 notes items];
  cbn [SaleCreate.payment_method SaleCreate.with_payment_method
       SaleCreate.items SaleCreate.notes SaleCreate.sale_datetime] in *;
  match goal with
  | |- context [SaleCreate.payment_method ?x] =>
      replace x with
        (SaleCreate.mk dt (if String.eqb (capitalize pm0) "Qr" then "QR"
                           else capitalize pm0) notes items)
        by (destruct (String.eqb (capitalize pm0) "Qr"); reflexivity)
  end;
  cbn [SaleCreate.payment_method SaleCreate.items SaleCreate.notes
       SaleCreate.sale_datetime].

Ltac flush_new_sale d :=
  destruct d as [[cat prd sal sit stk sti mov vps vpr] [c1 c2 c3 c4 c5]];
  unfold request, SessionLocal; cbn [tables counters Counters.sale];
  unfold bind at 1, db_add at 1;
  cbn [committed txn auto_increment pending app];
  unfold bind at 1, db_flush at 1;
  cbn [committed txn auto_increment pending write_all write key_at nth];
  unfold bind at 1.

Lemma create_sale_bad_payment (now : Z) (sale : SaleCreate.t) (d : Database) :
  canonical_payment_method (SaleCreate.payment_method sale) = None ->
  request (create_sale now sale) d =
  (Raise (HTTPException 400 "วิธีการชำระเงินไม่ถูกต้อง"), d).
Proof.
  intros Hc. enter_create_sale sale d Hpm. rewrite Hc in Hpm. rewrite Hpm.
  cbn [negb]. unfold request, raise, SessionLocal, close; cbn. now destruct d.
Qed.

Lemma create_sale_missing_product (now : Z) (sale : SaleCreate.t) (d : Database)
    (pm : string) (it : SaleItemCreate.t) :
  canonical_payment_method (SaleCreate.payment_method sale) = Some pm ->
  find (fun it => product_missing (tables d) (SaleItemCreate.product_id it))
    (SaleCreate.items sale) = Some it ->
  request (create_sale now sale) d =
  (Raise (HTTPException 404
            ("Product with ID " ++ str (SaleItemCreate.product_id it)
             ++ " not found.")),
   sale_key_spent d).
Proof.
  intros Hc Hfind. enter_create_sale sale d Hpm. rewrite Hc in Hpm.
  destruct Hpm as [-> Hin]. rewrite Hin. cbn [negb].
  flush_new_sale d.
  match goal with
  | |- context [for_each items _ ?s] =>
      pose proof (create_sale_items_run c2 items s) as Hloop
  end.
  cbv zeta in Hloop. cbn [txn] in Hloop.
  change (find _ items) with
    (find (fun it => product_missing
                       (Tables.mk cat prd sal sit stk sti mov vps vpr)
                       (SaleItemCreate.product_id it)) items) in Hloop.
  cbn [tables] in Hfind. rewrite Hfind in Hloop.
  destruct Hloop as [os ->]. reflexivity.
Qed.

Lemma create_sale_ok (now : Z) (sale : SaleCreate.t) (d : Database) (pm : string) :
  canonical_payment_method (SaleCreate.payment_method sale) = Some pm ->
  find (fun it => product_missing (tables d) (SaleItemCreate.product_id it))
    (SaleCreate.items sale) = None ->
  exists r,
    request (create_sale now sale) d =
    (Ok r,
     sale_committed d
       (SaleDB.mk 0
          (match SaleCreate.sale_datetime sale with
           | Some t => t
           | None => now
           end)
          0%Q pm (SaleCreate.notes sale))
       (flat_map (sale_item_row (tables d) (Counters.sale (counters d)))
          (SaleCreate.items sale))).
Proof.
  intros Hc Hfind. enter_create_sale sale d Hpm. rewrite Hc in Hpm.
  destruct Hpm as [-> Hin]. rewrite Hin. cbn [negb].
  flush_new_sale d.
  match goal with
  | |- context [for_each items _ ?s] =>
      pose proof (create_sale_items_run c2 items s) as Hloop
  end.
  cbv zeta in Hloop. cbn [txn] in Hloop.
  change (find _ items) with
    (find (fun it => product_missing
                       (Tables.mk cat prd sal sit stk sti mov vps vpr)
                       (SaleItemCreate.product_id it)) items) in Hloop.
  cbn [tables] in Hfind. rewrite Hfind in Hloop. rewrite Hloop.
  unfold push. cbn [committed txn auto_increment pending app].
  change (flat_map (sale_item_row _ c2) items) with
    (flat_map (sale_item_row (Tables.mk cat prd sal sit stk sti mov vps vpr) c2)
       items).
  set (rows := flat_map _ items).
  unfold bind at 1, db_commit at 1. cbn [committed txn auto_increment pending].
  match goal with
  | |- context [write_all (map NewSaleItem rows) ?tb ?c] =>
      match tb with
      | Tables.mk ?a1 ?a2 ?a3 ?a4 ?a5 ?a6 ?a7 ?a8 ?a9 =>
          destruct (write_all_sale_items rows a1 a2 a3 a4 a5 a6 a7 a8 a9
                      c1 (c2 + 1)%Z c3 c4 c5) as [ks ->]
      end
  end.
  unfold bind at 1, db_refresh at 1. cbn [txn Tables.sale].
  match goal with
  | |- context [find ?p (sal ++ [?x])%list] =>
      destruct (find_app_last p sal x) as [y ->];
        [cbn; apply Z.eqb_refl|]
  end.
  unfold bind, db_query, ret, close, sale_committed.
  cbn [txn committed auto_increment tables counters Tables.sale_item].
  eexists. reflexivity.
Qed.

Lemma canonical_payment_method_some (s pm : string) :
  canonical_payment_method s = Some pm <->
  (lower s = "cash" /\ pm = "Cash") \/ (lower s = "card" /\ pm = "Card")
  \/ (lower s = "qr" /\ pm = "QR").
Proof.
  unfold canonical_payment_method.
  destruct (String.eqb_spec (lower s) "cash") as [H1|H1].
  { rewrite H1. split.
    - intros [= <-]. auto.
    - intros [[_ ->]|[[E _]|[E _]]];
        [reflexivity | discriminate E | discriminate E]. }
  destruct (String.eqb_spec (lower s) "card") as [H2|H2].
  { rewrite H2. split.
    - intros [= <-]. auto.
    - intros [[E _]|[[_ ->]|[E _]]];
        [discriminate E | reflexivity | discriminate E]. }
  destruct (String.eqb_spec (lower s) "qr") as [H3|H3].
  { rewrite H3. split.
    - intros [= <-]. auto.
    - intros [[E _]|[[E _]|[_ ->]]];
        [discriminate E | discriminate E | reflexivity]. }
  split; [discriminate|].
  intros [[E _]|[[E _]|[E _]]]; contradiction.
Qed.

Lemma canonical_payment_method_none (s : string) :
  canonical_payment_method s = None <->
  lower s <> "cash" /\ lower s <> "card" /\ lower s <> "qr".
Proof.
  unfold canonical_payment_method.
  destruct (String.eqb_spec (lower s) "cash") as [H1|H1];
    [split; [discriminate | intros (N & _); contradiction]|].
  destruct (String.eqb_spec (lower s) "card") as [H2|H2];
    [split; [discriminate | intros (_ & N & _); contradiction]|].
  destruct (String.eqb_spec (lower s) "qr") as [H3|H3];
    [split; [discriminate | intros (_ & _ & N); contradiction]|].
  split; auto.
Qed.

Lemma sale_committed_tables (d : Database) (new_sale : SaleDB.t)
    (rows : list SaleItemDB.t) :
  Tables.sale (tables (sale_committed d new_sale rows)) =
  (Tables.sale (tables d)
   ++ [SaleDB.inserted (Counters.sale (counters d)) new_sale])%list
  /\ Tables.sale_item (tables (sale_committed d new_sale rows)) =
     (Tables.sale_item (tables d)
      ++ number_sale_items (Counters.sale_item (counters d)) rows)%list.
Proof. destruct d as [[] []]. cbn. split; reflexivity. Qed.

Lemma sale_key_spent_tables (d : Database) :
  tables (sale_key_spent d) = tables d.
Proof. destruct d as [[] []]. reflexivity. Qed.

(** C4.  [create_sale] and the payment method [s] of the request.  When
    [s] is cash, card or qr in any letter case, the call either stops at a
    missing product (a 404 that leaves the tables as they were) or stores
    one new sale whose payment method is exactly Cash, Card or QR
    respectively; for every other [s] the call is a 400 and the store is
    untouched. *)
Theorem payment_method_canonical_or_400
    (now : Z) (sale : SaleCreate.t) (d : Database) :
  let s := SaleCreate.payment_method sale in
  (forall pm,
      (lower s = "cash" /\ pm = "Cash") \/ (lower s = "card" /\ pm = "Card")
      \/ (lower s = "qr" /\ pm = "QR") ->
      (exists it d',
          In it (SaleCreate.items sale)
          /\ product_by_id (tables d) (SaleItemCreate.product_id it) = None
          /\ request (create_sale now sale) d =
             (Raise (HTTPException 404
                       ("Product with ID " ++ str (SaleItemCreate.product_id it)
                        ++ " not found.")), d')
          /\ tables d' = tables d)
      \/ (exists r d' row,
             request (create_sale now sale) d = (Ok r, d')
             /\ Tables.sale (tables d') = (Tables.sale (tables d) ++ [row])%list
             /\ SaleDB.payment_method row = pm))
  /\ (lower s <> "cash" -> lower s <> "card" -> lower s <> "qr" ->
      request (create_sale now sale) d =
      (Raise (HTTPException 400 "วิธีการชำระเงินไม่ถูกต้อง"), d)).
Proof.
  intros s. split.
  - intros pm Hpm. apply canonical_payment_method_some in Hpm.
    destruct (find (fun it => product_missing (tables d)
                                (SaleItemCreate.product_id it))
                (SaleCreate.items sale)) as [it|] eqn:Hfind.
    + left. exists it, (sale_key_spent d).
      pose proof (find_some _ _ Hfind) as [Hin Hmiss].
      repeat split; [exact Hin | | | apply sale_key_spent_tables].
      * unfold product_missing in Hmiss.
        now destruct (product_by_id (tables d) (SaleItemCreate.product_id it)).
      * now apply create_sale_missing_product with (pm := pm).
    + right. destruct (create_sale_ok now sale d pm Hpm Hfind) as [r Hr].
      eexists r, _, _. split; [exact Hr|].
      split; [apply sale_committed_tables | reflexivity].
  - intros N1 N2 N3. apply create_sale_bad_payment.
    now apply canonical_payment_method_none.
Qed.

(** ** The unit price of a stored sale item *)

Lemma cents_as_product (z : Z) : (z # 100 == inject_Z z * (1 # 100))%Q.
Proof. unfold Qeq; cbn. lia. Qed.

(** What a column of two decimal places keeps is the value at two decimal
    places. *)
Lemma decimal_2_rounds (x : Q) : at_two_places x (decimal_2 x).
Proof.
  unfold at_two_places, decimal_2. cbv zeta.
  set (n := Qfloor (Qabs x * 100 + (1 # 2))%Q).
  split; [eexists; apply Qred_correct|].
  rewrite Qred_correct, cents_as_product.
  pose proof (Qfloor_le (Qabs x * 100 + (1 # 2))%Q) as Hlo.
  pose proof (Qlt_floor (Qabs x * 100 + (1 # 2))%Q) as Hhi.
  fold n in Hlo, Hhi. rewrite inject_Z_plus in Hhi.
  change (inject_Z 1) with 1%Q in Hhi.
  apply Qabs_Qle_condition.
  destruct x as [[|p|p] b]; cbn [Qnum Z.sgn].
  - assert (E : (0 # b == 0)%Q) by reflexivity.
    assert (A : (Qabs (0 # b) == 0)%Q) by reflexivity.
    rewrite A in Hlo, Hhi. rewrite E.
    change (inject_Z (0 * n)) with 0%Q. lra.
  - change (Qabs (Z.pos p # b)) with (Z.pos p # b) in Hlo, Hhi.
    rewrite Z.mul_1_l. set (q := inject_Z n) in *. set (x := Z.pos p # b) in *.
    lra.
  - change (Qabs (Z.neg p # b)) with (Z.pos p # b) in Hlo, Hhi.
    assert (E : (Z.neg p # b == - (Z.pos p # b))%Q) by reflexivity.
    assert (F : (inject_Z (-1 * n) == - inject_Z n)%Q).
    { rewrite <- inject_Z_opp. now replace (-1 * n)%Z with (- n)%Z by lia. }
    rewrite E, F. set (q := inject_Z n) in *. set (x := Z.pos p # b) in *.
    lra.
Qed.

(** A value that has two decimal places is kept as it is. *)
Lemma cents_fixed (x y : Q) : in_cents x -> at_two_places x y -> (y == x)%Q.
Proof.
  intros [m Hx] [[n Hy] Hb]. rewrite Hx, Hy in *.
  revert Hb. unfold Qle, Qeq, Qabs, Qminus, Qplus, Qopp; cbn. lia.
Qed.

Lemma inserted_item_stored_as (tb : Tables.t) (k sale_id : Z)
    (item : SaleItemCreate.t) (product : ProductDB.t) :
  product_by_id tb (SaleItemCreate.product_id item) = Some product ->
  item_stored_as tb item
    (SaleItemDB.inserted k
       (SaleItemDB.mk 0 sale_id (SaleItemCreate.product_id item)
          (SaleItemCreate.quantity item)
          (match SaleItemCreate.unit_price item with
           | Some p => p
           | None => ProductDB.price product
           end)
          (SaleItemCreate.discount item))).
Proof.
  intros Hp. unfold item_stored_as; cbn.
  split; [reflexivity|]. split; [reflexivity|].
  split; [apply decimal_2_rounds|].
  destruct (SaleItemCreate.unit_price item) as [p|].
  { split; [apply decimal_2_rounds|].
    intros Hc. apply cents_fixed; [exact Hc | apply decimal_2_rounds]. }
  exists product. split; [exact Hp|]. split; [apply decimal_2_rounds|].
  intros Hc. apply cents_fixed; [exact Hc | apply decimal_2_rounds].
Qed.

Lemma items_stored (tb : Tables.t) (new_sale_id : Z)
    (items : list SaleItemCreate.t) :
  find (fun it => product_missing tb (SaleItemCreate.product_id it)) items = None ->
  forall k,
    Forall2 (item_stored_as tb) items
      (number_sale_items k (flat_map (sale_item_row tb new_sale_id) items)).
Proof.
  induction items as [|x r IH]; intros Hfind k; cbn.
  - constructor.
  - cbn in Hfind. unfold product_missing, sale_item_row in *.
    destruct (product_by_id tb (SaleItemCreate.product_id x)) as [product|] eqn:Hp;
      [|discriminate Hfind].
    cbn [flat_map app number_sale_items]. constructor; [|now apply IH].
    now apply inserted_item_stored_as.
Qed.

Lemma add_sale_item_stores (sale_id : Z) (item : SaleItemCreate.t)
    (d d' : Database) (r : SaleItemDB.t) :
  request (add_sale_item sale_id item) d = (Ok r, d') ->
  exists row,
    Tables.sale_item (tables d') = (Tables.sale_item (tables d) ++ [row])%list
    /\ SaleItemDB.sale_id row = sale_id
    /\ item_stored_as (tables d) item row.
Proof.
  destruct d as [[cat prd sal sit stk sti mov vps vpr] [c1 c2 c3 c4 c5]].
  unfold add_sale_item, request, SessionLocal, bind, db_query.
  cbn [tables counters txn committed auto_increment pending
       Tables.sale Tables.product Tables.sale_item].
  destruct (first (filter _ sal)); [|discriminate].
  cbn [tables counters txn committed auto_increment pending
       Tables.sale Tables.product Tables.sale_item].
  destruct (first (filter _ prd)) as [product|] eqn:Hp; [|discriminate].
  cbn [tables counters txn committed auto_increment pending
       Tables.sale Tables.product Tables.sale_item].
  destruct (first (filter _ sit)); [discriminate|].
  pose proof (inserted_item_stored_as
                (Tables.mk cat prd sal sit stk sti mov vps vpr) c3 sale_id item
                product Hp) as Hrow.
  destruct (SaleItemCreate.unit_price item) as [p|] eqn:Hu;
    cbn [SaleItemCreate.unit_price SaleItemCreate.with_unit_price
         SaleItemCreate.product_id SaleItemCreate.quantity
         SaleItemCreate.discount];
    rewrite ?Hu;
    unfold db_add, db_commit, db_refresh;
    cbn [tables counters txn committed auto_increment pending app
         write_all write key_at nth Tables.sale_item];
    (destruct (find _ _); [|discriminate]);
    unfold close; cbn [committed auto_increment];
    intros H; injection H as _ <-; cbn [tables Tables.sale_item];
    eexists; (split; [reflexivity|]); (split; [reflexivity | exact Hrow]).
Qed.

Lemma create_sale_stores (now : Z) (sale : SaleCreate.t) (d d' : Database)
    (r : SaleDB.t * list SaleItemDB.t) :
  request (create_sale now sale) d = (Ok r, d') ->
  exists rows,
    Tables.sale_item (tables d') = (Tables.sale_item (tables d) ++ rows)%list
    /\ Forall2 (item_stored_as (tables d)) (SaleCreate.items sale) rows.
Proof.
  intros H.
  destruct (canonical_payment_method (SaleCreate.payment_method sale))
    as [pm|] eqn:Hc.
  2:{ rewrite (create_sale_bad_payment now sale d Hc) in H. discriminate H. }
  destruct (find (fun it => product_missing (tables d)
                              (SaleItemCreate.product_id it))
              (SaleCreate.items sale)) as [it|] eqn:Hfind.
  { rewrite (create_sale_missing_product now sale d pm it Hc Hfind) in H.
    discriminate H. }
  destruct (create_sale_ok now sale d pm Hc Hfind) as [r' Hr].
  rewrite Hr in H. injection H as _ <-.
  eexists. split; [apply sale_committed_tables|].
  now apply items_stored.
Qed.

(** A unit price of three decimal places is not stored as supplied: the
    column keeps two, and for 2.557 the item that is stored, and
    returned, has 2.56. *)
Lemma supplied_unit_price_is_stored_at_two_places :
  exists r d',
    request (add_sale_item 1 (SaleItemCreate.mk 2 1 (Some (2557 # 1000)) 0)) shop
    = (Ok r, d')
    /\ Tables.sale_item (tables d') = (Tables.sale_item (tables shop) ++ [r])%list
    /\ SaleItemDB.unit_price r = 64 # 25
    /\ ~ (SaleItemDB.unit_price r == 2557 # 1000)%Q.
Proof.
  eexists. eexists. split; [vm_compute; reflexivity|].
  split; [reflexivity|]. split; [reflexivity|].
  cbn. unfold Qeq; cbn. lia.
Qed.

(** C9.  A sale item stored by [create_sale] or by [add_sale_item] has the
    unit price the request supplied, kept at the two decimal places of
    the column, and when the request supplied none, the price the
    referenced product has in the tables the call started from: that
    price at two decimal places, which is that price itself when it has
    two decimal places, as a price the store holds has.  The rows a
    successful call adds are, in order, one per item of the request. *)
Theorem unit_price_supplied_or_product_price :
  (forall (now : Z) (sale : SaleCreate.t) (d d' : Database)
          (r : SaleDB.t * list SaleItemDB.t),
      request (create_sale now sale) d = (Ok r, d') ->
      exists rows,
        Tables.sale_item (tables d') = (Tables.sale_item (tables d) ++ rows)%list
        /\ Forall2 (item_stored_as (tables d)) (SaleCreate.items sale) rows)
  /\ (forall (sale_id : Z) (item : SaleItemCreate.t) (d d' : Database)
             (r : SaleItemDB.t),
      request (add_sale_item sale_id item) d = (Ok r, d') ->
      exists row,
        Tables.sale_item (tables d') = (Tables.sale_item (tables d) ++ [row])%list
        /\ SaleItemDB.sale_id row = sale_id
        /\ item_stored_as (tables d) item row).
Proof.
  split.
  - exact create_sale_stores.
  - exact add_sale_item_stores.
Qed.

(** ** Creating a stock-in *)

(** The validation loop of [create_stock_in]: a pass over the items that
    writes nothing. *)
Lemma stock_in_validation_run (items : list StockInItemCreate.t) (s : Session) :
  let body := fun item : StockInItemCreate.t =>
    (q <- db_query Tables.product ;;
     match first (filter (fun p => (ProductDB.product_id p
                                    =? StockInItemCreate.product_id item)%Z) q) with
     | None =>
         raise (HTTPException 404
                  ("ไม่พบสินค้า ID: " ++ str (StockInItemCreate.product_id item)))
     | Some _ => ret tt
     end)%handler in
  for_each items body s =
  match find (fun it => product_missing (txn s) (StockInItemCreate.product_id it))
          items with
  | Some it =>
      (Raise (HTTPException 404
                ("ไม่พบสินค้า ID: " ++ str (StockInItemCreate.product_id it))), s)
  | None => (Ok tt, s)
  end.
Proof.
  intros body. induction items as [|x r IH]; cbn [for_each find].
  - reflexivity.
  - unfold bind at 1. unfold body at 1, bind, db_query, product_missing, product_by_id.
    destruct (first _); cbn.
    + exact IH.
    + reflexivity.
Qed.

(** C3.  [create_stock_in] looks up the product of every item before it
    adds anything.  When some item names a product that is not there, the
    call is a 404 whose detail carries the id of the first such item, and
    the store is left exactly as it was: no stock-in row, no item row, and
    no key taken. *)
Theorem stock_in_missing_product_is_404
    (now : Z) (stock_in : StockInCreate.t) (d : Database)
    (item : StockInItemCreate.t) :
  find (fun it => product_missing (tables d) (StockInItemCreate.product_id it))
    (StockInCreate.items stock_in) = Some item ->
  request (create_stock_in now stock_in) d =
  (Raise (HTTPException 404
            ("ไม่พบสินค้า ID: " ++ str (StockInItemCreate.product_id item))),
   d).
Proof.
  intros Hfind. unfold create_stock_in, request.
  unfold bind at 1. rewrite stock_in_validation_run.
  unfold SessionLocal at 1. cbn [txn]. rewrite Hfind.
  unfold SessionLocal, close; cbn. now destruct d.
Qed.

Lemma create_stock_in_ok (now : Z) (stock_in : StockInCreate.t) (d : Database) :
  find (fun it => product_missing (tables d) (StockInItemCreate.product_id it))
    (StockInCreate.items stock_in) = None ->
  exists r,
    request (create_stock_in now stock_in) d =
    (Ok r,
     stock_in_committed d
       (StockInDB.mk 0 (StockInCreate.ref_no stock_in)
          (match StockInCreate.stock_in_date stock_in with
           | Some t => t
           | None => now
           end)
          0%Q (StockInCreate.notes stock_in))
       (map (fun item =>
               StockInItemDB.mk 0 (Counters.stock_in (counters d))
                 (StockInItemCreate.product_id item)
                 (StockInItemCreate.quantity item)
                 (StockInItemCreate.unit_cost item))
          (StockInCreate.items stock_in))).
Proof.
  intros Hfind. unfold create_stock_in, request.
  unfold bind at 1. rewrite stock_in_validation_run.
  unfold SessionLocal at 1. cbn [txn]. rewrite Hfind.
  destruct d as [[cat prd sal sit stk sti mov vps vpr] [c1 c2 c3 c4 c5]].
  unfold SessionLocal. cbn [tables counters Counters.stock_in].
  unfold bind at 1, db_add at 1.
  cbn [committed txn auto_increment pending app].
  unfold bind at 1, db_flush at 1.
  cbn [committed txn auto_increment pending write_all write key_at nth].
  unfold bind at 1.
  match goal with
  | |- context [for_each ?l ?b ?s] =>
      pose proof (for_each_run l b (fun _ _ => false)
                    (fun _ => InvalidRequestError)
                    (fun _ item =>
                       [NewStockInItem
                          (StockInItemDB.mk 0 c4
                             (StockInItemCreate.product_id item)
                             (StockInItemCreate.quantity item)
                             (StockInItemCreate.unit_cost item))])
                    (fun it s0 => eq_refl) s) as Hloop
  end.
  replace (find _ (StockInCreate.items stock_in)) with (@None StockInItemCreate.t)
    in Hloop by (clear; induction (StockInCreate.items stock_in); auto).
  rewrite Hloop. clear Hloop.
  unfold push. cbn [committed txn auto_increment pending app].
  match goal with
  | |- context [flat_map ?f ?l] =>
      replace (flat_map f l) with
        (map NewStockInItem
           (map (fun item =>
                   StockInItemDB.mk 0 c4 (StockInItemCreate.product_id item)
                     (StockInItemCreate.quantity item)
                     (StockInItemCreate.unit_cost item)) l))
        by (clear; induction l as [|x r IH]; cbn; [|rewrite IH]; reflexivity)
  end.
  set (rows := map (fun item => StockInItemDB.mk _ _ _ _ _) _).
  unfold bind at 1, db_commit at 1. cbn [committed txn auto_increment pending].
  match goal with
  | |- context [write_all (map NewStockInItem rows) ?tb ?c] =>
      match tb with
      | Tables.mk ?a1 ?a2 ?a3 ?a4 ?a5 ?a6 ?a7 ?a8 ?a9 =>
          destruct (write_all_stock_in_items rows a1 a2 a3 a4 a5 a6 a7 a8 a9
                      c1 c2 c3 (c4 + 1)%Z c5) as [ks ->]
      end
  end.
  unfold bind at 1, db_refresh at 1. cbn [txn Tables.stock_in].
  match goal with
  | |- context [find ?p (stk ++ [?x])%list] =>
      destruct (find_app_last p stk x) as [y ->];
        [cbn; apply Z.eqb_refl|]
  end.
  unfold bind, db_query, ret, close, stock_in_committed.
  cbn [txn committed auto_increment tables counters Tables.stock_in_item].
  eexists. reflexivity.
Qed.

(** ** Patching the type of a movement *)

Lemma str_in_In (x : string) (l : list string) : str_in x l = true <-> In x l.
Proof.
  unfold str_in. rewrite existsb_exists. split.
  - intros (y & Hy & E). apply String.eqb_eq in E. now subst.
  - intros H. exists x. split; [exact H | apply String.eqb_refl].
Qed.

Lemma find_retyped (k : Z) (ty : string) (l : list InventoryMovementDB.t) :
  find (fun r => (InventoryMovementDB.movement_id r =? k)%Z)
    (map (fun m => if (InventoryMovementDB.movement_id m =? k)%Z
                   then InventoryMovementDB.with_movement_type ty m else m) l)
  = option_map (InventoryMovementDB.with_movement_type ty)
      (find (fun r => (InventoryMovementDB.movement_id r =? k)%Z) l).
Proof.
  induction l as [|a l IH]; cbn; [reflexivity|].
  destruct (InventoryMovementDB.movement_id a =? k)%Z eqn:E; cbn; rewrite E.
  - reflexivity.
  - exact IH.
Qed.

Lemma map_retyped (k : Z) (ty : string) (l : list InventoryMovementDB.t) :
  movements_retyped k ty l
    (map (fun m => if (InventoryMovementDB.movement_id m =? k)%Z
                   then InventoryMovementDB.with_movement_type ty m else m) l).
Proof.
  unfold movements_retyped. induction l as [|a l IH]; cbn; constructor; [|exact IH].
  destruct (InventoryMovementDB.movement_id a =? k)%Z; [|reflexivity].
  unfold same_but_type; cbn. repeat split.
Qed.

(** The three ways through [update_inventory_movement_type] once the
    movement is found. *)
Lemma update_movement_type_run (iter : list string)
    (upper : string -> string) (movement_id : Z)
    (movement_update : InventoryMovementUpdate.t) (d : Database)
    (m : InventoryMovementDB.t) :
  movement_by_id (tables d) movement_id = Some m ->
  match truthy_str (InventoryMovementUpdate.movement_type movement_update) with
  | None =>
      request (update_inventory_movement_type iter upper movement_id
                 movement_update) d
      = (Ok m, d)
  | Some mt =>
      if str_in (upper mt) allowed_types then
        exists d',
          request (update_inventory_movement_type iter upper movement_id
                     movement_update) d
          = (Ok (InventoryMovementDB.with_movement_type (upper mt) m), d')
          /\ same_but_movements d d'
          /\ movements_retyped movement_id (upper mt)
               (Tables.inventory_movement (tables d))
               (Tables.inventory_movement (tables d'))
      else
        request (update_inventory_movement_type iter upper movement_id
                   movement_update) d
        = (Raise (bad_movement_type iter), d)
  end.
Proof.
  intros Hm. unfold movement_by_id in Hm.
  destruct d as [[cat prd sal sit stk sti mov vps vpr] [c1 c2 c3 c4 c5]].
  cbn [tables Tables.inventory_movement] in Hm.
  destruct (truthy_str _) as [mt|] eqn:Hmt;
    [destruct (str_in (upper mt) allowed_types) eqn:Hin; [eexists|]|];
    unfold update_inventory_movement_type, request, SessionLocal;
    unfold bind at 1, db_query at 1;
    cbn [tables counters txn Tables.inventory_movement]; rewrite Hm, Hmt;
    rewrite <- find_is_first in Hm.
  - rewrite Hin. cbn [negb].
    unfold bind, db_setattr, db_add, db_commit, db_refresh.
    cbn [committed txn auto_increment pending app write_all write
         Tables.inventory_movement].
    rewrite find_retyped, Hm. cbn [option_map close committed auto_increment].
    split; [reflexivity|].
    split; [unfold same_but_movements; cbn; repeat split|].
    cbn [tables Tables.inventory_movement]. apply map_retyped.
  - rewrite Hin. reflexivity.
  - unfold bind, ret, db_commit, db_refresh.
    cbn [committed txn auto_increment pending write_all
         Tables.inventory_movement].
    rewrite Hm. reflexivity.
Qed.

(** The empty string is a value a body can supply, its upper-case form is
    none of the three types, and the patch does not refuse it: the
    movement comes back as it is. *)
Lemma movement_type_patch_of_empty_string_is_not_refused :
  ~ In (ascii_upper "") ["OPENING"; "STOCK_IN"; "SALE"]
  /\ request (with_body InventoryMovementUpdate.validate
                (update_inventory_movement_type sample_iter ascii_upper 1)
                (InventoryMovementUpdate.Str "")) shop
     = (Ok (InventoryMovementDB.mk 1 1 "OPENING" 20 (Some 1%Q) None None None 500),
        shop).
Proof.
  split; [|reflexivity].
  cbn. intros [H|[H|[H|[]]]]; discriminate H.
Qed.

(** C7.  Patching an existing movement with a [movement_type] [mt] that
    the body supplies and that is not the empty string, whatever
    [str.upper] does to its characters.  When [mt.upper()] is none of
    OPENING, STOCK_IN, SALE the call is a 400 whose detail lists the
    allowed values (joined in the order the set is iterated) and the
    store is unchanged.  When it is one of them the call succeeds: it
    returns the movement with [mt.upper()] as its type and every other
    column as before, and in the store only the movement table differs,
    the rows with this key retyped in the same way and every other row
    untouched. *)
Theorem movement_type_patch_validated
    (iter : list string) (upper : string -> string) (movement_id : Z)
    (mt : string) (d : Database) (m : InventoryMovementDB.t) :
  Permutation ["OPENING"; "STOCK_IN"; "SALE"] iter ->
  movement_by_id (tables d) movement_id = Some m ->
  mt <> "" ->
  let call :=
    request (with_body InventoryMovementUpdate.validate
               (update_inventory_movement_type iter upper movement_id)
               (InventoryMovementUpdate.Str mt)) d in
  (~ In (upper mt) ["OPENING"; "STOCK_IN"; "SALE"] ->
   call = (Raise (HTTPException 400
                    ("ประเภท movement_type ไม่ถูกต้อง ค่าที่อนุญาตคือ: "
                     ++ join ", " iter)), d)
   /\ (forall v, In v iter <-> In v ["OPENING"; "STOCK_IN"; "SALE"]))
  /\ (In (upper mt) ["OPENING"; "STOCK_IN"; "SALE"] ->
      exists m' d',
        call = (Ok m', d')
        /\ InventoryMovementDB.movement_type m' = upper mt
        /\ same_but_type m m'
        /\ same_but_movements d d'
        /\ movements_retyped movement_id (upper mt)
             (Tables.inventory_movement (tables d))
             (Tables.inventory_movement (tables d'))).
Proof.
  intros Hperm Hm Hmt call.
  pose proof (update_movement_type_run iter upper movement_id
                (InventoryMovementUpdate.mk (Some mt)) d m Hm) as Hrun.
  cbn [InventoryMovementUpdate.movement_type truthy_str] in Hrun.
  destruct (String.eqb_spec mt "") as [E|_]; [contradiction|].
  change (request (update_inventory_movement_type iter upper movement_id
                     (InventoryMovementUpdate.mk (Some mt))) d)
    with call in Hrun.
  split.
  - intros Hnot.
    destruct (str_in (upper mt) allowed_types) eqn:Hin.
    + apply str_in_In in Hin. contradiction.
    + split; [exact Hrun|].
      intros v. split; intros Hv.
      * eapply Permutation_in; [apply Permutation_sym; exact Hperm | exact Hv].
      * eapply Permutation_in; [exact Hperm | exact Hv].
  - intros Hyes. apply str_in_In in Hyes. unfold allowed_types in Hrun.
    rewrite Hyes in Hrun. destruct Hrun as (d' & Hcall & Hsame & Hrows).
    exists (InventoryMovementDB.with_movement_type (upper mt) m), d'.
    repeat split; try assumption; apply Hsame.
Qed.

(** A body that supplies a null for [movement_type] does not reach the
    handler: the field is declared [str], the null does not validate and
    the request is answered 422, though the movement is there. *)
Lemma movement_type_patch_of_null_is_422 :
  movement_by_id (tables shop) 1
  = Some (InventoryMovementDB.mk 1 1 "OPENING" 20 (Some 1%Q) None None None 500)
  /\ request (with_body InventoryMovementUpdate.validate
                (update_inventory_movement_type sample_iter ascii_upper 1)
                InventoryMovementUpdate.Null) shop
     = (Raise RequestValidationError, shop).
Proof. split; reflexivity. Qed.

(** C10.  Patching an existing movement with a body that leaves
    [movement_type] out, or supplies the empty string for it, validates
    nothing and changes nothing: the call returns the movement as it is
    and the store is the same.  A body that supplies a null is another
    matter: it is refused with a 422 before the handler runs, and the
    store is the same. *)
Theorem movement_type_patch_without_type_is_noop
    (iter : list string) (upper : string -> string) (movement_id : Z)
    (d : Database) (m : InventoryMovementDB.t) :
  movement_by_id (tables d) movement_id = Some m ->
  let patch body :=
    request (with_body InventoryMovementUpdate.validate
               (update_inventory_movement_type iter upper movement_id) body) d in
  patch InventoryMovementUpdate.Absent = (Ok m, d)
  /\ patch (InventoryMovementUpdate.Str "") = (Ok m, d)
  /\ patch InventoryMovementUpdate.Null = (Raise RequestValidationError, d).
Proof.
  intros Hm patch. split; [|split].
  - exact (update_movement_type_run iter upper movement_id
             (InventoryMovementUpdate.mk None) d m Hm).
  - exact (update_movement_type_run iter upper movement_id
             (InventoryMovementUpdate.mk (Some "")) d m Hm).
  - unfold patch, with_body, request, raise, SessionLocal, close; cbn.
    now destruct d.
Qed.

(** ** The profitability summary *)

Lemma date_range_raise strptime_date {A} (column : A -> Z)
    (start_date end_date : option string) (q : list A) (e : exn) :
  date_range strptime_date column start_date end_date q = Raise e ->
  e = bad_date.
Proof.
  unfold date_range.
  destruct (truthy_str start_date) as [s|];
    [destruct (strptime_date s)|];
    (destruct (truthy_str end_date) as [s'|];
     [destruct (strptime_date s')|]);
    congruence.
Qed.

Lemma truediv_guarded (a b : Q) :
  Qgtb b 0 = true -> truediv a b = Ok (a / b)%Q.
Proof.
  unfold Qgtb, truediv. intros H. apply negb_true_iff in H.
  destruct (Qeq_bool b 0) eqn:E; [|reflexivity].
  apply Qeq_bool_iff in E.
  assert (Hle : Qle_bool b 0 = true)
    by (apply Qle_bool_iff; rewrite E; apply Qle_refl).
  congruence.
Qed.

Lemma top_products_raise (l : list (Z * string * Q)) (e : exn) :
  map_result (fun product => MostProfitableProduct.build
                               (snd (fst product)) (snd product)) l = Raise e ->
  e = ValidationError.
Proof.
  induction l as [|x r IH]; cbn; [discriminate|].
  unfold MostProfitableProduct.build at 1.
  destruct (Qle_bool 0 (snd x)); [|congruence].
  destruct (map_result _ r); [discriminate|].
  intros H. injection H as <-. now apply IH.
Qed.

Lemma summary_build_raise (n : Z) (a b c m : Q)
    (top : option (list MostProfitableProduct.t)) (e : exn) :
  ProfitabilitySummary.build n a b c m top = Raise e -> e = ValidationError.
Proof.
  unfold ProfitabilitySummary.build. destruct (_ && _); congruence.
Qed.

(** C8.  The profitability summary of a date range in which the view has
    no row is [total_sales = 0] with revenue, cost of goods, gross profit
    and margin all zero, and the store is not written; and whatever the
    dates and the rows of the view, the call never ends in a division by
    zero. *)
Theorem profitability_summary_of_nothing_and_no_zero_division
    (strptime_date : string -> option Z)
    (start_date end_date : option string) (d : Database) :
  (date_range strptime_date ProfitabilityReportView.sale_datetime
     start_date end_date (Tables.v_profitability_report (tables d)) = Ok [] ->
   request (get_profitability_summary strptime_date start_date end_date) d =
   (Ok (ProfitabilitySummary.mk 0 0%Q 0%Q 0%Q 0%Q None), d))
  /\ fst (request (get_profitability_summary strptime_date start_date end_date) d)
     <> Raise ZeroDivisionError.
Proof.
  split;
    unfold get_profitability_summary, request, SessionLocal;
    unfold bind at 1, db_query at 1; cbn [txn];
    unfold bind at 1, lift at 1.
  - intros ->. cbn. now destruct d.
  - destruct (date_range _ _ _ _ _) as [q|e] eqn:Hq.
    + destruct (count q =? 0)%Z; [cbn; discriminate|].
      set (revenue := float_or_0 (sql_sum (map ProfitabilityReportView.total_revenue q))).
      set (profit := float_or_0 (sql_sum (map ProfitabilityReportView.gross_profit q))).
      destruct (Qgtb revenue 0) eqn:Hrev.
      * unfold bind at 1. unfold bind at 1, lift at 1.
        rewrite (truediv_guarded profit revenue Hrev). unfold ret at 1.
        unfold bind, lift.
        destruct (map_result _ _) as [top|e] eqn:Htop; cbn [fst].
        -- destruct (ProfitabilitySummary.build _ _ _ _ _ _) eqn:Hb; cbn [fst];
             [discriminate|].
           apply summary_build_raise in Hb. subst. discriminate.
        -- apply top_products_raise in Htop. subst. discriminate.
      * unfold bind, lift, ret.
        destruct (map_result _ _) as [top|e] eqn:Htop; cbn [fst].
        -- destruct (ProfitabilitySummary.build _ _ _ _ _ _) eqn:Hb; cbn [fst];
             [discriminate|].
           apply summary_build_raise in Hb. subst. discriminate.
        -- apply top_products_raise in Htop. subst. discriminate.
    + cbn [fst]. apply date_range_raise in Hq. subst. discriminate.
Qed.

(** ** What the creation handlers let through *)

(** Whenever [create_sale] raises, the tables are as they were: the sale
    row flushed before the loop is rolled back with the session (its key
    is spent). *)
Lemma create_sale_raise_keeps_tables (now : Z) (sale : SaleCreate.t)
    (d d' : Database) (e : exn) :
  request (create_sale now sale) d = (Raise e, d') -> tables d' = tables d.
Proof.
  intros H.
  destruct (canonical_payment_method (SaleCreate.payment_method sale))
    as [pm|] eqn:Hc.
  2:{ rewrite (create_sale_bad_payment now sale d Hc) in H. now injection H as _ <-. }
  destruct (find (fun it => product_missing (tables d)
                              (SaleItemCreate.product_id it))
              (SaleCreate.items sale)) as [it|] eqn:Hfind.
  - rewrite (create_sale_missing_product now sale d pm it Hc Hfind) in H.
    injection H as _ <-. apply sale_key_spent_tables.
  - destruct (create_sale_ok now sale d pm Hc Hfind) as [r' Hr].
    rewrite Hr in H. discriminate H.
Qed.

(** [add_sale_item] refuses a product the sale already has. *)
Example add_sale_item_refuses_duplicate :
  request (add_sale_item 1 (SaleItemCreate.mk 1 3 None 0)) shop =
  (Raise (HTTPException 400 "สินค้า ID 1 มีอยู่แล้วในรายการขายนี้"), shop).
Proof. reflexivity. Qed.

(** C1.  [create_sale] on a request that names product 1 twice: the call
    succeeds, and the sale and both of its items are in the store
    afterwards.  [create_sale] makes no test for a repeated product. *)
Theorem create_sale_stores_duplicate_product :
  exists r d',
    request (create_sale 2000 sale_with_duplicate) shop = (Ok r, d')
    /\ Tables.sale (tables d') =
       [SaleDB.mk 1 1000 5 "Cash" None; SaleDB.mk 2 2000 0 "Cash" None]
    /\ Tables.sale_item (tables d') =
       [SaleItemDB.mk 1 1 1 2 (5 # 2) 0;
        SaleItemDB.mk 2 2 1 1 (5 # 2) 0;
        SaleItemDB.mk 3 2 1 3 (5 # 2) 0].
Proof.
  eexists. eexists. split; [vm_compute; reflexivity|].
  split; reflexivity.
Qed.

(** [ProductUpdate] does carry the bound: a price that is not above zero
    does not validate. *)
Lemma product_update_rejects_nonpositive_price (u : ProductUpdate.t) (p : Q) :
  ProductUpdate.price u = Some p -> (p <= 0)%Q ->
  ProductUpdate.validate u = Raise ValidationError.
Proof.
  intros Hp Hle. unfold ProductUpdate.validate. rewrite Hp.
  unfold Qgtb. apply Qle_bool_iff in Hle. rewrite Hle. cbn.
  now rewrite !andb_false_r.
Qed.

(** [create_product] stores whatever price it is given, as the column
    keeps it, and 10 as the reorder level of a request that has none. *)
Lemma create_product_stores_any_price (name : string) (price : Q) (d : Database) :
  exists r d',
    request (create_product (ProductCreate.build name None None price None)) d
    = (Ok r, d')
    /\ Tables.product (tables d') =
       (Tables.product (tables d)
        ++ [ProductDB.mk (Counters.product (counters d)) name None None
              (decimal_2 price) 10])%list.
Proof.
  destruct d as [[cat prd sal sit stk sti mov vps vpr] [c1 c2 c3 c4 c5]].
  unfold create_product, request, SessionLocal, ProductCreate.build.
  cbn [ProductCreate.category_id ProductCreate.sku truthy_str
       ProductCreate.name ProductCreate.price ProductCreate.reorder_level].
  unfold bind, ret, db_add, db_commit, db_refresh.
  cbn [committed txn auto_increment pending app write_all write key_at nth
       Tables.product tables counters Counters.product].
  match goal with
  | |- context [find ?p (prd ++ [?x])%list] =>
      destruct (find_app_last p prd x) as [y ->];
        [cbn; apply Z.eqb_refl|]
  end.
  eexists. eexists. split; reflexivity.
Qed.

(** C5.  [create_product] on a request whose price is -5 and that names no
    reorder level: the call succeeds and the product is stored with price
    -5 (and reorder level 10).  Neither [ProductCreate] nor the handler
    bounds the price. *)
Theorem create_product_stores_negative_price :
  request (create_product product_with_negative_price) shop =
  (Ok (ProductDB.mk 3 "Voucher" None None (-5 # 1) 10),
   mkDatabase
     (Tables.mk
        (Tables.category (tables shop))
        (Tables.product (tables shop)
         ++ [ProductDB.mk 3 "Voucher" None None (-5 # 1) 10])
        (Tables.sale (tables shop)) (Tables.sale_item (tables shop))
        (Tables.stock_in (tables shop)) (Tables.stock_in_item (tables shop))
        (Tables.inventory_movement (tables shop))
        (Tables.v_product_stock (tables shop))
        (Tables.v_profitability_report (tables shop)))
     (Counters.mk 4 2 2 1 1)).
Proof. reflexivity. Qed.

(** ** The theorems at work on the shop *)

Lemma paginated_envelope_ok_witness :
  envelope_ok 2 1
    (PaginatedResponse.mk [ProductDB.mk 2 "Mug" None None 4 3] 2 2 1 2 false true).
Proof.
  apply (paginated_envelope_ok sample_ilike sample_strptime sample_iter ascii_upper _
           (ListProducts (ProductSearchParams.mk 2 1 None None None None))
           shop shop).
  - unfold PaginationParams_ok; cbn; lia.
  - reflexivity.
Defined.

Lemma stock_in_missing_product_is_404_witness :
  request (create_stock_in 3000
             (StockInCreate.mk None (Some "PO-7") None
                [StockInItemCreate.mk 1 5 1; StockInItemCreate.mk 9 1 2;
                 StockInItemCreate.mk 8 1 2])) shop =
  (Raise (HTTPException 404 "ไม่พบสินค้า ID: 9"), shop).
Proof.
  apply (stock_in_missing_product_is_404 3000 _ shop (StockInItemCreate.mk 9 1 2)).
  reflexivity.
Defined.

Lemma payment_method_canonical_or_400_witness :
  (exists it d',
      In it (SaleCreate.items sale_with_duplicate)
      /\ product_by_id (tables shop) (SaleItemCreate.product_id it) = None
      /\ request (create_sale 2000 sale_with_duplicate) shop =
         (Raise (HTTPException 404
                   ("Product with ID " ++ str (SaleItemCreate.product_id it)
                    ++ " not found.")), d')
      /\ tables d' = tables shop)
  \/ (exists r d' row,
         request (create_sale 2000 sale_with_duplicate) shop = (Ok r, d')
         /\ Tables.sale (tables d') = (Tables.sale (tables shop) ++ [row])%list
         /\ SaleDB.payment_method row = "Cash").
Proof.
  apply (proj1 (payment_method_canonical_or_400 2000 sale_with_duplicate shop) "Cash").
  left. split; reflexivity.
Defined.

Lemma not_found_only_on_empty_first_page_witness :
  exists r,
    fst (request (get_all_categories sample_ilike
                    (CategorySearchParams.mk 2 10 (Some "tea"))) shop) = Ok r
    /\ PaginatedResponse.items r = [].
Proof.
  apply (proj2 (proj1 (not_found_only_on_empty_first_page sample_ilike shop)
                  (CategorySearchParams.mk 2 10 (Some "tea")))).
  - cbn; lia.
  - reflexivity.
Defined.

Lemma movement_type_patch_validated_witness :
  exists m' d',
    request (with_body InventoryMovementUpdate.validate
               (update_inventory_movement_type sample_iter ascii_upper 2)
               (InventoryMovementUpdate.Str "opening")) shop = (Ok m', d')
    /\ InventoryMovementDB.movement_type m' = "OPENING"
    /\ same_but_type
         (InventoryMovementDB.mk 2 1 "SALE" 2 None (Some (5 # 2)) (Some 1) None 1000)
         m'
    /\ same_but_movements shop d'
    /\ movements_retyped 2 "OPENING"
         (Tables.inventory_movement (tables shop))
         (Tables.inventory_movement (tables d')).
Proof.
  apply (proj2 (movement_type_patch_validated sample_iter ascii_upper 2 "opening" shop
                  (InventoryMovementDB.mk 2 1 "SALE" 2 None (Some (5 # 2))
                     (Some 1) None 1000)
                  (Permutation_sym
                     (Permutation_cons_append ["OPENING"; "STOCK_IN"] "SALE"))
                  eq_refl ltac:(discriminate))).
  cbn. auto.
Defined.

Lemma movement_type_patch_without_type_is_noop_witness :
  let m := InventoryMovementDB.mk 1 1 "OPENING" 20 (Some 1%Q) None None None 500 in
  let patch body :=
    request (with_body InventoryMovementUpdate.validate
               (update_inventory_movement_type sample_iter ascii_upper 1) body)
      shop in
  patch InventoryMovementUpdate.Absent = (Ok m, shop)
  /\ patch (InventoryMovementUpdate.Str "") = (Ok m, shop)
  /\ patch InventoryMovementUpdate.Null = (Raise RequestValidationError, shop).
Proof.
  intros m.
  apply (movement_type_patch_without_type_is_noop sample_iter ascii_upper 1 shop m).
  reflexivity.
Defined.

Lemma profitability_summary_of_nothing_witness :
  request (get_profitability_summary sample_strptime None None) shop =
  (Ok (ProfitabilitySummary.mk 0 0%Q 0%Q 0%Q 0%Q None), shop).
Proof.
  apply (proj1 (profitability_summary_of_nothing_and_no_zero_division
                  sample_strptime None None shop)).
  reflexivity.
Defined.

Lemma unit_price_supplied_or_product_price_witness :
  exists row,
    Tables.sale_item
      (tables (snd (request (add_sale_item 1 (SaleItemCreate.mk 2 1 None 0)) shop)))
    = (Tables.sale_item (tables shop) ++ [row])%list
    /\ SaleItemDB.sale_id row = 1%Z
    /\ item_stored_as (tables shop) (SaleItemCreate.mk 2 1 None 0) row.
Proof.
  apply (proj2 unit_price_supplied_or_product_price 1
           (SaleItemCreate.mk 2 1 None 0) shop _
           (SaleItemDB.mk 2 1 2 1 4 0)).
  reflexivity.
Defined.

(** * Further properties of the handlers *)

(** ** Pages *)

Lemma insert_by_perm {A} (leb : A -> A -> bool) (x : A) (l : list A) :
  Permutation (insert_by leb x l) (x :: l).
Proof.
  induction l as [|y r IH]; cbn; [apply Permutation_refl|].
  destruct (leb x y); [apply Permutation_refl|].
  eapply perm_trans; [apply perm_skip; exact IH | apply perm_swap].
Qed.

Lemma order_by_perm {A} (leb : A -> A -> bool) (q : list A) :
  Permutation (order_by leb q) q.
Proof.
  unfold order_by. induction q as [|x r IH]; cbn; [constructor|].
  eapply perm_trans; [apply insert_by_perm | now apply perm_skip].
Qed.

Lemma order_by_length {A} (leb : A -> A -> bool) (q : list A) :
  List.length (order_by leb q) = List.length q.
Proof. apply Permutation_length, order_by_perm. Qed.

Lemma offset_limit_exact_length {A} (o n : Z) (q : list A) :
  (0 <= o)%Z -> (0 <= n)%Z ->
  Z.of_nat (List.length (offset_limit o n q))
  = Z.max 0 (Z.min n (Z.of_nat (List.length q) - o)).
Proof.
  intros Ho Hn. unfold offset_limit. rewrite length_firstn, length_skipn. lia.
Qed.

Lemma envelope_page_facts {T} (leb : T -> T -> bool) (q : list T) (page limit : Z) :
  PaginationParams_ok page limit ->
  let r := envelope (offset_limit ((page - 1) * limit) limit (order_by leb q))
             (count q) page limit in
  Z.of_nat (List.length (PaginatedResponse.items r))
  = Z.max 0 (Z.min limit (PaginatedResponse.total r - (page - 1) * limit))
  /\ (PaginatedResponse.has_next r = true
      <-> (page * limit < PaginatedResponse.total r)%Z).
Proof.
  intros [Hp [Hl Hu]]. unfold envelope; cbn. split.
  - rewrite offset_limit_exact_length by nia.
    rewrite order_by_length. reflexivity.
  - rewrite Z.ltb_lt. unfold count.
    set (t := Z.of_nat (List.length q)).
    assert (Hm := Z.div_mod (t + limit - 1) limit ltac:(lia)).
    assert (Hr := Z.mod_pos_bound (t + limit - 1) limit ltac:(lia)).
    split; intros H; nia.
Qed.

(** X1.  How many items a page holds, and when another page follows.  For
    every list endpoint called with [page >= 1] and [1 <= limit <= 100]
    that returns an envelope: the number of items is
    [min(limit, total - (page-1)*limit)], or zero when that is negative;
    and [has_next] is true exactly when rows remain after this page, that
    is when [page * limit < total]. *)
Theorem page_size_and_has_next
    (ilike : string -> string -> bool) (strptime_date : string -> option Z)
    (allowed_types_iter : list string) (upper : string -> string)
    (T : Type) (c : ListCall T) (d d' : Database) (r : PaginatedResponse.t T) :
  PaginationParams_ok (call_page c) (call_limit c) ->
  request (list_handler ilike strptime_date allowed_types_iter upper c) d
  = (Ok r, d') ->
  Z.of_nat (List.length (PaginatedResponse.items r))
  = Z.max 0 (Z.min (call_limit c)
               (PaginatedResponse.total r - (call_page c - 1) * call_limit c))
  /\ (PaginatedResponse.has_next r = true
      <-> (call_page c * call_limit c < PaginatedResponse.total r)%Z).
Proof.
  intros Hok.
  destruct c; cbn [list_handler call_page call_limit] in *;
    [ unfold get_all_categories | unfold get_all_products
    | unfold get_all_sales | unfold get_all_stock_in
    | unfold get_all_inventory_movements | unfold get_product_stock_report
    | unfold get_profitability_report ];
    branches; intros H; try discriminate H;
    inversion H; subst; now apply envelope_page_facts.
Qed.

Lemma page_size_and_has_next_witness :
  Z.of_nat (List.length [ProductDB.mk 1 "Green tea" (Some 1%Z) (Some "GT-1") (5 # 2) 10])
  = Z.max 0 (Z.min 1 (2 - (1 - 1) * 1))
  /\ (true = true <-> (1 * 1 < 2)%Z).
Proof.
  apply (page_size_and_has_next sample_ilike sample_strptime sample_iter ascii_upper _
           (ListProducts (ProductSearchParams.mk 1 1 None None None None))
           shop shop
           (PaginatedResponse.mk
              [ProductDB.mk 1 "Green tea" (Some 1%Z) (Some "GT-1") (5 # 2) 10]
              2 1 1 2 true false)).
  - unfold PaginationParams_ok; cbn; lia.
  - reflexivity.
Defined.

Lemma firstn_plus {A} (a b : nat) (l : list A) :
  firstn (a + b) l = (firstn a l ++ firstn b (skipn a l))%list.
Proof.
  revert l. induction a as [|a IH]; intros l; cbn; [reflexivity|].
  destruct l as [|x l]; cbn.
  - now rewrite firstn_nil.
  - now rewrite IH.
Qed.

Lemma pages_concat {A} (limit : Z) (q : list A) (n : nat) :
  (1 <= limit)%Z ->
  List.concat (map (fun k => offset_limit ((k - 1) * limit) limit q) (pages_upto n))
  = firstn (n * Z.to_nat limit) q.
Proof.
  intros Hl. unfold pages_upto. induction n as [|n IH]; [reflexivity|].
  rewrite seq_S, !map_app, concat_app, IH. cbn [map List.concat].
  rewrite app_nil_r. unfold offset_limit.
  replace (Z.to_nat ((Z.of_nat (1 + n) - 1) * limit)) with (n * Z.to_nat limit)%nat
    by nia.
  replace (S n * Z.to_nat limit)%nat with (n * Z.to_nat limit + Z.to_nat limit)%nat
    by lia.
  now rewrite firstn_plus.
Qed.

Lemma product_items_are_the_page ilike (p : ProductSearchParams.t) (d : Database) :
  items_of (fst (request (get_all_products ilike p) d))
  = product_page ilike p (tables d).
Proof.
  rewrite get_all_products_run. cbn [fst].
  destruct (is_empty (product_page ilike p (tables d))) eqn:E; cbn [andb].
  - apply is_empty_true in E. rewrite E.
    now destruct (ProductSearchParams.page p =? 1)%Z.
  - reflexivity.
Qed.

(** X2.  The pages of a product search tile its result.  Asking for pages
    1, 2, ..., n of the same search, with [n * limit] at least the number
    of matching products, and putting the items of the answers end to end
    (an answer that is the 404 counting for no items) gives every matching
    product exactly once, in ascending [product_id] order as the handler
    sorts them. *)
Theorem product_pages_tile
    (ilike : string -> string -> bool) (p : ProductSearchParams.t)
    (d : Database) (n : nat) :
  (1 <= ProductSearchParams.limit p)%Z ->
  (count (product_filter ilike p (Tables.product (tables d)))
   <= Z.of_nat n * ProductSearchParams.limit p)%Z ->
  List.concat (map (fun k => items_of (fst (request (get_all_products ilike
                                                  (product_search_at p k)) d)))
            (pages_upto n))
  = order_by (asc ProductDB.product_id)
      (product_filter ilike p (Tables.product (tables d))).
Proof.
  intros Hl Hn.
  erewrite map_ext; [|intros k; apply product_items_are_the_page].
  unfold product_page, product_search_at.
  cbn [ProductSearchParams.page ProductSearchParams.limit].
  change (product_filter ilike (ProductSearchParams.mk _ _ _ _ _ _))
    with (product_filter ilike p).
  rewrite (pages_concat (ProductSearchParams.limit p)
             (order_by (asc ProductDB.product_id)
                (product_filter ilike p (Tables.product (tables d)))) n Hl).
  apply firstn_all2. rewrite order_by_length. unfold count in Hn. nia.
Qed.

Lemma product_pages_tile_witness :
  List.concat (map (fun k => items_of (fst (request
                 (get_all_products sample_ilike
                    (product_search_at
                       (ProductSearchParams.mk 1 1 None None None None) k))
                 shop)))
            (pages_upto 3))
  = order_by (asc ProductDB.product_id)
      (product_filter sample_ilike
         (ProductSearchParams.mk 1 1 None None None None)
         (Tables.product (tables shop))).
Proof.
  apply (product_pages_tile sample_ilike
           (ProductSearchParams.mk 1 1 None None None None) shop 3).
  - cbn; lia.
  - cbn; lia.
Defined.

(** ** Searches *)

Lemma filter_filter {A} (f g : A -> bool) (l : list A) :
  filter g (filter f l) = filter (fun x => f x && g x) l.
Proof.
  induction l as [|x l IH]; cbn; [reflexivity|].
  destruct (f x); cbn; [destruct (g x)|]; now rewrite IH.
Qed.

Lemma filter_when {A V} (o : option V) (f : V -> A -> bool) (l : list A) :
  match o with Some v => filter (f v) l | None => l end
  = filter (fun x => match o with Some v => f v x | None => true end) l.
Proof.
  destruct o; [reflexivity|].
  induction l as [|x l IH]; cbn; [reflexivity | now rewrite <- IH].
Qed.

Lemma offset_limit_In {A} (o n : Z) (q : list A) (x : A) :
  In x (offset_limit o n q) -> In x q.
Proof.
  unfold offset_limit. intros H.
  rewrite <- (firstn_skipn (Z.to_nat o) q). apply in_or_app. right.
  rewrite <- (firstn_skipn (Z.to_nat n) (skipn (Z.to_nat o) q)).
  apply in_or_app. now left.
Qed.

Lemma page_In {A} (leb : A -> A -> bool) (o n : Z) (q : list A) (x : A) :
  In x (offset_limit o n (order_by leb q)) -> In x q.
Proof.
  intros H. apply offset_limit_In in H.
  eapply Permutation_in; [apply order_by_perm | exact H].
Qed.

Lemma product_filter_is_matches ilike (p : ProductSearchParams.t)
    (q : list ProductDB.t) :
  product_filter ilike p q = filter (product_matches ilike p) q.
Proof.
  unfold product_filter, product_matches.
  rewrite (filter_when (truthy_str (ProductSearchParams.search p))
             (fun s x => ilike (ProductDB.name x) ("%" ++ s ++ "%")
                         || ilike_opt ilike (ProductDB.sku x) ("%" ++ s ++ "%"))).
  rewrite (filter_when (truthy_int (ProductSearchParams.category_id p))
             (fun c x => sql_eq_int (ProductDB.category_id x) c)).
  rewrite (filter_when (ProductSearchParams.min_price p)
             (fun m x => Qle_bool m (ProductDB.price x))).
  rewrite (filter_when (ProductSearchParams.max_price p)
             (fun m x => Qle_bool (ProductDB.price x) m)).
  rewrite !filter_filter. apply filter_ext. intros x.
  now rewrite !andb_assoc.
Qed.

(** X3.  What a product search returns.  When [get_all_products] returns
    an envelope, the store is unchanged, [total] is the number of products
    of the table that pass every filter the search sets, and every item is
    a product of the table that passes them: the term matched by its name
    or sku, its category the one asked for (a [category_id] of 0 asks for
    none), its price within the bounds given. *)
Theorem product_search_returns_matches
    (ilike : string -> string -> bool) (p : ProductSearchParams.t)
    (d d' : Database) (r : PaginatedResponse.t ProductDB.t) :
  request (get_all_products ilike p) d = (Ok r, d') ->
  d' = d
  /\ PaginatedResponse.total r
     = count (filter (product_matches ilike p) (Tables.product (tables d)))
  /\ Forall (fun x => In x (Tables.product (tables d))
                      /\ product_matches ilike p x = true)
       (PaginatedResponse.items r).
Proof.
  rewrite get_all_products_run. intros H.
  destruct (_ && _); [discriminate H|]. injection H as <- <-.
  split; [reflexivity|]. unfold envelope, product_page; cbn.
  rewrite product_filter_is_matches. split; [reflexivity|].
  apply Forall_forall. intros x Hx. apply page_In in Hx.
  now apply filter_In in Hx.
Qed.

Lemma product_search_returns_matches_witness :
  shop = shop
  /\ 1%Z = count (filter (product_matches sample_ilike
                            (ProductSearchParams.mk 1 10 (Some "MUG") (Some 0%Z)
                               (Some 3%Q) None))
                    (Tables.product (tables shop)))
  /\ Forall (fun x => In x (Tables.product (tables shop))
                      /\ product_matches sample_ilike
                           (ProductSearchParams.mk 1 10 (Some "MUG") (Some 0%Z)
                              (Some 3%Q) None) x = true)
       [ProductDB.mk 2 "Mug" None None 4 3].
Proof.
  apply (product_search_returns_matches sample_ilike
           (ProductSearchParams.mk 1 10 (Some "MUG") (Some 0%Z) (Some 3%Q) None)
           shop shop
           (PaginatedResponse.mk [ProductDB.mk 2 "Mug" None None 4 3]
              1 1 10 1 false false)).
  reflexivity.
Defined.

Lemma date_range_bad strptime_date {A} (column : A -> Z)
    (start_date end_date : option string) (q : list A) :
  bad_date_param strptime_date start_date = true
  \/ bad_date_param strptime_date end_date = true ->
  date_range strptime_date column start_date end_date q = Raise bad_date.
Proof.
  unfold bad_date_param, date_range.
  destruct (truthy_str start_date) as [s|];
    [destruct (strptime_date s)|];
    (destruct (truthy_str end_date) as [s'|];
     [destruct (strptime_date s')|]);
    intros [H|H]; try discriminate H; reflexivity.
Qed.

Lemma date_range_good strptime_date {A} (column : A -> Z)
    (start_date end_date : option string) (q : list A) :
  bad_date_param strptime_date start_date = false ->
  bad_date_param strptime_date end_date = false ->
  date_range strptime_date column start_date end_date q
  = Ok (filter (fun r =>
                  match parsed_day strptime_date start_date with
                  | Some day => (midnight day <=? column r)%Z
                  | None => true
                  end
                  && match parsed_day strptime_date end_date with
                     | Some day => (column r <=? end_of_day_max day)%Z
                     | None => true
                     end) q).
Proof.
  unfold bad_date_param, date_range, parsed_day. intros Hs He.
  rewrite <- filter_filter.
  destruct (truthy_str start_date) as [s|];
    [destruct (strptime_date s); [|discriminate Hs]|];
    (destruct (truthy_str end_date) as [s'|];
     [destruct (strptime_date s'); [|discriminate He]|]);
    rewrite <- ?(filter_when None (fun (_ : unit) (_ : A) => true));
    reflexivity.
Qed.

Lemma get_all_sales_run ilike strptime_date (p : SaleSearchParams.t) (d : Database) :
  request (get_all_sales ilike strptime_date p) d =
  (match sale_filter ilike strptime_date p (Tables.sale (tables d)) with
   | Raise e => Raise e
   | Ok query =>
       let sales :=
         offset_limit ((SaleSearchParams.page p - 1) * SaleSearchParams.limit p)
           (SaleSearchParams.limit p)
           (order_by (desc SaleDB.sale_datetime) query) in
       if is_empty sales && (SaleSearchParams.page p =? 1)%Z
       then Raise (HTTPException 404 "ไม่พบรายการขาย")
       else Ok (envelope sales (count query) (SaleSearchParams.page p)
                  (SaleSearchParams.limit p))
   end, d).
Proof.
  unfold get_all_sales. branches; destruct d; reflexivity.
Qed.

(** X4.  A date that is not a date.  When the [start_date] or the
    [end_date] of a sales search is set (not empty) and does not parse as
    YYYY-MM-DD, [get_all_sales] raises the 400 with the format hint,
    whatever the page, the limit and the other filters, and the store is
    unchanged. *)
Theorem sales_search_bad_date_is_400
    (ilike : string -> string -> bool) (strptime_date : string -> option Z)
    (p : SaleSearchParams.t) (d : Database) :
  bad_date_param strptime_date (SaleSearchParams.start_date p) = true
  \/ bad_date_param strptime_date (SaleSearchParams.end_date p) = true ->
  request (get_all_sales ilike strptime_date p) d =
  (Raise (HTTPException 400 "รูปแบบวันที่ไม่ถูกต้อง ใช้ YYYY-MM-DD"), d).
Proof.
  intros Hbad. rewrite get_all_sales_run. unfold sale_filter.
  now rewrite (date_range_bad strptime_date _ _ _ _ Hbad).
Qed.

Lemma sales_search_bad_date_is_400_witness :
  request (get_all_sales sample_ilike sample_strptime
             (SaleSearchParams.mk 3 10 None (Some "Cash") None (Some "yesterday")))
    shop =
  (Raise (HTTPException 400 "รูปแบบวันที่ไม่ถูกต้อง ใช้ YYYY-MM-DD"), shop).
Proof.
  apply (sales_search_bad_date_is_400 sample_ilike sample_strptime
           (SaleSearchParams.mk 3 10 None (Some "Cash") None (Some "yesterday"))
           shop).
  right; reflexivity.
Defined.

Lemma sale_filter_is_matches ilike strptime_date (p : SaleSearchParams.t)
    (q : list SaleDB.t) :
  bad_date_param strptime_date (SaleSearchParams.start_date p) = false ->
  bad_date_param strptime_date (SaleSearchParams.end_date p) = false ->
  sale_filter ilike strptime_date p q
  = Ok (filter (sale_matches ilike
                  (parsed_day strptime_date (SaleSearchParams.start_date p))
                  (parsed_day strptime_date (SaleSearchParams.end_date p)) p) q).
Proof.
  intros Hs He. unfold sale_filter, sale_matches.
  rewrite (date_range_good strptime_date _ _ _ _ Hs He).
  rewrite (filter_when (truthy_str (SaleSearchParams.search p))
             (fun s x => ilike_opt ilike (SaleDB.notes x) ("%" ++ s ++ "%"))).
  rewrite (filter_when (truthy_str (SaleSearchParams.payment_method p))
             (fun pm x => String.eqb (SaleDB.payment_method x) pm)).
  rewrite !filter_filter. f_equal. apply filter_ext. intros x.
  now rewrite !andb_assoc.
Qed.

(** X5.  What a sales search returns.  When [get_all_sales] returns an
    envelope, the start date and the end date each parsed or was not set
    (a date that is set and does not parse never yields an envelope), the
    store is unchanged, [total] counts the sales that pass every filter
    set, and every item is a sale of the table that passes them; in
    particular its time is no earlier than 00:00:00 of the start date and
    no later than 23:59:59.999999 of the end date. *)
Theorem sales_search_returns_matches
    (ilike : string -> string -> bool) (strptime_date : string -> option Z)
    (p : SaleSearchParams.t) (d d' : Database)
    (r : PaginatedResponse.t SaleDB.t) :
  request (get_all_sales ilike strptime_date p) d = (Ok r, d') ->
  let start_day := parsed_day strptime_date (SaleSearchParams.start_date p) in
  let end_day := parsed_day strptime_date (SaleSearchParams.end_date p) in
  bad_date_param strptime_date (SaleSearchParams.start_date p) = false
  /\ bad_date_param strptime_date (SaleSearchParams.end_date p) = false
  /\ d' = d
  /\ PaginatedResponse.total r
     = count (filter (sale_matches ilike start_day end_day p)
                (Tables.sale (tables d)))
  /\ Forall (fun x =>
               In x (Tables.sale (tables d))
               /\ sale_matches ilike start_day end_day p x = true
               /\ (forall day, start_day = Some day ->
                               (day * 86400000000 <= SaleDB.sale_datetime x)%Z)
               /\ (forall day, end_day = Some day ->
                               (SaleDB.sale_datetime x
                                <= day * 86400000000 + 86399999999)%Z))
       (PaginatedResponse.items r).
Proof.
  rewrite get_all_sales_run. intros H start_day end_day.
  destruct (bad_date_param strptime_date (SaleSearchParams.start_date p)) eqn:Hs.
  { unfold sale_filter in H.
    rewrite (date_range_bad strptime_date) in H by now left. discriminate H. }
  destruct (bad_date_param strptime_date (SaleSearchParams.end_date p)) eqn:He.
  { unfold sale_filter in H.
    rewrite (date_range_bad strptime_date) in H by now right. discriminate H. }
  rewrite (sale_filter_is_matches ilike strptime_date p _ Hs He) in H.
  fold start_day end_day in H. cbv zeta in H.
  destruct (_ && _); [discriminate H|]. injection H as <- <-.
  split; [reflexivity|]. split; [reflexivity|].
  split; [reflexivity|]. unfold envelope; cbn. split; [reflexivity|].
  apply Forall_forall. intros x Hx. apply page_In in Hx.
  apply filter_In in Hx. destruct Hx as [Hin Hm].
  split; [exact Hin|]. split; [exact Hm|].
  unfold sale_matches in Hm. apply andb_prop in Hm. destruct Hm as [Hm He'].
  apply andb_prop in Hm. destruct Hm as [_ Hs'].
  unfold midnight, end_of_day_max, day_us in *.
  split; intros day E; [rewrite E in Hs' | rewrite E in He']; lia.
Qed.

Lemma sales_search_returns_matches_witness :
  let p := SaleSearchParams.mk 1 10 None (Some "Cash")
             (Some "1970-01-01") (Some "1970-01-01") in
  bad_date_param epoch_strptime (Some "1970-01-01") = false
  /\ bad_date_param epoch_strptime (Some "1970-01-01") = false
  /\ shop = shop
  /\ 1%Z = count (filter (sale_matches sample_ilike (Some 0%Z) (Some 0%Z) p)
                    (Tables.sale (tables shop)))
  /\ Forall (fun x =>
               In x (Tables.sale (tables shop))
               /\ sale_matches sample_ilike (Some 0%Z) (Some 0%Z) p x = true
               /\ (forall day, Some 0%Z = Some day ->
                               (day * 86400000000 <= SaleDB.sale_datetime x)%Z)
               /\ (forall day, Some 0%Z = Some day ->
                               (SaleDB.sale_datetime x
                                <= day * 86400000000 + 86399999999)%Z))
       [SaleDB.mk 1 1000 5 "Cash" None].
Proof.
  intros p.
  apply (sales_search_returns_matches sample_ilike epoch_strptime p shop shop
           (PaginatedResponse.mk [SaleDB.mk 1 1000 5 "Cash" None]
              1 1 10 1 false false)).
  reflexivity.
Defined.

Lemma movement_filter_type iter (upper : string -> string) strptime_date
    (p : InventoryMovementSearchParams.t) (q q' : list InventoryMovementDB.t)
    (mt : string) :
  truthy_str (InventoryMovementSearchParams.movement_type p) = Some mt ->
  movement_filter strptime_date iter upper p q = Ok q' ->
  In (upper mt) allowed_types
  /\ forall x, In x q' ->
               In x q /\ InventoryMovementDB.movement_type x = upper mt.
Proof.
  intros Hmt. unfold movement_filter. rewrite Hmt.
  destruct (str_in (upper mt) allowed_types) eqn:Hin; cbn [negb];
    [|discriminate].
  apply str_in_In in Hin. intros H. split; [exact Hin|]. intros x Hx.
  assert (Hin' : In x (filter (fun m => String.eqb (InventoryMovementDB.movement_type m)
                                          (upper mt))
                         (match truthy_int
                                  (InventoryMovementSearchParams.product_id p) with
                          | Some pid =>
                              filter (fun m => (InventoryMovementDB.product_id m
                                                =? pid)%Z) q
                          | None => q
                          end))).
  { destruct (truthy_str (InventoryMovementSearchParams.start_date p)) as [s|];
      [destruct (strptime_date s); [|discriminate H]|];
      (destruct (truthy_str (InventoryMovementSearchParams.end_date p)) as [s'|];
       [destruct (strptime_date s'); [|discriminate H]|]);
      injection H as <-;
      repeat match type of Hx with
             | In _ (filter (fun m => (_ <=? _)%Z) _) =>
                 apply filter_In in Hx; destruct Hx as [Hx _]
             end;
      exact Hx. }
  apply filter_In in Hin'. destruct Hin' as [Hq Ht].
  apply String.eqb_eq in Ht. split; [|exact Ht].
  destruct (truthy_int _); [now apply filter_In in Hq | exact Hq].
Qed.

(** X6.  The type filter of the movement list.  With a non-empty
    [movement_type] [mt]: when [mt.upper()] is none of OPENING, STOCK_IN,
    SALE, [get_all_inventory_movements] raises the 400 naming the allowed
    values, before it looks at the dates, and the store is unchanged; when
    the call returns an envelope, [mt.upper()] is one of the three and
    every item is a movement of the table whose type is [mt.upper()].
    This holds whatever [str.upper] does to the characters of [mt]. *)
Theorem movement_search_type_filter
    (strptime_date : string -> option Z) (iter : list string)
    (upper : string -> string)
    (p : InventoryMovementSearchParams.t) (d : Database) (mt : string) :
  truthy_str (InventoryMovementSearchParams.movement_type p) = Some mt ->
  (~ In (upper mt) ["OPENING"; "STOCK_IN"; "SALE"] ->
   request (get_all_inventory_movements strptime_date iter upper p) d
   = (Raise (HTTPException 400
               ("ประเภท movement_type ไม่ถูกต้อง ค่าที่อนุญาตคือ: "
                ++ join ", " iter)), d))
  /\ (forall r d',
         request (get_all_inventory_movements strptime_date iter upper p) d
         = (Ok r, d') ->
         d' = d
         /\ In (upper mt) ["OPENING"; "STOCK_IN"; "SALE"]
         /\ Forall (fun x => In x (Tables.inventory_movement (tables d))
                             /\ InventoryMovementDB.movement_type x = upper mt)
              (PaginatedResponse.items r)).
Proof.
  intros Hmt. split.
  - intros Hnot. unfold get_all_inventory_movements, request, SessionLocal.
    unfold bind at 1, db_query at 1. cbn [txn].
    unfold bind at 1, lift at 1. unfold movement_filter. rewrite Hmt.
    destruct (str_in (upper mt) allowed_types) eqn:Hin.
    + apply str_in_In in Hin. contradiction.
    + cbn. now destruct d.
  - intros r d'. unfold get_all_inventory_movements, request, SessionLocal.
    unfold bind at 1, db_query at 1. cbn [txn].
    unfold bind at 1, lift at 1.
    destruct (movement_filter strptime_date iter upper p _) as [q'|e] eqn:Hq;
      [|discriminate].
    destruct (movement_filter_type iter upper strptime_date p _ q' mt Hmt Hq)
      as [Hin Hall].
    destruct (_ && _); unfold raise, ret, close; cbn [committed auto_increment];
      intros H; [discriminate H|]. injection H as <- <-.
    split; [now destruct d|]. split; [exact Hin|].
    unfold envelope; cbn. apply Forall_forall. intros x Hx.
    apply page_In in Hx. now apply Hall.
Qed.

Lemma movement_search_type_filter_witness :
  request (get_all_inventory_movements sample_strptime sample_iter ascii_upper
             (InventoryMovementSearchParams.mk 1 10 None (Some "refund")
                (Some "no date") None)) shop
  = (Raise (HTTPException 400
              ("ประเภท movement_type ไม่ถูกต้อง ค่าที่อนุญาตคือ: "
               ++ join ", " sample_iter)), shop).
Proof.
  apply (proj1 (movement_search_type_filter sample_strptime sample_iter ascii_upper
                  (InventoryMovementSearchParams.mk 1 10 None (Some "refund")
                     (Some "no date") None) shop "refund" eq_refl)).
  cbn. intros [H|[H|[H|[]]]]; discriminate H.
Defined.

(** ** Reports *)

Lemma get_product_stock_report_run ilike (p : ProductStockSearchParams.t)
    (d : Database) :
  request (get_product_stock_report ilike p) d =
  (let matching :=
     product_stock_filter ilike p (Tables.v_product_stock (tables d)) in
   if (count matching =? 0)%Z
   then Raise (HTTPException 404 "ไม่พบข้อมูลสต็อกสินค้า")
   else Ok (envelope
              (offset_limit ((ProductStockSearchParams.page p - 1)
                             * ProductStockSearchParams.limit p)
                 (ProductStockSearchParams.limit p)
                 (order_by (fun a b => String.leb (ProductStockView.name a)
                                         (ProductStockView.name b)) matching))
              (count matching) (ProductStockSearchParams.page p)
              (ProductStockSearchParams.limit p)),
   d).
Proof.
  unfold get_product_stock_report. branches; destruct d; reflexivity.
Qed.

(** X7.  The stock report is a 404 exactly when nothing matches, whatever
    the page.  [get_product_stock_report] raises its 404 if and only if no
    row of the view passes the filters; otherwise it returns an envelope,
    also for a page past the last one, whose items are then none.  (The
    other list handlers raise only for page 1.) *)
Theorem stock_report_404_iff_nothing_matches
    (ilike : string -> string -> bool) (p : ProductStockSearchParams.t)
    (d : Database) :
  let matching :=
    product_stock_filter ilike p (Tables.v_product_stock (tables d)) in
  let call := request (get_product_stock_report ilike p) d in
  (matching = [] ->
   call = (Raise (HTTPException 404 "ไม่พบข้อมูลสต็อกสินค้า"), d))
  /\ (matching <> [] ->
      exists r, call = (Ok r, d)
                /\ PaginatedResponse.total r = count matching
                /\ ((count matching
                     <= (ProductStockSearchParams.page p - 1)
                        * ProductStockSearchParams.limit p)%Z ->
                    (0 <= ProductStockSearchParams.limit p)%Z ->
                    (1 <= ProductStockSearchParams.page p)%Z ->
                    PaginatedResponse.items r = [])).
Proof.
  intros matching call. subst call.
  rewrite get_product_stock_report_run. cbv zeta. fold matching.
  split.
  - intros E. now rewrite E.
  - intros Hne.
    destruct (count matching =? 0)%Z eqn:Hc.
    + apply Z.eqb_eq in Hc. unfold count in Hc.
      destruct matching; [contradiction | discriminate Hc].
    + eexists. split; [reflexivity|]. unfold envelope; cbn.
      split; [reflexivity|].
      intros Hpast Hl Hp. unfold offset_limit.
      rewrite skipn_all2; [apply firstn_nil|].
      rewrite order_by_length. unfold count in Hpast. nia.
Qed.

Lemma stock_report_404_iff_nothing_matches_witness :
  request (get_product_stock_report sample_ilike
             (ProductStockSearchParams.mk 4 10 None (Some "r"))) shop
  = (Raise (HTTPException 404 "ไม่พบข้อมูลสต็อกสินค้า"), shop).
Proof.
  apply (proj1 (stock_report_404_iff_nothing_matches sample_ilike
                  (ProductStockSearchParams.mk 4 10 None (Some "r")) shop)).
  reflexivity.
Defined.

Lemma summary_build_ok (n : Z) (a b c m : Q)
    (top : option (list MostProfitableProduct.t)) (s : ProfitabilitySummary.t) :
  ProfitabilitySummary.build n a b c m top = Ok s ->
  s = ProfitabilitySummary.mk n a b c m top
  /\ (0 <= n)%Z /\ (0 <= a)%Q /\ (0 <= b)%Q /\ (0 <= c)%Q
  /\ (0 <= m)%Q /\ (m <= 100)%Q.
Proof.
  unfold ProfitabilitySummary.build.
  destruct (_ && _) eqn:E; [|discriminate]. intros [= <-].
  repeat (apply andb_prop in E; destruct E as [E ?]).
  repeat split; try (now apply Qle_bool_iff). now apply Z.leb_le.
Qed.

Lemma top_products_ok (l : list (Z * string * Q))
    (ys : list MostProfitableProduct.t) :
  map_result (fun product => MostProfitableProduct.build
                               (snd (fst product)) (snd product)) l = Ok ys ->
  List.length ys = List.length l
  /\ Forall (fun y => (0 <= MostProfitableProduct.total_profit y)%Q) ys.
Proof.
  revert ys. induction l as [|x r IH]; cbn; intros ys H.
  - injection H as <-. split; [reflexivity | constructor].
  - unfold MostProfitableProduct.build at 1 in H.
    destruct (Qle_bool 0 (snd x)) eqn:Hx; [|discriminate H].
    destruct (map_result _ r) as [zs|]; [|discriminate H].
    injection H as <-. destruct (IH zs eq_refl) as [Hl Hf].
    split; [cbn; now rewrite Hl|].
    constructor; [cbn; now apply Qle_bool_iff | exact Hf].
Qed.

(** X8.  A period sold at a loss breaks the summary.  When the rows of
    the date range are not none and their gross profits sum to less than
    zero, [get_profitability_summary] does not return: building the
    response fails its [ge=0] bound and the call ends in a
    [ValidationError]; the store is unchanged. *)
Theorem profitability_summary_of_a_loss_is_validation_error
    (strptime_date : string -> option Z)
    (start_date end_date : option string) (d : Database)
    (q : list ProfitabilityReportView.t) :
  date_range strptime_date ProfitabilityReportView.sale_datetime
    start_date end_date (Tables.v_profitability_report (tables d)) = Ok q ->
  q <> [] ->
  (float_or_0 (sql_sum (map ProfitabilityReportView.gross_profit q)) < 0)%Q ->
  request (get_profitability_summary strptime_date start_date end_date) d
  = (Raise ValidationError, d).
Proof.
  intros Hq Hne Hloss.
  unfold get_profitability_summary, request, SessionLocal.
  unfold bind at 1, db_query at 1. cbn [txn].
  unfold bind at 1, lift at 1. rewrite Hq.
  assert (Hc : (count q =? 0)%Z = false).
  { apply Z.eqb_neq. unfold count. destruct q; [contradiction | discriminate]. }
  rewrite Hc.
  set (revenue := float_or_0 (sql_sum (map ProfitabilityReportView.total_revenue q))).
  set (profit := float_or_0 (sql_sum (map ProfitabilityReportView.gross_profit q))) in *.
  assert (Hneg : Qle_bool 0 profit = false).
  { destruct (Qle_bool 0 profit) eqn:E; [|reflexivity].
    apply Qle_bool_iff in E. exfalso. exact (Qlt_not_le _ _ Hloss E). }
  assert (Hbuild : forall n a b m top,
             ProfitabilitySummary.build n a b profit m top = Raise ValidationError).
  { intros. unfold ProfitabilitySummary.build. rewrite Hneg.
    now rewrite !andb_false_r. }
  replace (mkDatabase (tables d) (counters d)) with d by now destruct d.
  destruct (Qgtb revenue 0) eqn:Hrev.
  - unfold bind at 1. unfold bind at 1, lift at 1.
    rewrite (truediv_guarded profit revenue Hrev). unfold ret at 1.
    unfold bind, lift.
    destruct (map_result _ _) as [top|e] eqn:Htop.
    + rewrite Hbuild. unfold close; cbn. now destruct d.
    + apply top_products_raise in Htop. subst. unfold close; cbn. now destruct d.
  - unfold bind, lift, ret.
    destruct (map_result _ _) as [top|e] eqn:Htop.
    + rewrite Hbuild. unfold close; cbn. now destruct d.
    + apply top_products_raise in Htop. subst. unfold close; cbn. now destruct d.
Qed.

Lemma profitability_summary_of_a_loss_is_validation_error_witness :
  request (get_profitability_summary sample_strptime None None) shop_at_a_loss
  = (Raise ValidationError, shop_at_a_loss).
Proof.
  apply (profitability_summary_of_a_loss_is_validation_error sample_strptime
           None None shop_at_a_loss
           (Tables.v_profitability_report (tables shop_at_a_loss))).
  - reflexivity.
  - discriminate.
  - reflexivity.
Defined.

(** X9.  What a returned profitability summary satisfies.  When
    [get_profitability_summary] returns, the store is unchanged,
    [total_sales] is the number of rows in the date range, revenue, cost
    of goods and gross profit are not negative, the margin is between 0
    and 100, and the list of top products is absent exactly when there is
    no row and otherwise has at most three entries, none with a negative
    profit. *)
Theorem profitability_summary_returned
    (strptime_date : string -> option Z)
    (start_date end_date : option string) (d d' : Database)
    (s : ProfitabilitySummary.t) :
  request (get_profitability_summary strptime_date start_date end_date) d
  = (Ok s, d') ->
  d' = d
  /\ exists q,
      date_range strptime_date ProfitabilityReportView.sale_datetime
        start_date end_date (Tables.v_profitability_report (tables d)) = Ok q
      /\ ProfitabilitySummary.total_sales s = count q
      /\ (0 <= ProfitabilitySummary.total_revenue s)%Q
      /\ (0 <= ProfitabilitySummary.total_cogs s)%Q
      /\ (0 <= ProfitabilitySummary.total_gross_profit s)%Q
      /\ (0 <= ProfitabilitySummary.average_profit_margin s)%Q
      /\ (ProfitabilitySummary.average_profit_margin s <= 100)%Q
      /\ match ProfitabilitySummary.top_profitable_products s with
         | None => q = []
         | Some top =>
             q <> [] /\ (List.length top <= 3)%nat
             /\ Forall (fun y => (0 <= MostProfitableProduct.total_profit y)%Q) top
         end.
Proof.
  unfold get_profitability_summary, request, SessionLocal.
  unfold bind at 1, db_query at 1. cbn [txn].
  unfold bind at 1, lift at 1.
  destruct (date_range _ _ _ _ _) as [q|e] eqn:Hq; [|discriminate].
  replace (mkDatabase (tables d) (counters d)) with d by now destruct d.
  assert (Hd : forall s0 : Session,
             s0 = mkSession (tables d) (tables d) (counters d) [] -> close s0 = d).
  { intros s0 ->. unfold close; cbn. now destruct d. }
  destruct (count q =? 0)%Z eqn:Hc.
  - cbn. intros H. injection H as <- <-. split; [now destruct d|].
    exists q. apply Z.eqb_eq in Hc. unfold count in Hc.
    destruct q; [|discriminate Hc]. cbn.
    repeat split; try reflexivity; try discriminate.
  - assert (Hne : q <> []) by (intros ->; discriminate Hc).
    set (revenue := float_or_0 (sql_sum (map ProfitabilityReportView.total_revenue q))).
    set (cogs := float_or_0 (sql_sum (map ProfitabilityReportView.total_cogs q))).
    set (profit := float_or_0 (sql_sum (map ProfitabilityReportView.gross_profit q))).
    assert (Hfin : forall m top res,
               ProfitabilitySummary.build (count q) revenue cogs profit m (Some top)
               = res ->
               List.length top
               = List.length
                   (firstn 3
                      (order_by (fun a b => Qle_bool (snd b) (snd a))
                         (group_sum product_key_eqb
                            (fun r => (ProfitabilityReportView.product_id r,
                                       ProfitabilityReportView.product_name r))
                            ProfitabilityReportView.gross_profit q))) ->
               Forall (fun y => (0 <= MostProfitableProduct.total_profit y)%Q) top ->
               (res, d) = (Ok s, d') ->
               d' = d
               /\ exists q0, Ok q = Ok q0
                   /\ ProfitabilitySummary.total_sales s = count q0
                   /\ (0 <= ProfitabilitySummary.total_revenue s)%Q
                   /\ (0 <= ProfitabilitySummary.total_cogs s)%Q
                   /\ (0 <= ProfitabilitySummary.total_gross_profit s)%Q
                   /\ (0 <= ProfitabilitySummary.average_profit_margin s)%Q
                   /\ (ProfitabilitySummary.average_profit_margin s <= 100)%Q
                   /\ match ProfitabilitySummary.top_profitable_products s with
                      | None => q0 = []
                      | Some top =>
                          q0 <> [] /\ (List.length top <= 3)%nat
                          /\ Forall (fun y =>
                                       (0 <= MostProfitableProduct.total_profit y)%Q)
                               top
                      end).
    { intros m top res Hb Hlen Hnn H. injection H as Hres <-. subst res.
      apply summary_build_ok in Hres.
      destruct Hres as (-> & _ & H1 & H2 & H3 & H4 & H5).
      split; [reflexivity|]. exists q. cbn.
      repeat split; try assumption.
      rewrite Hlen. apply firstn_le_length. }
    destruct (Qgtb revenue 0) eqn:Hrev.
    + unfold bind at 1. unfold bind at 1, lift at 1.
      rewrite (truediv_guarded profit revenue Hrev). unfold ret at 1.
      unfold bind, lift.
      destruct (map_result _ _) as [top|e] eqn:Htop; [|discriminate].
      apply top_products_ok in Htop. destruct Htop as [Hl Hf].
      rewrite Hd by reflexivity. intros H. exact (Hfin _ top _ eq_refl Hl Hf H).
    + unfold bind, lift, ret.
      destruct (map_result _ _) as [top|e] eqn:Htop; [|discriminate].
      apply top_products_ok in Htop. destruct Htop as [Hl Hf].
      rewrite Hd by reflexivity. intros H. exact (Hfin _ top _ eq_refl Hl Hf H).
Qed.

Lemma profitability_summary_returned_witness :
  let s := ProfitabilitySummary.mk 2 9 5 4 (1111 # 25)
             (Some [MostProfitableProduct.mk "Green tea" 3;
                    MostProfitableProduct.mk "Mug" 1]) in
  shop_in_profit = shop_in_profit
  /\ exists q,
      date_range sample_strptime ProfitabilityReportView.sale_datetime
        None None (Tables.v_profitability_report (tables shop_in_profit)) = Ok q
      /\ ProfitabilitySummary.total_sales s = count q
      /\ (0 <= ProfitabilitySummary.total_revenue s)%Q
      /\ (0 <= ProfitabilitySummary.total_cogs s)%Q
      /\ (0 <= ProfitabilitySummary.total_gross_profit s)%Q
      /\ (0 <= ProfitabilitySummary.average_profit_margin s)%Q
      /\ (ProfitabilitySummary.average_profit_margin s <= 100)%Q
      /\ match ProfitabilitySummary.top_profitable_products s with
         | None => q = []
         | Some top =>
             q <> [] /\ (List.length top <= 3)%nat
             /\ Forall (fun y => (0 <= MostProfitableProduct.total_profit y)%Q) top
         end.
Proof.
  intros s.
  apply (profitability_summary_returned sample_strptime None None
           shop_in_profit shop_in_profit s).
  reflexivity.
Defined.

Lemma round2_bounds (x : Q) :
  (0 <= x)%Q -> (x <= 100)%Q -> (0 <= round2 x)%Q /\ (round2 x <= 100)%Q.
Proof.
  intros H0 H100. unfold round2.
  set (y := (x * 100)%Q). set (f := Qfloor y).
  assert (Hy0 : (0 <= y)%Q) by (unfold y; lra).
  assert (Hy1 : (y <= 10000)%Q) by (unfold y; lra).
  pose proof (Qfloor_le y) as Hfl. pose proof (Qlt_floor y) as Hfu.
  fold f in Hfl, Hfu.
  assert (Hf0 : (0 <= f)%Z).
  { assert (H : (inject_Z 0 < inject_Z (f + 1))%Q)
      by (eapply Qle_lt_trans; [exact Hy0 | exact Hfu]).
    rewrite <- Zlt_Qlt in H. lia. }
  assert (Hbound : forall n : Z, (0 <= n <= 10000)%Z ->
             (0 <= Qred (inject_Z n / 100))%Q /\ (Qred (inject_Z n / 100) <= 100)%Q).
  { intros n [Hn0 Hn1]. rewrite Qred_correct.
    assert (E : (inject_Z n / 100 == inject_Z n * (1 # 100))%Q) by reflexivity.
    rewrite E.
    assert (A : (0 <= inject_Z n)%Q)
      by (change 0%Q with (inject_Z 0); now rewrite <- Zle_Qle).
    assert (B : (inject_Z n <= 10000)%Q)
      by (change 10000%Q with (inject_Z 10000); now rewrite <- Zle_Qle).
    split; lra. }
  assert (Hf1 : (f <= 10000)%Z).
  { assert (H : (inject_Z f <= inject_Z 10000)%Q)
      by (change (inject_Z 10000) with 10000%Q; lra).
    now rewrite <- Zle_Qle in H. }
  assert (Hhalf : (1 # 2 <= y - inject_Z f)%Q -> (f + 1 <= 10000)%Z).
  { intros Hd.
    assert (H : (inject_Z f < inject_Z 10000)%Q)
      by (change (inject_Z 10000) with 10000%Q; lra).
    rewrite <- Zlt_Qlt in H. lia. }
  apply Hbound.
  unfold Qgtb.
  destruct (Qle_bool (y - inject_Z f) (1 # 2)) eqn:E1; cbn [negb].
  - destruct (Qle_bool (1 # 2) (y - inject_Z f)) eqn:E2; cbn [negb].
    + apply Qle_bool_iff in E2. specialize (Hhalf E2).
      destruct (Z.even f); lia.
    + lia.
  - assert (Hd : (1 # 2 <= y - inject_Z f)%Q).
    { destruct (Qlt_le_dec (y - inject_Z f) (1 # 2)) as [Hlt|Hle]; [|exact Hle].
      apply Qlt_le_weak in Hlt. apply Qle_bool_iff in Hlt. congruence. }
    specialize (Hhalf Hd). lia.
Qed.

Lemma round2_of_equal (x y : Q) : (x == y)%Q -> round2 x = round2 y.
Proof.
  intros E. unfold round2, Qgtb.
  assert (Ef : Qfloor (x * 100) = Qfloor (y * 100)) by now rewrite E.
  rewrite Ef.
  assert (Ed : (x * 100 - inject_Z (Qfloor (y * 100))
                == y * 100 - inject_Z (Qfloor (y * 100)))%Q) by now rewrite E.
  assert (E1 : Qle_bool (x * 100 - inject_Z (Qfloor (y * 100))) (1 # 2)
               = Qle_bool (y * 100 - inject_Z (Qfloor (y * 100))) (1 # 2)).
  { apply eq_true_iff_eq. rewrite !Qle_bool_iff. now rewrite Ed. }
  assert (E2 : Qle_bool (1 # 2) (x * 100 - inject_Z (Qfloor (y * 100)))
               = Qle_bool (1 # 2) (y * 100 - inject_Z (Qfloor (y * 100)))).
  { apply eq_true_iff_eq. rewrite !Qle_bool_iff. now rewrite Ed. }
  now rewrite E1, E2.
Qed.

Lemma truediv_by_max (a : Q) (t : Z) :
  truediv a (inject_Z (Z.max t 1)) = Ok (a / inject_Z (Z.max t 1))%Q.
Proof.
  unfold truediv. destruct (Qeq_bool _ 0) eqn:E; [|reflexivity].
  apply Qeq_bool_iff in E. unfold Qeq in E. cbn in E. lia.
Qed.

Lemma share_is_a_percentage (n t : Z) :
  (0 <= n <= t)%Z ->
  (0 <= inject_Z n / inject_Z (Z.max t 1) * 100)%Q
  /\ (inject_Z n / inject_Z (Z.max t 1) * 100 <= 100)%Q.
Proof.
  intros [Hn Ht].
  assert (Hm : (0 < inject_Z (Z.max t 1))%Q)
    by (change 0%Q with (inject_Z 0); rewrite <- Zlt_Qlt; lia).
  assert (A : (0 <= inject_Z n)%Q)
    by (change 0%Q with (inject_Z 0); now rewrite <- Zle_Qle).
  assert (B : (inject_Z n <= inject_Z (Z.max t 1))%Q)
    by (rewrite <- Zle_Qle; lia).
  assert (L : (0 <= inject_Z n / inject_Z (Z.max t 1))%Q)
    by (apply Qle_shift_div_l; [exact Hm | lra]).
  assert (U : (inject_Z n / inject_Z (Z.max t 1) <= 1)%Q)
    by (apply Qle_shift_div_r; [exact Hm | lra]).
  split; lra.
Qed.

Lemma get_product_stock_summary_run (needs_restock_only : bool) (d : Database) :
  request (get_product_stock_summary needs_restock_only) d =
  (let scope := summary_scope needs_restock_only (tables d) in
   ProductStockSummary.build (count scope) (scope_value scope)
     (scope_needing scope)
     (round2 (inject_Z (scope_needing scope)
              / inject_Z (Z.max (count scope) 1) * 100)%Q),
   d).
Proof.
  unfold get_product_stock_summary, request, SessionLocal.
  unfold bind at 1, db_query at 1. cbn [txn].
  unfold bind, lift. rewrite truediv_by_max.
  unfold close; cbn [committed auto_increment].
  destruct d; reflexivity.
Qed.

Lemma scope_counts (scope : list ProductStockView.t) :
  (0 <= scope_needing scope <= count scope)%Z.
Proof.
  unfold scope_needing, count.
  pose proof (filter_length_le
                (fun r => (ProductStockView.needs_restock r =? 1)%Z) scope).
  lia.
Qed.

(** X10.  The two outcomes of the stock summary.
    [get_product_stock_summary] never divides by zero, also on an empty
    view.  When the stock of its scope is worth zero or more, it returns
    the number of products in scope, that worth, the number needing
    restock, and a percentage between 0 and 100.  When the worth is
    negative (stock on hand below zero), building the response fails and
    the call ends in a [ValidationError].  The store is unchanged either
    way. *)
Theorem stock_summary_outcome (needs_restock_only : bool) (d : Database) :
  let scope := summary_scope needs_restock_only (tables d) in
  let call := request (get_product_stock_summary needs_restock_only) d in
  ((0 <= scope_value scope)%Q ->
   exists s,
     call = (Ok s, d)
     /\ ProductStockSummary.total_products s = count scope
     /\ ProductStockSummary.total_stock_value s = scope_value scope
     /\ ProductStockSummary.products_needing_restock s = scope_needing scope
     /\ (0 <= ProductStockSummary.restock_percentage s)%Q
     /\ (ProductStockSummary.restock_percentage s <= 100)%Q)
  /\ ((scope_value scope < 0)%Q -> call = (Raise ValidationError, d)).
Proof.
  intros scope call. subst call. rewrite get_product_stock_summary_run.
  cbv zeta. fold scope.
  pose proof (scope_counts scope) as [Hn Ht].
  destruct (share_is_a_percentage (scope_needing scope) (count scope)
              (conj Hn Ht)) as [P0 P1].
  destruct (round2_bounds _ P0 P1) as [R0 R1].
  apply Qle_bool_iff in R0, R1.
  unfold ProductStockSummary.build. rewrite R0, R1.
  replace (0 <=? count scope)%Z with true by (symmetry; apply Z.leb_le; lia).
  replace (0 <=? scope_needing scope)%Z with true by (symmetry; apply Z.leb_le; lia).
  cbn [andb]. rewrite !andb_true_r.
  split.
  - intros Hv. apply Qle_bool_iff in Hv. rewrite Hv. eexists.
    split; [reflexivity|]. cbn.
    repeat split; now apply Qle_bool_iff.
  - intros Hv. destruct (Qle_bool 0 (scope_value scope)) eqn:E; [|reflexivity].
    apply Qle_bool_iff in E. exfalso. exact (Qlt_not_le _ _ Hv E).
Qed.

Lemma stock_summary_outcome_witness :
  exists s,
    request (get_product_stock_summary false) shop_with_stock = (Ok s, shop_with_stock)
    /\ ProductStockSummary.total_products s
       = count (summary_scope false (tables shop_with_stock))
    /\ ProductStockSummary.total_stock_value s
       = scope_value (summary_scope false (tables shop_with_stock))
    /\ ProductStockSummary.products_needing_restock s
       = scope_needing (summary_scope false (tables shop_with_stock))
    /\ (0 <= ProductStockSummary.restock_percentage s)%Q
    /\ (ProductStockSummary.restock_percentage s <= 100)%Q.
Proof.
  apply (proj1 (stock_summary_outcome false shop_with_stock)).
  vm_compute. discriminate.
Defined.

(** X11.  The restock percentage at the two ends.  Over an empty scope
    (no product, or none needing restock when only those are asked for)
    the summary is all zeros.  When only the products needing restock are
    asked for and there are some, worth zero or more, the percentage is
    100: it is taken within the scope, not over all products. *)
Theorem stock_summary_percentage_ends (needs_restock_only : bool) (d : Database) :
  let scope := summary_scope needs_restock_only (tables d) in
  let call := request (get_product_stock_summary needs_restock_only) d in
  (scope = [] -> call = (Ok (ProductStockSummary.mk 0 0 0 0), d))
  /\ (needs_restock_only = true -> scope <> [] -> (0 <= scope_value scope)%Q ->
      call = (Ok (ProductStockSummary.mk (count scope) (scope_value scope)
                    (count scope) 100), d)).
Proof.
  intros scope call. subst call. rewrite get_product_stock_summary_run.
  cbv zeta. fold scope. split.
  - intros ->. reflexivity.
  - intros Hflag Hne Hv.
    assert (Hall : scope_needing scope = count scope).
    { unfold scope_needing, scope, summary_scope. rewrite Hflag.
      rewrite filter_filter. f_equal. apply filter_ext.
      intros x. now destruct (_ =? 1)%Z. }
    rewrite Hall.
    assert (Hpos : (1 <= count scope)%Z)
      by (unfold count; destruct scope; [contradiction | cbn; lia]).
    assert (E : (inject_Z (count scope) / inject_Z (Z.max (count scope) 1) * 100
                 == 100)%Q).
    { rewrite Z.max_l by lia. field.
      intros H. unfold Qeq in H. cbn in H. lia. }
    rewrite (round2_of_equal _ _ E).
    change (round2 100) with 100%Q.
    unfold ProductStockSummary.build.
    apply Qle_bool_iff in Hv. rewrite Hv.
    replace (0 <=? count scope)%Z with true by (symmetry; apply Z.leb_le; lia).
    reflexivity.
Qed.

Lemma stock_summary_percentage_ends_witness :
  request (get_product_stock_summary true) shop_with_stock
  = (Ok (ProductStockSummary.mk
           (count (summary_scope true (tables shop_with_stock)))
           (scope_value (summary_scope true (tables shop_with_stock)))
           (count (summary_scope true (tables shop_with_stock))) 100),
     shop_with_stock).
Proof.
  apply (proj2 (stock_summary_percentage_ends true shop_with_stock)).
  - reflexivity.
  - discriminate.
  - vm_compute. discriminate.
Defined.

(** ** A sale and its items *)

(** What a successful [create_sale] hands back: the sale its key finds in
    the store it leaves, with that sale's items. *)
Lemma create_sale_returns (now : Z) (sale : SaleCreate.t) (d d' : Database)
    (r : SaleDB.t * list SaleItemDB.t) :
  request (create_sale now sale) d = (Ok r, d') ->
  exists pm,
    canonical_payment_method (SaleCreate.payment_method sale) = Some pm
    /\ find (fun it => product_missing (tables d) (SaleItemCreate.product_id it))
         (SaleCreate.items sale) = None
    /\ d' = sale_committed d
              (SaleDB.mk 0
                 (match SaleCreate.sale_datetime sale with
                  | Some t => t
                  | None => now
                  end)
                 0%Q pm (SaleCreate.notes sale))
              (flat_map (sale_item_row (tables d) (Counters.sale (counters d)))
                 (SaleCreate.items sale))
    /\ find (fun s => (SaleDB.sale_id s =? Counters.sale (counters d))%Z)
         (Tables.sale (tables d')) = Some (fst r)
    /\ snd r = filter (fun i => (SaleItemDB.sale_id i
                                 =? Counters.sale (counters d))%Z)
                 (Tables.sale_item (tables d')).
Proof.
  intros H.
  destruct (canonical_payment_method (SaleCreate.payment_method sale))
    as [pm|] eqn:Hc.
  2:{ rewrite (create_sale_bad_payment now sale d Hc) in H. discriminate H. }
  destruct (find (fun it => product_missing (tables d)
                              (SaleItemCreate.product_id it))
              (SaleCreate.items sale)) as [it|] eqn:Hfind.
  { rewrite (create_sale_missing_product now sale d pm it Hc Hfind) in H.
    discriminate H. }
  exists pm. split; [reflexivity|]. split; [reflexivity|].
  destruct (create_sale_ok now sale d pm Hc Hfind) as [r' Hr].
  assert (Hd' : d' = sale_committed d
              (SaleDB.mk 0
                 (match SaleCreate.sale_datetime sale with
                  | Some t => t
                  | None => now
                  end)
                 0%Q pm (SaleCreate.notes sale))
              (flat_map (sale_item_row (tables d) (Counters.sale (counters d)))
                 (SaleCreate.items sale)))
    by (rewrite Hr in H; now injection H as _ <-).
  split; [exact Hd'|].
  (* the value returned is read from the store just committed *)
  revert H. clear Hr r'. rewrite Hd'. clear Hd'.
  enter_create_sale sale d Hpm. rewrite Hc in Hpm.
  destruct Hpm as [-> Hin]. rewrite Hin. cbn [negb].
  flush_new_sale d.
  match goal with
  | |- context [for_each items _ ?s] =>
      pose proof (create_sale_items_run c2 items s) as Hloop
  end.
  cbv zeta in Hloop. cbn [txn] in Hloop.
  change (find _ items) with
    (find (fun it => product_missing
                       (Tables.mk cat prd sal sit stk sti mov vps vpr)
                       (SaleItemCreate.product_id it)) items) in Hloop.
  cbn [tables SaleCreate.items] in Hfind. rewrite Hfind in Hloop. rewrite Hloop.
  unfold push. cbn [committed txn auto_increment pending app].
  change (flat_map (sale_item_row _ c2) items) with
    (flat_map (sale_item_row (Tables.mk cat prd sal sit stk sti mov vps vpr) c2)
       items).
  set (rows := flat_map _ items).
  unfold bind at 1, db_commit at 1. cbn [committed txn auto_increment pending].
  match goal with
  | |- context [write_all (map NewSaleItem rows) ?tb ?c] =>
      match tb with
      | Tables.mk ?a1 ?a2 ?a3 ?a4 ?a5 ?a6 ?a7 ?a8 ?a9 =>
          destruct (write_all_sale_items rows a1 a2 a3 a4 a5 a6 a7 a8 a9
                      c1 (c2 + 1)%Z c3 c4 c5) as [ks ->]
      end
  end.
  unfold bind at 1, db_refresh at 1. cbn [txn Tables.sale].
  unfold sale_committed.
  cbn [tables counters Tables.sale Tables.sale_item Counters.sale].
  fold rows.
  match goal with
  | |- context [find ?p (sal ++ [?x])%list] =>
      destruct (find_app_last p sal x) as [y Hy];
        [cbn; apply Z.eqb_refl|]
  end.
  rewrite Hy.
  unfold bind, db_query, ret, close.
  cbn [txn committed auto_increment tables counters Tables.sale_item].
  intros H. injection H as <-. cbn [fst snd]. split; reflexivity.
Qed.

Lemma numbered_items_keep_sale (k sale_id : Z) (rows : list SaleItemDB.t) :
  Forall (fun i => SaleItemDB.sale_id i = sale_id) rows ->
  Forall (fun i => SaleItemDB.sale_id i = sale_id) (number_sale_items k rows).
Proof.
  intros H. revert k. induction H as [|x l Hx Hl IH]; intros k; cbn;
    constructor; [exact Hx | apply IH].
Qed.

Lemma item_rows_of_sale (tb : Tables.t) (sale_id : Z)
    (items : list SaleItemCreate.t) :
  Forall (fun i => SaleItemDB.sale_id i = sale_id)
    (flat_map (sale_item_row tb sale_id) items).
Proof.
  induction items as [|x r IH]; cbn; [constructor|].
  apply Forall_app. split; [|exact IH].
  unfold sale_item_row. destruct (product_by_id tb _); repeat constructor.
Qed.

Lemma sale_committed_rest (d : Database) (new_sale : SaleDB.t)
    (rows : list SaleItemDB.t) :
  let d' := sale_committed d new_sale rows in
  Tables.category (tables d') = Tables.category (tables d)
  /\ Tables.product (tables d') = Tables.product (tables d)
  /\ Tables.stock_in (tables d') = Tables.stock_in (tables d)
  /\ Tables.stock_in_item (tables d') = Tables.stock_in_item (tables d)
  /\ Tables.inventory_movement (tables d')
     = Tables.inventory_movement (tables d).
Proof. destruct d as [[] []]. cbn. repeat split. Qed.

(** X12.  [create_sale] is all or nothing.  When it raises, whatever the
    error and however far it got, every table is as it was.  When it
    returns, the sale table has one more row, the item table has one more
    row per item of the request, each carrying the key of the new sale,
    and the category, product, stock-in and stock-in item tables are as
    they were. *)
Theorem create_sale_all_or_nothing
    (now : Z) (sale : SaleCreate.t) (d d' : Database)
    (res : Result (SaleDB.t * list SaleItemDB.t)) :
  request (create_sale now sale) d = (res, d') ->
  match res with
  | Raise _ => tables d' = tables d
  | Ok _ =>
      exists row rows,
        Tables.sale (tables d') = (Tables.sale (tables d) ++ [row])%list
        /\ Tables.sale_item (tables d') = (Tables.sale_item (tables d) ++ rows)%list
        /\ List.length rows = List.length (SaleCreate.items sale)
        /\ Forall (fun i => SaleItemDB.sale_id i = SaleDB.sale_id row) rows
        /\ Tables.category (tables d') = Tables.category (tables d)
        /\ Tables.product (tables d') = Tables.product (tables d)
        /\ Tables.stock_in (tables d') = Tables.stock_in (tables d)
        /\ Tables.stock_in_item (tables d') = Tables.stock_in_item (tables d)
  end.
Proof.
  intros H. destruct res as [r|e].
  - destruct (create_sale_returns now sale d d' r H)
      as (pm & Hc & Hfind & -> & _ & _).
    destruct (sale_committed_tables d
                (SaleDB.mk 0 (match SaleCreate.sale_datetime sale with
                              | Some t => t | None => now end)
                   0%Q pm (SaleCreate.notes sale))
                (flat_map (sale_item_row (tables d) (Counters.sale (counters d)))
                   (SaleCreate.items sale))) as [Hs Hi].
    eexists. eexists. split; [exact Hs|]. split; [exact Hi|]. split.
    + symmetry. eapply Forall2_length. now apply items_stored.
    + split.
      * apply numbered_items_keep_sale. cbn. apply item_rows_of_sale.
      * match goal with
        | |- context [sale_committed d ?s ?rows] =>
            pose proof (sale_committed_rest d s rows) as Hrest
        end.
        cbv zeta in Hrest. destruct Hrest as (A & B & C & D & _).
        repeat split; assumption.
  - now apply create_sale_raise_keeps_tables in H.
Qed.

Lemma create_sale_all_or_nothing_witness :
  tables (sale_key_spent shop) = tables shop.
Proof.
  apply (create_sale_all_or_nothing 2000
           (SaleCreate.mk None "QR" (Some "gift")
              [SaleItemCreate.mk 2 1 None 0; SaleItemCreate.mk 7 1 None 0])
           shop (sale_key_spent shop)
           (Raise (HTTPException 404 "Product with ID 7 not found."))).
  reflexivity.
Defined.

Lemma get_sale_by_id_run (sale_id : Z) (d : Database) :
  request (get_sale_by_id sale_id) d =
  (match find (fun s => (SaleDB.sale_id s =? sale_id)%Z) (Tables.sale (tables d)) with
   | Some sale =>
       Ok (sale, filter (fun i => (SaleItemDB.sale_id i =? SaleDB.sale_id sale)%Z)
                   (Tables.sale_item (tables d)))
   | None => Raise (HTTPException 404 "ไม่พบรายการขายที่ต้องการ")
   end, d).
Proof.
  unfold get_sale_by_id. run_request. rewrite find_is_first.
  destruct (first _); destruct d; reflexivity.
Qed.

(** X13.  A sale can be read back as it was returned.  After
    [create_sale] has returned a sale, [get_sale_by_id] with the
    [sale_id] of that sale, on the store [create_sale] left, returns the
    same sale with the same items and leaves the store as it is. *)
Theorem created_sale_reads_back
    (now : Z) (sale : SaleCreate.t) (d d' : Database)
    (r : SaleDB.t * list SaleItemDB.t) :
  request (create_sale now sale) d = (Ok r, d') ->
  request (get_sale_by_id (SaleDB.sale_id (fst r))) d' = (Ok r, d').
Proof.
  intros H.
  destruct (create_sale_returns now sale d d' r H)
    as (pm & _ & _ & _ & Hfound & Hitems).
  pose proof (find_some _ _ Hfound) as [_ Hk]. apply Z.eqb_eq in Hk.
  rewrite get_sale_by_id_run, Hk, Hfound, Hk, <- Hitems.
  now destruct r.
Qed.

Lemma created_sale_reads_back_witness :
  let r := (SaleDB.mk 2 2000 0 "Card" None,
            [SaleItemDB.mk 2 2 2 1 4 0]) in
  let d' := snd (request (create_sale 2000
                            (SaleCreate.mk None "card" None
                               [SaleItemCreate.mk 2 1 None 0])) shop) in
  request (get_sale_by_id (SaleDB.sale_id (fst r))) d' = (Ok r, d').
Proof.
  intros r d'.
  apply (created_sale_reads_back 2000
           (SaleCreate.mk None "card" None [SaleItemCreate.mk 2 1 None 0])
           shop d' r).
  reflexivity.
Defined.

(** The four ways through [add_sale_item]. *)
Lemma add_sale_item_run (sale_id : Z) (item : SaleItemCreate.t) (d : Database) :
  let pid := SaleItemCreate.product_id item in
  match sale_by_id (tables d) sale_id with
  | None =>
      request (add_sale_item sale_id item) d
      = (Raise (HTTPException 404 "ไม่พบรายการขายนี้"), d)
  | Some _ =>
      match product_by_id (tables d) pid with
      | None =>
          request (add_sale_item sale_id item) d
          = (Raise (HTTPException 404 ("ไม่พบสินค้า ID " ++ str pid)), d)
      | Some product =>
          match sale_item_of (tables d) sale_id pid with
          | Some _ =>
              request (add_sale_item sale_id item) d
              = (Raise (HTTPException 400
                          ("สินค้า ID " ++ str pid
                           ++ " มีอยู่แล้วในรายการขายนี้")), d)
          | None =>
              exists r d',
                request (add_sale_item sale_id item) d = (Ok r, d')
                /\ find (fun i => (SaleItemDB.sale_item_id i
                                   =? Counters.sale_item (counters d))%Z)
                     (Tables.sale_item (tables d')) = Some r
                /\ Tables.sale_item (tables d')
                   = (Tables.sale_item (tables d)
                      ++ [SaleItemDB.inserted (Counters.sale_item (counters d))
                            (SaleItemDB.mk 0 sale_id pid
                               (SaleItemCreate.quantity item)
                               (match SaleItemCreate.unit_price item with
                                | Some p => p
                                | None => ProductDB.price product
                                end)
                               (SaleItemCreate.discount item))])%list
                /\ Tables.sale (tables d') = Tables.sale (tables d)
                /\ Tables.product (tables d') = Tables.product (tables d)
          end
      end
  end.
Proof.
  intros pid. subst pid. unfold sale_by_id, product_by_id, sale_item_of.
  destruct d as [[cat prd sal sit stk sti mov vps vpr] [c1 c2 c3 c4 c5]].
  cbn [tables counters Tables.sale Tables.product Tables.sale_item
       Counters.sale_item].
  destruct (first (filter _ sal)) eqn:Hs;
    [destruct (first (filter _ prd)) as [product|] eqn:Hp;
     [destruct (first (filter _ sit)) eqn:Hi|]|].
  4:{ unfold add_sale_item, request, SessionLocal, bind, db_query.
      cbn [tables counters txn committed auto_increment pending Tables.sale].
      now rewrite Hs. }
  3:{ unfold add_sale_item, request, SessionLocal, bind, db_query.
      cbn [tables counters txn committed auto_increment pending Tables.sale
           Tables.product].
      rewrite Hs. cbn [txn Tables.product]. now rewrite Hp. }
  1:{ unfold add_sale_item, request, SessionLocal, bind, db_query.
      cbn [tables counters txn committed auto_increment pending Tables.sale
           Tables.product Tables.sale_item].
      rewrite Hs. cbn [txn Tables.product]. rewrite Hp.
      cbn [txn Tables.sale_item]. now rewrite Hi. }
  assert (Hrun : forall r d',
             request (add_sale_item sale_id item)
               (mkDatabase (Tables.mk cat prd sal sit stk sti mov vps vpr)
                  (Counters.mk c1 c2 c3 c4 c5)) = (Ok r, d') ->
             find (fun i => (SaleItemDB.sale_item_id i =? c3)%Z)
               (Tables.sale_item (tables d')) = Some r
             /\ Tables.sale_item (tables d')
                = (sit ++ [SaleItemDB.inserted c3
                             (SaleItemDB.mk 0 sale_id (SaleItemCreate.product_id item)
                                (SaleItemCreate.quantity item)
                                (match SaleItemCreate.unit_price item with
                                 | Some p => p
                                 | None => ProductDB.price product
                                 end)
                                (SaleItemCreate.discount item))])%list
             /\ Tables.sale (tables d') = sal
             /\ Tables.product (tables d') = prd).
  { intros r d'.
    unfold add_sale_item, request, SessionLocal, bind, db_query.
    cbn [tables counters txn committed auto_increment pending Tables.sale
         Tables.product Tables.sale_item].
    rewrite Hs. cbn [txn Tables.product]. rewrite Hp.
    cbn [txn Tables.sale_item]. rewrite Hi.
    destruct (SaleItemCreate.unit_price item) as [p|] eqn:Hu;
      cbn [SaleItemCreate.unit_price SaleItemCreate.with_unit_price
           SaleItemCreate.product_id SaleItemCreate.quantity
           SaleItemCreate.discount];
      rewrite ?Hu;
      unfold db_add, db_commit, db_refresh;
      cbn [tables counters txn committed auto_increment pending app
           write_all write key_at nth Tables.sale_item];
      (destruct (find _ _) as [y|] eqn:Hy; [|discriminate]);
      unfold close; cbn [committed auto_increment];
      intros H; injection H as <- <-;
      cbn [tables Tables.sale_item Tables.sale Tables.product];
      (split; [exact Hy|]); repeat split. }
  destruct (request (add_sale_item sale_id item)
              (mkDatabase (Tables.mk cat prd sal sit stk sti mov vps vpr)
                 (Counters.mk c1 c2 c3 c4 c5))) as [[r|e] d'] eqn:Hreq.
  - exists r, d'. split; [reflexivity|]. now apply Hrun.
  - exfalso. revert Hreq.
    unfold add_sale_item, request, SessionLocal, bind, db_query.
    cbn [tables counters txn committed auto_increment pending Tables.sale
         Tables.product Tables.sale_item].
    rewrite Hs. cbn [txn Tables.product]. rewrite Hp.
    cbn [txn Tables.sale_item]. rewrite Hi.
    destruct (SaleItemCreate.unit_price item) as [p|] eqn:Hu;
      cbn [SaleItemCreate.unit_price SaleItemCreate.with_unit_price
           SaleItemCreate.product_id SaleItemCreate.quantity
           SaleItemCreate.discount];
      rewrite ?Hu;
      unfold db_add, db_commit, db_refresh;
      cbn [tables counters txn committed auto_increment pending app
           write_all write key_at nth Tables.sale_item];
      (match goal with
       | |- context [find ?p (sit ++ [?x])%list] =>
           destruct (find_app_last p sit x) as [y Hy];
             [cbn; apply Z.eqb_refl|]
       end);
      rewrite Hy; discriminate.
Qed.

Lemma NoDup_snoc {A} (l : list A) (x : A) :
  NoDup l -> ~ In x l -> NoDup (l ++ [x]).
Proof.
  intros Hl Hx. induction Hl as [|a l Ha Hl IH]; cbn.
  - constructor; [intros [] | constructor].
  - constructor.
    + intros Hin. apply in_app_or in Hin. destruct Hin as [Hin|[<-|[]]].
      * contradiction.
      * apply Hx. now left.
    + apply IH. intros Hin. apply Hx. now right.
Qed.

Lemma first_filter_none {A} (p : A -> bool) (l : list A) :
  first (filter p l) = None -> forall x, In x l -> p x = false.
Proof.
  rewrite <- find_is_first. intros H x Hx. exact (find_none _ _ H x Hx).
Qed.

Lemma first_filter_snoc {A} (p : A -> bool) (l : list A) (x : A) :
  p x = true -> exists y, first (filter p (l ++ [x])) = Some y.
Proof.
  intros Hx. rewrite <- find_is_first. now apply find_app_last.
Qed.

(** The outcome of [add_sale_item] in one statement: either it raised and
    the store is the same, or it added one row for this sale and product
    where there was none. *)
Lemma add_sale_item_outcome (sale_id : Z) (item : SaleItemCreate.t)
    (d d' : Database) (res : Result SaleItemDB.t) :
  request (add_sale_item sale_id item) d = (res, d') ->
  (exists e, res = Raise e /\ d' = d)
  \/ (exists r row,
         res = Ok r
         /\ sale_by_id (tables d) sale_id <> None
         /\ product_by_id (tables d) (SaleItemCreate.product_id item) <> None
         /\ sale_item_of (tables d) sale_id (SaleItemCreate.product_id item) = None
         /\ find (fun i => (SaleItemDB.sale_item_id i
                            =? Counters.sale_item (counters d))%Z)
              (Tables.sale_item (tables d')) = Some r
         /\ Tables.sale_item (tables d') = (Tables.sale_item (tables d) ++ [row])%list
         /\ SaleItemDB.sale_id row = sale_id
         /\ SaleItemDB.product_id row = SaleItemCreate.product_id item
         /\ Tables.sale (tables d') = Tables.sale (tables d)
         /\ Tables.product (tables d') = Tables.product (tables d)).
Proof.
  intros H. pose proof (add_sale_item_run sale_id item d) as Hrun.
  cbv zeta in Hrun.
  destruct (sale_by_id (tables d) sale_id) eqn:Hs.
  2:{ left. rewrite Hrun in H. injection H as <- <-. eauto. }
  destruct (product_by_id (tables d) (SaleItemCreate.product_id item)) eqn:Hp.
  2:{ left. rewrite Hrun in H. injection H as <- <-. eauto. }
  destruct (sale_item_of (tables d) sale_id (SaleItemCreate.product_id item)) eqn:Hi.
  { left. rewrite Hrun in H. injection H as <- <-. eauto. }
  right. destruct Hrun as (r & d0 & Hreq & Hfound & Hrows & Hsale & Hprod).
  rewrite Hreq in H. injection H as <- <-.
  eexists r, _. split; [reflexivity|].
  split; [discriminate|]. split; [discriminate|]. split; [reflexivity|].
  split; [exact Hfound|]. split; [exact Hrows|].
  repeat split; assumption.
Qed.

(** X14.  [add_sale_item] keeps a sale from holding a product twice.  If
    no sale has two items for the same product before the call, none has
    after it, whether the call returned or raised. *)
Theorem add_sale_item_keeps_products_distinct
    (sale_id : Z) (item : SaleItemCreate.t) (d d' : Database)
    (res : Result SaleItemDB.t) :
  no_product_twice (Tables.sale_item (tables d)) ->
  request (add_sale_item sale_id item) d = (res, d') ->
  no_product_twice (Tables.sale_item (tables d')).
Proof.
  intros Hinv H.
  destruct (add_sale_item_outcome sale_id item d d' res H)
    as [(e & _ & ->)|(r & row & _ & _ & _ & Hnone & _ & Hrows & Hsid & Hpid & _)];
    [exact Hinv|].
  unfold no_product_twice in *. rewrite Hrows, map_app. cbn [map].
  apply NoDup_snoc; [exact Hinv|].
  rewrite Hsid, Hpid. intros Hin. apply in_map_iff in Hin.
  destruct Hin as (x & Hx & Hxin). injection Hx as H1 H2.
  pose proof (first_filter_none _ _ Hnone x Hxin) as Hf. cbn in Hf.
  rewrite H1, H2, !Z.eqb_refl in Hf. discriminate Hf.
Qed.

Lemma add_sale_item_keeps_products_distinct_witness :
  no_product_twice
    (Tables.sale_item
       (tables (snd (request (add_sale_item 1 (SaleItemCreate.mk 2 1 None 0)) shop)))).
Proof.
  apply (add_sale_item_keeps_products_distinct 1 (SaleItemCreate.mk 2 1 None 0)
           shop _ (fst (request (add_sale_item 1 (SaleItemCreate.mk 2 1 None 0))
                          shop))).
  - unfold no_product_twice. cbn. repeat constructor. intros [].
  - reflexivity.
Defined.

(** X15.  A product added to a sale cannot be added to it again.  After
    [add_sale_item] has returned, a second [add_sale_item] for the same
    sale and the same product, whatever its quantity, price and discount,
    raises the 400 and leaves the store as the first call left it. *)
Theorem second_add_of_a_product_is_refused
    (sale_id : Z) (item item2 : SaleItemCreate.t) (d d' : Database)
    (r : SaleItemDB.t) :
  request (add_sale_item sale_id item) d = (Ok r, d') ->
  SaleItemCreate.product_id item2 = SaleItemCreate.product_id item ->
  request (add_sale_item sale_id item2) d'
  = (Raise (HTTPException 400
              ("สินค้า ID " ++ str (SaleItemCreate.product_id item)
               ++ " มีอยู่แล้วในรายการขายนี้")), d').
Proof.
  intros H Hpid.
  destruct (add_sale_item_outcome sale_id item d d' _ H)
    as [(e & He & _)|(r0 & row & _ & Hs & Hp & _ & _ & Hrows & Hsid & Hrpid
                      & Hsale & Hprod)];
    [discriminate He|].
  pose proof (add_sale_item_run sale_id item2 d') as Hrun. cbv zeta in Hrun.
  rewrite Hpid in Hrun.
  unfold sale_by_id, product_by_id, sale_item_of in *.
  rewrite Hsale, Hprod, Hrows in Hrun.
  destruct (first (filter _ (Tables.sale (tables d)))); [|contradiction].
  destruct (first (filter _ (Tables.product (tables d)))); [|contradiction].
  match type of Hrun with
  | context [first (filter ?p (_ ++ [row])%list)] =>
      destruct (first_filter_snoc p (Tables.sale_item (tables d)) row) as [y Hy];
        [rewrite Hsid, Hrpid, !Z.eqb_refl; reflexivity|]
  end.
  rewrite Hy in Hrun. exact Hrun.
Qed.

Lemma second_add_of_a_product_is_refused_witness :
  let d' := snd (request (add_sale_item 1 (SaleItemCreate.mk 2 1 None 0)) shop) in
  request (add_sale_item 1 (SaleItemCreate.mk 2 5 (Some 1%Q) 0)) d'
  = (Raise (HTTPException 400
              ("สินค้า ID " ++ str 2 ++ " มีอยู่แล้วในรายการขายนี้")), d').
Proof.
  intros d'.
  apply (second_add_of_a_product_is_refused 1 (SaleItemCreate.mk 2 1 None 0)
           (SaleItemCreate.mk 2 5 (Some 1%Q) 0) shop d'
           (SaleItemDB.mk 2 1 2 1 4 0)).
  - reflexivity.
  - reflexivity.
Defined.

Lemma get_sale_items_run (sale_item_id : Z) (d : Database) :
  request (get_sale_items sale_item_id) d =
  (match find (fun i => (SaleItemDB.sale_item_id i =? sale_item_id)%Z)
           (Tables.sale_item (tables d)) with
   | Some items => Ok items
   | None => Raise (HTTPException 404 "ไม่พบรายการสินค้าสำหรับการขายนี้")
   end, d).
Proof.
  unfold get_sale_items. run_request. rewrite find_is_first.
  destruct (first _); destruct d; reflexivity.
Qed.

(** X16.  An added item can be read back as it was returned.  After
    [add_sale_item] has returned an item, [get_sale_items] with its
    [sale_item_id], on the store the call left, returns the same item. *)
Theorem added_sale_item_reads_back
    (sale_id : Z) (item : SaleItemCreate.t) (d d' : Database) (r : SaleItemDB.t) :
  request (add_sale_item sale_id item) d = (Ok r, d') ->
  request (get_sale_items (SaleItemDB.sale_item_id r)) d' = (Ok r, d').
Proof.
  intros H.
  destruct (add_sale_item_outcome sale_id item d d' _ H)
    as [(e & He & _)|(r0 & row & Hr & _ & _ & _ & Hfound & _)];
    [discriminate He|].
  injection Hr as <-.
  pose proof (find_some _ _ Hfound) as [_ Hk]. apply Z.eqb_eq in Hk.
  now rewrite get_sale_items_run, Hk, Hfound.
Qed.

Lemma added_sale_item_reads_back_witness :
  let d' := snd (request (add_sale_item 1 (SaleItemCreate.mk 2 1 None 0)) shop) in
  request (get_sale_items (SaleItemDB.sale_item_id (SaleItemDB.mk 2 1 2 1 4 0))) d'
  = (Ok (SaleItemDB.mk 2 1 2 1 4 0), d').
Proof.
  intros d'.
  apply (added_sale_item_reads_back 1 (SaleItemCreate.mk 2 1 None 0) shop d'
           (SaleItemDB.mk 2 1 2 1 4 0)).
  reflexivity.
Defined.

(** ** A product *)

(** The three ways through [create_product]. *)
Lemma create_product_run (product : ProductCreate.t) (d : Database) :
  match ProductCreate.category_id product with
  | Some cid =>
      category_by_id (tables d) cid = None ->
      request (create_product product) d
      = (Raise (HTTPException 400 ("ไม่พบหมวดหมู่ ID: " ++ str cid)), d)
  | None => True
  end
  /\ ((forall cid, ProductCreate.category_id product = Some cid ->
                   category_by_id (tables d) cid <> None) ->
      match truthy_str (ProductCreate.sku product) with
      | Some sku =>
          product_with_sku (tables d) sku <> None ->
          request (create_product product) d
          = (Raise (HTTPException 400
                      ("มีสินค้าที่มี SKU '" ++ sku ++ "' นี้อยู่แล้ว")), d)
      | None => True
      end
      /\ ((forall sku, truthy_str (ProductCreate.sku product) = Some sku ->
                       product_with_sku (tables d) sku = None) ->
          exists r d',
            request (create_product product) d = (Ok r, d')
            /\ find (fun p => (ProductDB.product_id p
                               =? Counters.product (counters d))%Z)
                 (Tables.product (tables d')) = Some r
            /\ Tables.product (tables d')
               = (Tables.product (tables d)
                  ++ [product_row (Counters.product (counters d)) product])%list
            /\ Tables.category (tables d') = Tables.category (tables d))).
Proof.
  unfold category_by_id, product_with_sku.
  destruct d as [[cat prd sal sit stk sti mov vps vpr] [c1 c2 c3 c4 c5]].
  cbn [tables counters Tables.category Tables.product Counters.product].
  assert (Hcat : forall cid,
             ProductCreate.category_id product = Some cid ->
             first (filter (fun c => (CategoryDB.category_id c =? cid)%Z) cat)
             = None ->
             request (create_product product)
               (mkDatabase (Tables.mk cat prd sal sit stk sti mov vps vpr)
                  (Counters.mk c1 c2 c3 c4 c5))
             = (Raise (HTTPException 400 ("ไม่พบหมวดหมู่ ID: " ++ str cid)),
                mkDatabase (Tables.mk cat prd sal sit stk sti mov vps vpr)
                  (Counters.mk c1 c2 c3 c4 c5))).
  { intros cid Hc Hnone.
    unfold create_product, request, SessionLocal. rewrite Hc.
    cbv beta iota. unfold bind at 1. unfold bind at 1, db_query at 1.
    cbn [txn Tables.category tables]. now rewrite Hnone. }
  split.
  { destruct (ProductCreate.category_id product) as [cid|] eqn:Hc; [|exact I].
    now apply Hcat. }
  intros Hcok.
  assert (Hpre : forall s k,
             (match ProductCreate.category_id product with
              | Some cid =>
                  q <- db_query Tables.category ;;
                  match first (filter (fun c => (CategoryDB.category_id c =? cid)%Z) q) with
                  | None => raise (HTTPException 400 ("ไม่พบหมวดหมู่ ID: " ++ str cid))
                  | Some _ => ret tt
                  end
              | None => ret tt
              end ;; k)%handler
               (mkSession (Tables.mk cat prd sal sit stk sti mov vps vpr)
                  (Tables.mk cat prd sal sit stk sti mov vps vpr) s [])
             = k (mkSession (Tables.mk cat prd sal sit stk sti mov vps vpr)
                    (Tables.mk cat prd sal sit stk sti mov vps vpr) s [])
             :> Result ProductDB.t * Session).
  { intros s k. unfold bind at 1.
    destruct (ProductCreate.category_id product) as [cid|] eqn:Hc; [|reflexivity].
    unfold bind, db_query. cbn [txn Tables.category].
    specialize (Hcok cid eq_refl).
    destruct (first _); [reflexivity | contradiction]. }
  split.
  { destruct (truthy_str (ProductCreate.sku product)) as [sku|] eqn:Hsku; [|exact I].
    intros Hused.
    unfold create_product, request, SessionLocal. cbn [tables counters].
    rewrite Hpre, Hsku.
    unfold bind at 1. unfold bind at 1, db_query at 1.
    cbn [txn Tables.product].
    destruct (first _); [reflexivity | contradiction]. }
  intros Hfree.
  assert (Hsku : forall s k,
             (match truthy_str (ProductCreate.sku product) with
              | Some sku =>
                  q <- db_query Tables.product ;;
                  match first (filter (fun p => sql_eq_str (ProductDB.sku p) sku) q) with
                  | Some _ =>
                      raise (HTTPException 400
                               ("มีสินค้าที่มี SKU '" ++ sku ++ "' นี้อยู่แล้ว"))
                  | None => ret tt
                  end
              | None => ret tt
              end ;; k)%handler
               (mkSession (Tables.mk cat prd sal sit stk sti mov vps vpr)
                  (Tables.mk cat prd sal sit stk sti mov vps vpr) s [])
             = k (mkSession (Tables.mk cat prd sal sit stk sti mov vps vpr)
                    (Tables.mk cat prd sal sit stk sti mov vps vpr) s [])
             :> Result ProductDB.t * Session).
  { intros s k. unfold bind at 1.
    destruct (truthy_str (ProductCreate.sku product)) as [sku|] eqn:Hs;
      [|reflexivity].
    unfold bind, db_query. cbn [txn Tables.product].
    now rewrite (Hfree sku eq_refl). }
  unfold create_product, request, SessionLocal. cbn [tables counters].
  rewrite Hpre, Hsku.
  unfold bind, ret, db_add, db_commit, db_refresh.
  cbn [committed txn auto_increment pending app write_all write key_at nth
       Tables.product].
  match goal with
  | |- context [find ?p (prd ++ [?x])%list] =>
      destruct (find_app_last p prd x) as [y Hy];
        [cbn; apply Z.eqb_refl|]
  end.
  rewrite Hy. unfold close, product_row.
  cbn [committed auto_increment tables Tables.product Tables.category].
  eexists. eexists. split; [reflexivity|]. split; [exact Hy|].
  split; reflexivity.
Qed.

Lemma create_product_outcome (product : ProductCreate.t) (d d' : Database)
    (res : Result ProductDB.t) :
  request (create_product product) d = (res, d') ->
  (exists e, res = Raise e /\ d' = d)
  \/ (exists r,
         res = Ok r
         /\ find (fun p => (ProductDB.product_id p
                            =? Counters.product (counters d))%Z)
              (Tables.product (tables d')) = Some r
         /\ Tables.product (tables d')
            = (Tables.product (tables d)
               ++ [product_row (Counters.product (counters d)) product])%list
         /\ Tables.category (tables d') = Tables.category (tables d)
         /\ (forall cid, ProductCreate.category_id product = Some cid ->
                         category_by_id (tables d) cid <> None)
         /\ (forall sku, truthy_str (ProductCreate.sku product) = Some sku ->
                         product_with_sku (tables d) sku = None)).
Proof.
  intros H. destruct (create_product_run product d) as [Hcat Hrest].
  assert (Dcat : (exists cid, ProductCreate.category_id product = Some cid
                              /\ category_by_id (tables d) cid = None)
                 \/ (forall cid, ProductCreate.category_id product = Some cid ->
                                 category_by_id (tables d) cid <> None)).
  { destruct (ProductCreate.category_id product) as [cid|]; [|right; discriminate].
    destruct (category_by_id (tables d) cid) eqn:E.
    - right. intros c [= <-]. now rewrite E.
    - left. now exists cid. }
  destruct Dcat as [(cid & Hc & Hnone)|Hcok].
  { left. rewrite Hc in Hcat. rewrite (Hcat Hnone) in H.
    injection H as <- <-. eauto. }
  destruct (Hrest Hcok) as [Hsku Hok].
  assert (Dsku : (exists sku, truthy_str (ProductCreate.sku product) = Some sku
                              /\ product_with_sku (tables d) sku <> None)
                 \/ (forall sku, truthy_str (ProductCreate.sku product) = Some sku ->
                                 product_with_sku (tables d) sku = None)).
  { destruct (truthy_str (ProductCreate.sku product)) as [sku|]; [|right; discriminate].
    destruct (product_with_sku (tables d) sku) eqn:E.
    - left. exists sku. split; [reflexivity|]. now rewrite E.
    - right. now intros s [= <-]. }
  destruct Dsku as [(sku & Hs & Hused)|Hfree].
  { left. rewrite Hs in Hsku. rewrite (Hsku Hused) in H.
    injection H as <- <-. eauto. }
  right. destruct (Hok Hfree) as (r & d0 & Hreq & Hfound & Hrows & Hcats).
  rewrite Hreq in H. injection H as <- <-.
  exists r. repeat split; assumption.
Qed.

(** X17.  What [create_product] refuses.  A [category_id] that no
    category has is a 400 naming that id; with the category in order, a
    non-empty sku that a product already has is a 400 naming that sku.
    Both leave the store unchanged. *)
Theorem create_product_refusals (product : ProductCreate.t) (d : Database) :
  (forall cid,
      ProductCreate.category_id product = Some cid ->
      category_by_id (tables d) cid = None ->
      request (create_product product) d
      = (Raise (HTTPException 400 ("ไม่พบหมวดหมู่ ID: " ++ str cid)), d))
  /\ (forall sku,
         (forall cid, ProductCreate.category_id product = Some cid ->
                      category_by_id (tables d) cid <> None) ->
         ProductCreate.sku product = Some sku -> sku <> "" ->
         product_with_sku (tables d) sku <> None ->
         request (create_product product) d
         = (Raise (HTTPException 400
                     ("มีสินค้าที่มี SKU '" ++ sku ++ "' นี้อยู่แล้ว")), d)).
Proof.
  destruct (create_product_run product d) as [Hcat Hrest]. split.
  - intros cid Hc Hnone. rewrite Hc in Hcat. now apply Hcat.
  - intros sku Hcok Hs Hne Hused. destruct (Hrest Hcok) as [Hsku _].
    unfold truthy_str in Hsku. rewrite Hs in Hsku.
    destruct (String.eqb_spec sku "") as [E|_]; [contradiction|].
    now apply Hsku.
Qed.

Lemma create_product_refusals_witness :
  request (create_product (ProductCreate.build "Jasmine" (Some 1%Z) (Some "GT-1")
                             3 None)) shop
  = (Raise (HTTPException 400 ("มีสินค้าที่มี SKU '" ++ "GT-1" ++ "' นี้อยู่แล้ว")),
     shop).
Proof.
  apply (proj2 (create_product_refusals
                  (ProductCreate.build "Jasmine" (Some 1%Z) (Some "GT-1") 3 None)
                  shop) "GT-1").
  - intros cid [= <-]. discriminate.
  - reflexivity.
  - discriminate.
  - discriminate.
Defined.

(** X18.  [create_product] keeps the skus in use distinct.  If no two
    products share a non-empty sku before the call, none do after it,
    whether the call returned or raised. *)
Theorem create_product_keeps_skus_distinct
    (product : ProductCreate.t) (d d' : Database) (res : Result ProductDB.t) :
  NoDup (skus (Tables.product (tables d))) ->
  request (create_product product) d = (res, d') ->
  NoDup (skus (Tables.product (tables d'))).
Proof.
  intros Hinv H.
  destruct (create_product_outcome product d d' res H)
    as [(e & _ & ->)|(r & _ & _ & Hrows & _ & _ & Hfree)]; [exact Hinv|].
  rewrite Hrows. unfold skus in *. rewrite flat_map_app. cbn [flat_map].
  rewrite app_nil_r. unfold product_row; cbn [ProductDB.sku].
  destruct (truthy_str (ProductCreate.sku product)) as [sku|] eqn:Hs;
    [|now rewrite app_nil_r].
  apply NoDup_snoc; [exact Hinv|].
  intros Hin. apply in_flat_map in Hin. destruct Hin as (x & Hx & Hsx).
  specialize (Hfree sku eq_refl). unfold product_with_sku in Hfree.
  pose proof (first_filter_none _ _ Hfree x Hx) as Hf. cbn in Hf.
  unfold truthy_str in Hsx. destruct (ProductDB.sku x) as [s|]; [|contradiction].
  destruct (String.eqb s ""); [contradiction|].
  destruct Hsx as [<-|[]]. cbn in Hf. now rewrite String.eqb_refl in Hf.
Qed.

Lemma create_product_keeps_skus_distinct_witness :
  NoDup (skus (Tables.product
                 (tables (snd (request (create_product
                                          (ProductCreate.build "Jasmine" None
                                             (Some "JT-1") 3 None)) shop))))).
Proof.
  apply (create_product_keeps_skus_distinct
           (ProductCreate.build "Jasmine" None (Some "JT-1") 3 None) shop _
           (fst (request (create_product
                            (ProductCreate.build "Jasmine" None (Some "JT-1") 3 None))
                   shop))).
  - cbn. repeat constructor. intros [].
  - reflexivity.
Defined.

(** X19.  [create_product] keeps the products' categories in the table.
    If every product that names a category names an existing one before
    the call, the same holds after it. *)
Theorem create_product_keeps_categories
    (product : ProductCreate.t) (d d' : Database) (res : Result ProductDB.t) :
  categories_exist (tables d) ->
  request (create_product product) d = (res, d') ->
  categories_exist (tables d').
Proof.
  intros Hinv H.
  destruct (create_product_outcome product d d' res H)
    as [(e & _ & ->)|(r & _ & _ & Hrows & Hcats & Hcok & _)]; [exact Hinv|].
  unfold categories_exist, category_by_id in *.
  intros x c Hx Hc. rewrite Hcats. rewrite Hrows in Hx.
  apply in_app_or in Hx. destruct Hx as [Hx|[<-|[]]].
  - now apply (Hinv x c).
  - now apply Hcok.
Qed.

Lemma create_product_keeps_categories_witness :
  categories_exist
    (tables (snd (request (create_product
                             (ProductCreate.build "Jasmine" (Some 1%Z) None 3 None))
                    shop))).
Proof.
  apply (create_product_keeps_categories
           (ProductCreate.build "Jasmine" (Some 1%Z) None 3 None) shop _
           (fst (request (create_product
                            (ProductCreate.build "Jasmine" (Some 1%Z) None 3 None))
                   shop))).
  - intros x c [<-|[<-|[]]]; cbn; intros [= <-]. discriminate.
  - reflexivity.
Defined.

Lemma get_product_by_id_run (product_id : Z) (d : Database) :
  request (get_product_by_id product_id) d =
  (match find (fun p => (ProductDB.product_id p =? product_id)%Z)
           (Tables.product (tables d)) with
   | Some db_product => Ok db_product
   | None => Raise (HTTPException 404 "ไม่พบสินค้าที่ต้องการ")
   end, d).
Proof.
  unfold get_product_by_id. run_request. rewrite find_is_first.
  destruct (first _); destruct d; reflexivity.
Qed.

(** X20.  A created product can be read back as it was returned.  After
    [create_product] has returned a product, [get_product_by_id] with its
    [product_id], on the store the call left, returns the same product. *)
Theorem created_product_reads_back
    (product : ProductCreate.t) (d d' : Database) (r : ProductDB.t) :
  request (create_product product) d = (Ok r, d') ->
  request (get_product_by_id (ProductDB.product_id r)) d' = (Ok r, d').
Proof.
  intros H.
  destruct (create_product_outcome product d d' _ H)
    as [(e & He & _)|(r0 & Hr & Hfound & _)]; [discriminate He|].
  injection Hr as <-.
  pose proof (find_some _ _ Hfound) as [_ Hk]. apply Z.eqb_eq in Hk.
  now rewrite get_product_by_id_run, Hk, Hfound.
Qed.

Lemma created_product_reads_back_witness :
  let r := ProductDB.mk 3 "Jasmine" (Some 1%Z) (Some "JT-1") 3 10 in
  let d' := snd (request (create_product
                            (ProductCreate.build "Jasmine" (Some 1%Z)
                               (Some "JT-1") 3 None)) shop) in
  request (get_product_by_id (ProductDB.product_id r)) d' = (Ok r, d').
Proof.
  intros r d'.
  apply (created_product_reads_back
           (ProductCreate.build "Jasmine" (Some 1%Z) (Some "JT-1") 3 None)
           shop d' r).
  reflexivity.
Defined.

(** ** A stock-in and its items *)

(** The two ways through [create_stock_in]. *)
Lemma create_stock_in_run (now : Z) (stock_in : StockInCreate.t) (d : Database) :
  match find (fun it => product_missing (tables d) (StockInItemCreate.product_id it))
          (StockInCreate.items stock_in) with
  | Some it =>
      request (create_stock_in now stock_in) d
      = (Raise (HTTPException 404
                  ("ไม่พบสินค้า ID: " ++ str (StockInItemCreate.product_id it))), d)
  | None =>
      exists r d',
        request (create_stock_in now stock_in) d = (Ok r, d')
        /\ d' = stock_in_committed d
                  (StockInDB.mk 0 (StockInCreate.ref_no stock_in)
                     (match StockInCreate.stock_in_date stock_in with
                      | Some t => t
                      | None => now
                      end)
                     0%Q (StockInCreate.notes stock_in))
                  (map (fun item =>
                          StockInItemDB.mk 0 (Counters.stock_in (counters d))
                            (StockInItemCreate.product_id item)
                            (StockInItemCreate.quantity item)
                            (StockInItemCreate.unit_cost item))
                     (StockInCreate.items stock_in))
        /\ find (fun s => (StockInDB.stock_in_id s
                           =? Counters.stock_in (counters d))%Z)
             (Tables.stock_in (tables d')) = Some (fst r)
        /\ snd r = filter (fun i => (StockInItemDB.stock_in_id i
                                     =? Counters.stock_in (counters d))%Z)
                     (Tables.stock_in_item (tables d'))
  end.
Proof.
  destruct (find _ _) as [it|] eqn:Hfind.
  { unfold create_stock_in, request.
    unfold bind at 1. rewrite stock_in_validation_run.
    unfold SessionLocal at 1. cbn [txn]. rewrite Hfind.
    unfold SessionLocal, close; cbn. now destruct d. }
  unfold create_stock_in, request.
  unfold bind at 1. rewrite stock_in_validation_run.
  unfold SessionLocal at 1. cbn [txn]. rewrite Hfind.
  destruct d as [[cat prd sal sit stk sti mov vps vpr] [c1 c2 c3 c4 c5]].
  unfold SessionLocal. cbn [tables counters Counters.stock_in].
  unfold bind at 1, db_add at 1.
  cbn [committed txn auto_increment pending app].
  unfold bind at 1, db_flush at 1.
  cbn [committed txn auto_increment pending write_all write key_at nth].
  unfold bind at 1.
  match goal with
  | |- context [for_each ?l ?b ?s] =>
      pose proof (for_each_run l b (fun _ _ => false)
                    (fun _ => InvalidRequestError)
                    (fun _ item =>
                       [NewStockInItem
                          (StockInItemDB.mk 0 c4
                             (StockInItemCreate.product_id item)
                             (StockInItemCreate.quantity item)
                             (StockInItemCreate.unit_cost item))])
                    (fun it s0 => eq_refl) s) as Hloop
  end.
  replace (find _ (StockInCreate.items stock_in)) with (@None StockInItemCreate.t)
    in Hloop by (clear; induction (StockInCreate.items stock_in); auto).
  rewrite Hloop. clear Hloop.
  unfold push. cbn [committed txn auto_increment pending app].
  match goal with
  | |- context [flat_map ?f ?l] =>
      replace (flat_map f l) with
        (map NewStockInItem
           (map (fun item =>
                   StockInItemDB.mk 0 c4 (StockInItemCreate.product_id item)
                     (StockInItemCreate.quantity item)
                     (StockInItemCreate.unit_cost item)) l))
        by (clear; induction l as [|x r IH]; cbn; [|rewrite IH]; reflexivity)
  end.
  set (rows := map (fun item => StockInItemDB.mk _ _ _ _ _) _).
  unfold bind at 1, db_commit at 1. cbn [committed txn auto_increment pending].
  match goal with
  | |- context [write_all (map NewStockInItem rows) ?tb ?c] =>
      match tb with
      | Tables.mk ?a1 ?a2 ?a3 ?a4 ?a5 ?a6 ?a7 ?a8 ?a9 =>
          destruct (write_all_stock_in_items rows a1 a2 a3 a4 a5 a6 a7 a8 a9
                      c1 c2 c3 (c4 + 1)%Z c5) as [ks ->]
      end
  end.
  unfold bind at 1, db_refresh at 1. cbn [txn Tables.stock_in].
  match goal with
  | |- context [find ?p (stk ++ [?x])%list] =>
      destruct (find_app_last p stk x) as [y Hy];
        [cbn; apply Z.eqb_refl|]
  end.
  rewrite Hy.
  unfold bind, db_query, ret, close, stock_in_committed.
  cbn [txn committed auto_increment tables counters Tables.stock_in_item].
  eexists. eexists. split; [reflexivity|]. split; [reflexivity|].
  cbn [fst snd tables Tables.stock_in Tables.stock_in_item].
  split; [exact Hy | reflexivity].
Qed.

Lemma stock_in_committed_tables (d : Database) (new_stock_in : StockInDB.t)
    (rows : list StockInItemDB.t) :
  let d' := stock_in_committed d new_stock_in rows in
  Tables.stock_in (tables d')
  = (Tables.stock_in (tables d)
     ++ [StockInDB.inserted (Counters.stock_in (counters d)) new_stock_in])%list
  /\ Tables.stock_in_item (tables d')
     = (Tables.stock_in_item (tables d)
        ++ number_stock_in_items (Counters.stock_in_item (counters d)) rows)%list
  /\ Tables.category (tables d') = Tables.category (tables d)
  /\ Tables.product (tables d') = Tables.product (tables d)
  /\ Tables.sale (tables d') = Tables.sale (tables d)
  /\ Tables.sale_item (tables d') = Tables.sale_item (tables d).
Proof. destruct d as [[] []]. cbn. repeat split. Qed.

(** How a stored stock-in item answers to the item of the request it was
    made from. *)
Lemma stock_in_items_stored (sid k : Z) (items : list StockInItemCreate.t) :
  Forall2 (fun item row =>
             StockInItemDB.stock_in_id row = sid
             /\ StockInItemDB.product_id row = StockInItemCreate.product_id item
             /\ StockInItemDB.quantity row = StockInItemCreate.quantity item
             /\ at_two_places (StockInItemCreate.unit_cost item)
                  (StockInItemDB.unit_cost row))
    items
    (number_stock_in_items k
       (map (fun item =>
               StockInItemDB.mk 0 sid (StockInItemCreate.product_id item)
                 (StockInItemCreate.quantity item)
                 (StockInItemCreate.unit_cost item)) items)).
Proof.
  revert k. induction items as [|x r IH]; intros k; cbn; constructor.
  - split; [reflexivity|]. split; [reflexivity|]. split; [reflexivity|].
    apply decimal_2_rounds.
  - apply IH.
Qed.



Lemma get_stock_in_by_id_run (stock_in_id : Z) (d : Database) :
  request (get_stock_in_by_id stock_in_id) d =
  (match find (fun s => (StockInDB.stock_in_id s =? stock_in_id)%Z)
           (Tables.stock_in (tables d)) with
   | Some stock_in =>
       Ok (stock_in,
           filter (fun i => (StockInItemDB.stock_in_id i
                             =? StockInDB.stock_in_id stock_in)%Z)
             (Tables.stock_in_item (tables d)))
   | None => Raise (HTTPException 404 "ไม่พบรายการสินค้าเข้าที่ต้องการ")
   end, d).
Proof.
  unfold get_stock_in_by_id. run_request. rewrite find_is_first.
  destruct (first _); destruct d; reflexivity.
Qed.

(** X22.  A stock-in can be read back as it was returned.  After
    [create_stock_in] has returned a stock-in, [get_stock_in_by_id] with
    its [stock_in_id], on the store the call left, returns the same
    stock-in with the same items and leaves the store as it is. *)
Theorem created_stock_in_reads_back
    (now : Z) (stock_in : StockInCreate.t) (d d' : Database)
    (r : StockInDB.t * list StockInItemDB.t) :
  request (create_stock_in now stock_in) d = (Ok r, d') ->
  request (get_stock_in_by_id (StockInDB.stock_in_id (fst r))) d' = (Ok r, d').
Proof.
  intros H. pose proof (create_stock_in_run now stock_in d) as Hrun.
  destruct (find _ _) as [it|]; [rewrite Hrun in H; discriminate H|].
  destruct Hrun as (r0 & d0 & Hreq & _ & Hfound & Hitems).
  rewrite Hreq in H. injection H as <- <-.
  pose proof (find_some _ _ Hfound) as [_ Hk]. apply Z.eqb_eq in Hk.
  rewrite get_stock_in_by_id_run, Hk, Hfound, Hk, <- Hitems.
  now destruct r0.
Qed.

Lemma created_stock_in_reads_back_witness :
  let r := (StockInDB.mk 1 (Some "PO-1") 3000 0 None,
            [StockInItemDB.mk 1 1 1 5 2; StockInItemDB.mk 2 1 2 1 1]) in
  let d' := snd (request (create_stock_in 3000
                            (StockInCreate.mk None (Some "PO-1") None
                               [StockInItemCreate.mk 1 5 2;
                                StockInItemCreate.mk 2 1 1])) shop) in
  request (get_stock_in_by_id (StockInDB.stock_in_id (fst r))) d' = (Ok r, d').
Proof.
  intros r d'.
  apply (created_stock_in_reads_back 3000
           (StockInCreate.mk None (Some "PO-1") None
              [StockInItemCreate.mk 1 5 2; StockInItemCreate.mk 2 1 1])
           shop d' r).
  reflexivity.
Defined.

(** The four ways through [add_stock_in_item]. *)
Lemma add_stock_in_item_run (stock_in_id : Z) (item : StockInItemCreate.t)
    (d : Database) :
  let pid := StockInItemCreate.product_id item in
  match stock_in_by_id (tables d) stock_in_id with
  | None =>
      request (add_stock_in_item stock_in_id item) d
      = (Raise (HTTPException 404 "ไม่พบรายการสินค้าเข้า"), d)
  | Some _ =>
      match product_by_id (tables d) pid with
      | None =>
          request (add_stock_in_item stock_in_id item) d
          = (Raise (HTTPException 404 ("ไม่พบสินค้า ID: " ++ str pid)), d)
      | Some _ =>
          match stock_in_item_of (tables d) stock_in_id pid with
          | Some _ =>
              request (add_stock_in_item stock_in_id item) d
              = (Raise (HTTPException 400
                          ("สินค้า ID " ++ str pid
                           ++ " มีอยู่แล้วในรายการสินค้าเข้านี้")), d)
          | None =>
              exists r d',
                request (add_stock_in_item stock_in_id item) d = (Ok r, d')
                /\ find (fun i => (StockInItemDB.stock_in_item_id i
                                   =? Counters.stock_in_item (counters d))%Z)
                     (Tables.stock_in_item (tables d')) = Some r
                /\ Tables.stock_in_item (tables d')
                   = (Tables.stock_in_item (tables d)
                      ++ [StockInItemDB.inserted
                            (Counters.stock_in_item (counters d))
                            (StockInItemDB.mk 0 stock_in_id pid
                               (StockInItemCreate.quantity item)
                               (StockInItemCreate.unit_cost item))])%list
                /\ Tables.stock_in (tables d') = Tables.stock_in (tables d)
                /\ Tables.product (tables d') = Tables.product (tables d)
          end
      end
  end.
Proof.
  intros pid. subst pid. unfold stock_in_by_id, product_by_id, stock_in_item_of.
  destruct d as [[cat prd sal sit stk sti mov vps vpr] [c1 c2 c3 c4 c5]].
  cbn [tables counters Tables.stock_in Tables.product Tables.stock_in_item
       Counters.stock_in_item].
  destruct (first (filter _ stk)) eqn:Hs;
    [destruct (first (filter _ prd)) as [product|] eqn:Hp;
     [destruct (first (filter _ sti)) eqn:Hi|]|].
  4:{ unfold add_stock_in_item, request, SessionLocal, bind, db_query.
      cbn [tables counters txn committed auto_increment pending Tables.stock_in].
      now rewrite Hs. }
  3:{ unfold add_stock_in_item, request, SessionLocal, bind, db_query.
      cbn [tables counters txn committed auto_increment pending Tables.stock_in
           Tables.product].
      rewrite Hs. cbn [txn Tables.product]. now rewrite Hp. }
  1:{ unfold add_stock_in_item, request, SessionLocal, bind, db_query.
      cbn [tables counters txn committed auto_increment pending Tables.stock_in
           Tables.product Tables.stock_in_item].
      rewrite Hs. cbn [txn Tables.product]. rewrite Hp.
      cbn [txn Tables.stock_in_item]. now rewrite Hi. }
  unfold add_stock_in_item, request, SessionLocal, bind, db_query.
  cbn [tables counters txn committed auto_increment pending Tables.stock_in
       Tables.product Tables.stock_in_item].
  rewrite Hs. cbn [txn Tables.product]. rewrite Hp.
  cbn [txn Tables.stock_in_item]. rewrite Hi.
  unfold db_add, db_commit, db_refresh.
  cbn [tables counters txn committed auto_increment pending app
       write_all write key_at nth Tables.stock_in_item].
  match goal with
  | |- context [find ?p (sti ++ [?x])%list] =>
      destruct (find_app_last p sti x) as [y Hy];
        [cbn; apply Z.eqb_refl|]
  end.
  rewrite Hy. unfold close. cbn [committed auto_increment].
  eexists. eexists. split; [reflexivity|].
  cbn [tables Tables.stock_in_item Tables.stock_in Tables.product].
  split; [exact Hy|]. repeat split.
Qed.

(** The outcome of [add_stock_in_item] in one statement. *)
Lemma add_stock_in_item_outcome (stock_in_id : Z) (item : StockInItemCreate.t)
    (d d' : Database) (res : Result StockInItemDB.t) :
  request (add_stock_in_item stock_in_id item) d = (res, d') ->
  (exists e, res = Raise e /\ d' = d)
  \/ (exists r row,
         res = Ok r
         /\ stock_in_by_id (tables d) stock_in_id <> None
         /\ product_by_id (tables d) (StockInItemCreate.product_id item) <> None
         /\ stock_in_item_of (tables d) stock_in_id
              (StockInItemCreate.product_id item) = None
         /\ find (fun i => (StockInItemDB.stock_in_item_id i
                            =? Counters.stock_in_item (counters d))%Z)
              (Tables.stock_in_item (tables d')) = Some r
         /\ Tables.stock_in_item (tables d')
            = (Tables.stock_in_item (tables d) ++ [row])%list
         /\ StockInItemDB.stock_in_id row = stock_in_id
         /\ StockInItemDB.product_id row = StockInItemCreate.product_id item
         /\ Tables.stock_in (tables d') = Tables.stock_in (tables d)
         /\ Tables.product (tables d') = Tables.product (tables d)).
Proof.
  intros H. pose proof (add_stock_in_item_run stock_in_id item d) as Hrun.
  cbv zeta in Hrun.
  destruct (stock_in_by_id (tables d) stock_in_id) eqn:Hs.
  2:{ left. rewrite Hrun in H. injection H as <- <-. eauto. }
  destruct (product_by_id (tables d) (StockInItemCreate.product_id item)) eqn:Hp.
  2:{ left. rewrite Hrun in H. injection H as <- <-. eauto. }
  destruct (stock_in_item_of (tables d) stock_in_id
              (StockInItemCreate.product_id item)) eqn:Hi.
  { left. rewrite Hrun in H. injection H as <- <-. eauto. }
  right. destruct Hrun as (r & d0 & Hreq & Hfound & Hrows & Hstock & Hprod).
  rewrite Hreq in H. injection H as <- <-.
  eexists r, _. split; [reflexivity|].
  split; [discriminate|]. split; [discriminate|]. split; [reflexivity|].
  split; [exact Hfound|]. split; [exact Hrows|].
  repeat split; assumption.
Qed.

(** X23.  [add_stock_in_item] keeps a stock-in from holding a product
    twice.  If no stock-in has two items for the same product before the
    call, none has after it, whether the call returned or raised. *)
Theorem add_stock_in_item_keeps_products_distinct
    (stock_in_id : Z) (item : StockInItemCreate.t) (d d' : Database)
    (res : Result StockInItemDB.t) :
  no_product_twice_in_stock (Tables.stock_in_item (tables d)) ->
  request (add_stock_in_item stock_in_id item) d = (res, d') ->
  no_product_twice_in_stock (Tables.stock_in_item (tables d')).
Proof.
  intros Hinv H.
  destruct (add_stock_in_item_outcome stock_in_id item d d' res H)
    as [(e & _ & ->)|(r & row & _ & _ & _ & Hnone & _ & Hrows & Hsid & Hpid & _)];
    [exact Hinv|].
  unfold no_product_twice_in_stock in *. rewrite Hrows, map_app. cbn [map].
  apply NoDup_snoc; [exact Hinv|].
  rewrite Hsid, Hpid. intros Hin. apply in_map_iff in Hin.
  destruct Hin as (x & Hx & Hxin). injection Hx as H1 H2.
  pose proof (first_filter_none _ _ Hnone x Hxin) as Hf. cbn in Hf.
  rewrite H1, H2, !Z.eqb_refl in Hf. discriminate Hf.
Qed.

Lemma add_stock_in_item_keeps_products_distinct_witness :
  let d := snd (request (create_stock_in 3000
                           (StockInCreate.mk None (Some "PO-1") None
                              [StockInItemCreate.mk 1 5 2])) shop) in
  no_product_twice_in_stock
    (Tables.stock_in_item
       (tables (snd (request (add_stock_in_item 1 (StockInItemCreate.mk 2 1 1)) d)))).
Proof.
  intros d.
  apply (add_stock_in_item_keeps_products_distinct 1 (StockInItemCreate.mk 2 1 1)
           d _ (fst (request (add_stock_in_item 1 (StockInItemCreate.mk 2 1 1)) d))).
  - unfold no_product_twice_in_stock. cbn. repeat constructor. intros [].
  - reflexivity.
Defined.

Lemma Forall2_In_l {A B} (R : A -> B -> Prop) (l : list A) (l' : list B) (x : A) :
  Forall2 R l l' -> In x l -> exists y, In y l' /\ R x y.
Proof.
  induction 1 as [|a b l l' Hab _ IH]; intros Hx; [destruct Hx|].
  destruct Hx as [<-|Hx].
  - exists b. split; [now left | exact Hab].
  - destruct (IH Hx) as (y & Hy & Hr). exists y. split; [now right | exact Hr].
Qed.

(** X24.  A product of a stock-in cannot be added to it again.  After
    [create_stock_in] has returned a stock-in, [add_stock_in_item] on that
    stock-in for a product the request named raises the 400 naming the
    product and leaves the store as it is. *)
Theorem add_to_stock_in_of_a_product_it_has_is_refused
    (now : Z) (stock_in : StockInCreate.t) (item : StockInItemCreate.t)
    (d d' : Database) (r : StockInDB.t * list StockInItemDB.t) :
  request (create_stock_in now stock_in) d = (Ok r, d') ->
  In (StockInItemCreate.product_id item)
    (map StockInItemCreate.product_id (StockInCreate.items stock_in)) ->
  request (add_stock_in_item (StockInDB.stock_in_id (fst r)) item) d'
  = (Raise (HTTPException 400
              ("สินค้า ID " ++ str (StockInItemCreate.product_id item)
               ++ " มีอยู่แล้วในรายการสินค้าเข้านี้")), d').
Proof.
  intros H Hin. pose proof (create_stock_in_run now stock_in d) as Hrun.
  destruct (find _ _) as [it|] eqn:Hfind; [rewrite Hrun in H; discriminate H|].
  destruct Hrun as (r0 & d0 & Hreq & Hd0 & Hfound & _).
  rewrite Hreq in H. injection H as <- <-.
  pose proof (find_some _ _ Hfound) as [_ Hk]. apply Z.eqb_eq in Hk.
  match type of Hd0 with
  | _ = stock_in_committed d ?s ?rows =>
      pose proof (stock_in_committed_tables d s rows) as Ht
  end.
  cbv zeta in Ht. rewrite <- Hd0 in Ht.
  destruct Ht as (_ & Hi & _ & Hprod & _).
  pose proof (add_stock_in_item_run (StockInDB.stock_in_id (fst r0)) item d0)
    as Hadd.
  cbv zeta in Hadd. unfold stock_in_by_id in Hadd at 1.
  rewrite <- find_is_first, Hk, Hfound in Hadd.
  (* the product is there: the request named it and every product named was *)
  apply in_map_iff in Hin. destruct Hin as (it & Hpid & Hit).
  pose proof (find_none _ _ Hfind it Hit) as Hm. unfold product_missing in Hm.
  unfold product_by_id in Hadd, Hm. rewrite Hprod, <- Hpid in Hadd.
  destruct (first (filter _ (Tables.product (tables d)))); [|discriminate Hm].
  (* and the stock-in has an item for it *)
  unfold stock_in_item_of in Hadd. rewrite <- find_is_first, Hi in Hadd.
  match type of Hadd with
  | context [find ?p (?l ++ ?rows)%list] =>
      assert (Hsome : exists y, find p (l ++ rows)%list = Some y)
  end.
  { pose proof (stock_in_items_stored (Counters.stock_in (counters d))
                  (Counters.stock_in_item (counters d))
                  (StockInCreate.items stock_in)) as Hst.
    destruct (Forall2_In_l _ _ _ it Hst Hit) as (row & Hrow & Hs & Hp & _).
    match goal with
    | |- exists y, find ?p ?l = Some y =>
        destruct (find p l) as [y|] eqn:E; [now exists y|];
          pose proof (find_none _ _ E row) as Hn
    end.
    exfalso. cbn in Hn. rewrite Hs, Hp, !Z.eqb_refl in Hn.
    specialize (Hn ltac:(apply in_or_app; now right)). discriminate Hn. }
  destruct Hsome as [y Hy]. rewrite Hy in Hadd. rewrite <- Hpid, Hk. exact Hadd.
Qed.

Lemma add_to_stock_in_of_a_product_it_has_is_refused_witness :
  let stock_in := StockInCreate.mk None (Some "PO-1") None
                    [StockInItemCreate.mk 1 5 2; StockInItemCreate.mk 2 1 1] in
  let r := (StockInDB.mk 1 (Some "PO-1") 3000 0 None,
            [StockInItemDB.mk 1 1 1 5 2; StockInItemDB.mk 2 1 2 1 1]) in
  let d' := snd (request (create_stock_in 3000 stock_in) shop) in
  request (add_stock_in_item (StockInDB.stock_in_id (fst r))
             (StockInItemCreate.mk 2 7 3)) d'
  = (Raise (HTTPException 400
              ("สินค้า ID " ++ str 2 ++ " มีอยู่แล้วในรายการสินค้าเข้านี้")), d').
Proof.
  intros stock_in r d'.
  apply (add_to_stock_in_of_a_product_it_has_is_refused 3000 stock_in
           (StockInItemCreate.mk 2 7 3) shop d' r).
  - reflexivity.
  - cbn. right. now left.
Defined.

Lemma get_stock_in_items_run (stock_in_item_id : Z) (d : Database) :
  request (get_stock_in_items stock_in_item_id) d =
  (match find (fun i => (StockInItemDB.stock_in_item_id i =? stock_in_item_id)%Z)
           (Tables.stock_in_item (tables d)) with
   | Some item => Ok (Some item)
   | None => Raise (HTTPException 404 "ไม่พบรายการสินค้าเข้า")
   end, d).
Proof.
  unfold get_stock_in_items. run_request. rewrite find_is_first.
  destruct (first _) eqn:E; destruct d; cbn in *; rewrite ?E; reflexivity.
Qed.

(** X25.  An added stock-in item can be read back as it was returned.
    After [add_stock_in_item] has returned an item, [get_stock_in_items]
    with its [stock_in_item_id], on the store the call left, returns the
    same item, and never the null its second query could give. *)
Theorem added_stock_in_item_reads_back
    (stock_in_id : Z) (item : StockInItemCreate.t) (d d' : Database)
    (r : StockInItemDB.t) :
  request (add_stock_in_item stock_in_id item) d = (Ok r, d') ->
  request (get_stock_in_items (StockInItemDB.stock_in_item_id r)) d'
  = (Ok (Some r), d').
Proof.
  intros H.
  destruct (add_stock_in_item_outcome stock_in_id item d d' _ H)
    as [(e & He & _)|(r0 & row & Hr & _ & _ & _ & Hfound & _)];
    [discriminate He|].
  injection Hr as <-.
  pose proof (find_some _ _ Hfound) as [_ Hk]. apply Z.eqb_eq in Hk.
  now rewrite get_stock_in_items_run, Hk, Hfound.
Qed.

Lemma added_stock_in_item_reads_back_witness :
  let d := snd (request (create_stock_in 3000
                           (StockInCreate.mk None (Some "PO-1") None
                              [StockInItemCreate.mk 1 5 2])) shop) in
  let d' := snd (request (add_stock_in_item 1 (StockInItemCreate.mk 2 1 1)) d) in
  request (get_stock_in_items
             (StockInItemDB.stock_in_item_id (StockInItemDB.mk 2 1 2 1 1))) d'
  = (Ok (Some (StockInItemDB.mk 2 1 2 1 1)), d').
Proof.
  intros d d'.
  apply (added_stock_in_item_reads_back 1 (StockInItemCreate.mk 2 1 1) d d'
           (StockInItemDB.mk 2 1 2 1 1)).
  reflexivity.
Defined.

(** ** A movement and its type *)

Lemma chr_upper_idem (c : ascii) : chr_upper (chr_upper c) = chr_upper c.
Proof. destruct c as [[] [] [] [] [] [] [] []]; reflexivity. Qed.

Lemma ascii_upper_idem (s : string) : ascii_upper (ascii_upper s) = ascii_upper s.
Proof.
  unfold ascii_upper. induction s as [|c s IH]; cbn; [reflexivity|].
  now rewrite chr_upper_idem, IH.
Qed.

Lemma ascii_upper_empty (s : string) : ascii_upper s = "" <-> s = "".
Proof. destruct s; cbn; split; intros H; (reflexivity || discriminate H). Qed.

Lemma update_movement_type_missing (iter : list string)
    (upper : string -> string) (movement_id : Z)
    (movement_update : InventoryMovementUpdate.t) (d : Database) :
  movement_by_id (tables d) movement_id = None ->
  request (update_inventory_movement_type iter upper movement_id
             movement_update) d
  = (Raise (HTTPException 404
              ("ไม่พบข้อมูลการเคลื่อนไหวสินค้าที่มี ID " ++ str movement_id)), d).
Proof.
  intros Hm. unfold movement_by_id in Hm.
  unfold update_inventory_movement_type, request, SessionLocal.
  unfold bind at 1, db_query at 1. cbn [txn]. rewrite Hm.
  unfold close; cbn. now destruct d.
Qed.

Lemma get_inventory_movement_by_id_run (movement_id : Z) (d : Database) :
  request (get_inventory_movement_by_id movement_id) d =
  (match movement_by_id (tables d) movement_id with
   | Some movement => Ok movement
   | None => Raise (HTTPException 404 "ไม่พบข้อมูลการเคลื่อนไหวสินค้าที่ระบุ")
   end, d).
Proof.
  unfold get_inventory_movement_by_id, movement_by_id. run_request.
  destruct (first _); destruct d; reflexivity.
Qed.

Lemma retyped_row (ty : string) (old new : InventoryMovementDB.t) :
  InventoryMovementDB.movement_type new = ty ->
  same_but_type old new ->
  new = InventoryMovementDB.with_movement_type ty old.
Proof.
  intros Ht (H1 & H2 & H3 & H4 & H5 & H6 & H7 & H8).
  destruct old, new; cbn in *. now subst.
Qed.

Lemma retyped_is_map (k : Z) (ty : string)
    (before after : list InventoryMovementDB.t) :
  movements_retyped k ty before after ->
  after = map (fun m => if (InventoryMovementDB.movement_id m =? k)%Z
                        then InventoryMovementDB.with_movement_type ty m else m)
            before.
Proof.
  unfold movements_retyped. induction 1 as [|old new l l' H _ IH]; cbn;
    [reflexivity|].
  rewrite <- IH. f_equal.
  destruct (InventoryMovementDB.movement_id old =? k)%Z; [|exact H].
  destruct H as [Ht Hs]. now apply retyped_row.
Qed.

Lemma same_but_movements_eq (d d' : Database) :
  same_but_movements d d' ->
  Tables.inventory_movement (tables d') = Tables.inventory_movement (tables d) ->
  d' = d.
Proof.
  intros (Hc & H1 & H2 & H3 & H4 & H5 & H6 & H7 & H8) Hm.
  destruct d as [[] c], d' as [[] c']. cbn in *. now subst.
Qed.

(** X26.  Patching a movement that is not there.  Whatever the body of
    the request, a valid type, an invalid one or none, the call is a 404
    naming the id and the store is as it was: the movement is looked up
    before the type is looked at. *)
Theorem movement_type_patch_of_missing_is_404
    (iter : list string) (upper : string -> string) (movement_id : Z)
    (movement_update : InventoryMovementUpdate.t) (d : Database) :
  movement_by_id (tables d) movement_id = None ->
  request (update_inventory_movement_type iter upper movement_id
             movement_update) d
  = (Raise (HTTPException 404
              ("ไม่พบข้อมูลการเคลื่อนไหวสินค้าที่มี ID " ++ str movement_id)), d).
Proof. apply update_movement_type_missing. Qed.

Lemma movement_type_patch_of_missing_is_404_witness :
  request (update_inventory_movement_type sample_iter ascii_upper 9
             (InventoryMovementUpdate.mk (Some "refund"))) shop
  = (Raise (HTTPException 404
              ("ไม่พบข้อมูลการเคลื่อนไหวสินค้าที่มี ID " ++ str 9)), shop).
Proof.
  apply (movement_type_patch_of_missing_is_404 sample_iter ascii_upper 9
           (InventoryMovementUpdate.mk (Some "refund")) shop).
  reflexivity.
Defined.

(** What a patch that returned has done: the movement was there, and the
    store is either the same (no type given) or has the rows of this key
    retyped. *)
Lemma update_movement_type_outcome (iter : list string)
    (upper : string -> string) (movement_id : Z)
    (movement_update : InventoryMovementUpdate.t) (d d' : Database)
    (r : InventoryMovementDB.t) :
  request (update_inventory_movement_type iter upper movement_id
             movement_update) d
  = (Ok r, d') ->
  exists m,
    movement_by_id (tables d) movement_id = Some m
    /\ match truthy_str (InventoryMovementUpdate.movement_type movement_update) with
       | None => r = m /\ d' = d
       | Some mt =>
           In (upper mt) allowed_types
           /\ r = InventoryMovementDB.with_movement_type (upper mt) m
           /\ same_but_movements d d'
           /\ Tables.inventory_movement (tables d')
              = map (fun x => if (InventoryMovementDB.movement_id x =? movement_id)%Z
                              then InventoryMovementDB.with_movement_type
                                     (upper mt) x
                              else x)
                  (Tables.inventory_movement (tables d))
       end.
Proof.
  intros H.
  destruct (movement_by_id (tables d) movement_id) as [m|] eqn:Hm.
  2:{ rewrite (update_movement_type_missing iter upper movement_id movement_update d Hm)
        in H. discriminate H. }
  exists m. split; [reflexivity|].
  pose proof (update_movement_type_run iter upper movement_id movement_update d m Hm)
    as Hrun.
  destruct (truthy_str _) as [mt|].
  - destruct (str_in (upper mt) allowed_types) eqn:Hin.
    + destruct Hrun as (d0 & Hreq & Hsame & Hrows).
      rewrite Hreq in H. injection H as <- <-.
      split; [now apply str_in_In|]. split; [reflexivity|].
      split; [exact Hsame|]. now apply retyped_is_map.
    + rewrite Hrun in H. discriminate H.
  - rewrite Hrun in H. injection H as <- <-. now split.
Qed.

(** X27.  A patched movement reads back as the patch returned it.  After
    [update_inventory_movement_type] has returned a movement,
    [get_inventory_movement_by_id] with the same id, on the store the
    patch left, returns that same movement. *)
Theorem patched_movement_reads_back
    (iter : list string) (upper : string -> string) (movement_id : Z)
    (movement_update : InventoryMovementUpdate.t) (d d' : Database)
    (r : InventoryMovementDB.t) :
  request (update_inventory_movement_type iter upper movement_id
             movement_update) d
  = (Ok r, d') ->
  request (get_inventory_movement_by_id movement_id) d' = (Ok r, d').
Proof.
  intros H.
  destruct (update_movement_type_outcome iter upper movement_id movement_update
              d d' r H)
    as (m & Hm & Hout).
  rewrite get_inventory_movement_by_id_run.
  destruct (truthy_str _) as [mt|].
  - destruct Hout as (_ & -> & _ & Hrows).
    unfold movement_by_id in *. rewrite <- find_is_first in *.
    now rewrite Hrows, find_retyped, Hm.
  - destruct Hout as [-> ->]. now rewrite Hm.
Qed.

Lemma patched_movement_reads_back_witness :
  let r := InventoryMovementDB.mk 1 1 "STOCK_IN" 20 (Some 1%Q) None None None 500 in
  let d' := snd (request (update_inventory_movement_type sample_iter ascii_upper 1
                            (InventoryMovementUpdate.mk (Some "stock_in"))) shop) in
  request (get_inventory_movement_by_id 1) d' = (Ok r, d').
Proof.
  intros r d'.
  apply (patched_movement_reads_back sample_iter ascii_upper 1
           (InventoryMovementUpdate.mk (Some "stock_in")) shop d' r).
  reflexivity.
Defined.

(** X28.  The patch is idempotent.  After
    [update_inventory_movement_type] has returned, the same request again
    returns the same movement and leaves the store as the first call left
    it. *)
Theorem movement_type_patch_is_idempotent
    (iter : list string) (upper : string -> string) (movement_id : Z)
    (movement_update : InventoryMovementUpdate.t) (d d' : Database)
    (r : InventoryMovementDB.t) :
  request (update_inventory_movement_type iter upper movement_id
             movement_update) d
  = (Ok r, d') ->
  request (update_inventory_movement_type iter upper movement_id movement_update) d'
  = (Ok r, d').
Proof.
  intros H.
  destruct (update_movement_type_outcome iter upper movement_id movement_update
              d d' r H)
    as (m & Hm & Hout).
  destruct (truthy_str (InventoryMovementUpdate.movement_type movement_update))
    as [mt|] eqn:Hmt.
  2:{ destruct Hout as [-> ->]. exact H. }
  destruct Hout as (Hin & -> & _ & Hrows).
  assert (Hm' : movement_by_id (tables d') movement_id
                = Some (InventoryMovementDB.with_movement_type (upper mt) m)).
  { unfold movement_by_id in *. rewrite <- find_is_first in *.
    now rewrite Hrows, find_retyped, Hm. }
  pose proof (update_movement_type_run iter upper movement_id movement_update d' _ Hm')
    as Hrun.
  rewrite Hmt in Hrun. apply str_in_In in Hin. rewrite Hin in Hrun.
  destruct Hrun as (d2 & Hreq & Hsame & Hrows2).
  rewrite Hreq. f_equal.
  apply same_but_movements_eq; [exact Hsame|].
  rewrite (retyped_is_map _ _ _ _ Hrows2).
  rewrite <- (map_id (Tables.inventory_movement (tables d'))) at 2.
  rewrite Hrows, !map_map. apply map_ext. intros x.
  destruct (InventoryMovementDB.movement_id x =? movement_id)%Z eqn:E.
  - cbn [InventoryMovementDB.with_movement_type InventoryMovementDB.movement_id].
    rewrite E. reflexivity.
  - rewrite E. reflexivity.
Qed.

Lemma movement_type_patch_is_idempotent_witness :
  let r := InventoryMovementDB.mk 1 1 "STOCK_IN" 20 (Some 1%Q) None None None 500 in
  let d' := snd (request (update_inventory_movement_type sample_iter ascii_upper 1
                            (InventoryMovementUpdate.mk (Some "stock_in"))) shop) in
  request (update_inventory_movement_type sample_iter ascii_upper 1
             (InventoryMovementUpdate.mk (Some "stock_in"))) d' = (Ok r, d').
Proof.
  intros r d'.
  apply (movement_type_patch_is_idempotent sample_iter ascii_upper 1
           (InventoryMovementUpdate.mk (Some "stock_in")) shop d' r).
  reflexivity.
Defined.

(** X29.  The type of a patch is taken without regard to letter case: a
    request with the type [mt] and a request with [mt.upper()] are the
    same call, on every store, in what they return or raise and in the
    store they leave.  This rests on two facts of [str.upper], which the
    ASCII upper-casing has as well: upper-casing twice is upper-casing
    once, and the empty string, and no other, upper-cases to the empty
    string. *)
Theorem movement_type_patch_ignores_case
    (iter : list string) (upper : string -> string) (movement_id : Z)
    (mt : string) (d : Database) :
  (forall s, upper (upper s) = upper s) ->
  (forall s, upper s = "" <-> s = "") ->
  request (update_inventory_movement_type iter upper movement_id
             (InventoryMovementUpdate.mk (Some mt))) d
  = request (update_inventory_movement_type iter upper movement_id
               (InventoryMovementUpdate.mk (Some (upper mt)))) d.
Proof.
  intros Hidem Hempty. unfold update_inventory_movement_type.
  cbn [InventoryMovementUpdate.movement_type truthy_str].
  destruct (String.eqb_spec mt "") as [E|Hne].
  - subst mt. rewrite (proj2 (Hempty "") eq_refl). reflexivity.
  - destruct (String.eqb_spec (upper mt) "") as [E|_].
    + destruct (Hne (proj1 (Hempty mt) E)).
    + now rewrite Hidem.
Qed.

Lemma movement_type_patch_ignores_case_witness :
  request (update_inventory_movement_type sample_iter ascii_upper 2
             (InventoryMovementUpdate.mk (Some "Opening"))) shop
  = request (update_inventory_movement_type sample_iter ascii_upper 2
               (InventoryMovementUpdate.mk (Some (ascii_upper "Opening")))) shop.
Proof.
  apply (movement_type_patch_ignores_case sample_iter ascii_upper 2 "Opening" shop).
  - exact ascii_upper_idem.
  - exact ascii_upper_empty.
Defined.
